(** * A shallow embedding of [model.py] (LLaMA-2 style decoder, forward pass)

    The Python module is translated function by function.  Python
    exceptions are values of an error monad, integers are [Z], tensors are
    a shape together with their row-major storage, and the mutation of the
    key/value cache is explicit state passing.  Floating-point scalars are
    an abstract type with uninterpreted arithmetic: nothing proved below
    depends on rounding. *)

From Stdlib Require Import String QArith Reals Qreals ZArith List Bool Lia Lra.
From ExtLib Require Import Structures.Monad.
Import ListNotations.
Import MonadNotation.
Local Open Scope monad_scope.
Local Open Scope Z_scope.

Set Implicit Arguments.

(* ===================================================================== *)
(** ** Python exceptions and the error monad *)
(* ===================================================================== *)

(** The exception classes that the modelled code paths can raise. *)
Inductive exn : Type :=
| TypeError
| ValueError
| AssertionError
| ZeroDivisionError
| OverflowError
| IndexError
| RuntimeError.

(** The outcome of evaluating a Python expression: a value, or a raised
    exception that unwinds the rest of the function. *)
Inductive result (A : Type) : Type :=
| Ok (a : A)
| Raise (e : exn).

Arguments Ok {A} a.
Arguments Raise {A} e.

Definition result_bind {A B : Type} (c : result A) (k : A -> result B) : result B :=
  match c with
  | Ok a => k a
  | Raise e => Raise e
  end.

#[global] Instance Monad_result : Monad result :=
  {| ret := @Ok; bind := @result_bind |}.

Definition is_ok {A : Type} (c : result A) : bool :=
  match c with Ok _ => true | Raise _ => false end.

Definition raises {A : Type} (c : result A) : Prop :=
  exists e, c = Raise e.

(** [assert cond] *)
Definition py_assert (cond : bool) : result unit :=
  if cond then Ok tt else Raise AssertionError.

(** Truthiness of a Python [int]. *)
Definition py_truthy (z : Z) : bool := negb (z =? 0).

(** [a // b] on Python ints: floor division, [ZeroDivisionError] on [b = 0].
    [Z.div] rounds towards minus infinity for either sign of [b], as
    Python does. *)
Definition py_floordiv (a b : Z) : result Z :=
  if b =? 0 then Raise ZeroDivisionError else Ok (a / b).

(** [a % b] on Python ints: the result has the sign of [b]. *)
Definition py_mod (a b : Z) : result Z :=
  if b =? 0 then Raise ZeroDivisionError else Ok (a mod b).

(** A Python [float]: a finite double, an infinity or a NaN.  Finite
    doubles are dyadic rationals, so the finite values are taken in [Q]. *)
Inductive pyfloat : Type :=
| Finite (q : Q)
| Infinity (negative : bool)
| NaN.

(** [int(f)] for a Python float [f]: truncation towards zero;
    [int(nan)] is a [ValueError] and [int(inf)] an [OverflowError]. *)
Definition py_int_of_float (f : pyfloat) : result Z :=
  match f with
  | Finite q => Ok (Z.quot (Qnum q) (Zpos (Qden q)))
  | Infinity _ => Raise OverflowError
  | NaN => Raise ValueError
  end.

(** [floor(log2(num / den))] for positive [num] and [den]. *)
Definition double_exponent (num den : Z) : Z :=
  let e := Z.log2 num - Z.log2 den in
  if num * 2 ^ Z.max 0 (- e) <? den * 2 ^ Z.max 0 e then e - 1 else e.

(** The integer nearest to [num / den], ties to the even one. *)
Definition round_half_even (num den : Z) : Z :=
  let q := num / den in
  let r := num mod den in
  if (den <? 2 * r) || ((2 * r =? den) && Z.odd q) then q + 1 else q.

(** [int(a / b)] for Python ints.  The true division yields the double
    nearest to the exact quotient (53 significant bits, ties to even,
    exponents from -1022, so a multiple [m * 2^shift] of the unit in the
    last place) and raises [OverflowError] when that double would reach
    [2^1024]; [int] then truncates it towards zero. *)
Definition py_int_truediv (a b : Z) : result Z :=
  if b =? 0 then Raise ZeroDivisionError
  else if a =? 0 then Ok 0
  else
    let num := Z.abs a in
    let den := Z.abs b in
    let shift := Z.max (double_exponent num den) (-1022) - 52 in
    let m := round_half_even (num * 2 ^ Z.max 0 (- shift)) (den * 2 ^ Z.max 0 shift) in
    if (0 <=? shift) && (2 ^ 1024 <=? m * 2 ^ shift) then Raise OverflowError
    else Ok (Z.sgn a * Z.sgn b *
             (if 0 <=? shift then m * 2 ^ shift else m / 2 ^ (- shift))).

(** A call with positional arguments [args] of a callable that takes
    exactly one argument besides [self]: any other number of arguments is
    a [TypeError] raised before the body runs. *)
Definition py_call1 {A B : Type} (f : A -> result B) (args : list A) : result B :=
  match args with
  | [a] => f a
  | _ => Raise TypeError
  end.

(** [a * b] where [a] may be [None]: [None * int] is a [TypeError]. *)
Definition py_mul_optional (a : option Z) (b : Z) : result Z :=
  match a with
  | Some n => Ok (n * b)
  | None => Raise TypeError
  end.

(* ===================================================================== *)
(** ** Tensors: a shape and row-major storage *)
(* ===================================================================== *)

Record tensor (A : Type) : Type := mkTensor {
  shape : list nat;
  data : list A
}.

Definition numel (s : list nat) : nat := fold_right Nat.mul 1%nat s.

(** A tensor is well formed when its storage holds one element per index. *)
Definition wf_tensor {A : Type} (t : tensor A) : Prop :=
  length (data t) = numel (shape t).

(** Row-major offset of a multi-index (Horner's scheme on the shape). *)
Fixpoint offset_from (acc : nat) (s idx : list nat) : nat :=
  match s, idx with
  | n :: s', i :: idx' => offset_from (acc * n + i) s' idx'
  | _, _ => acc
  end.

Definition offset (s idx : list nat) : nat := offset_from 0 s idx.

Fixpoint in_bounds (s idx : list nat) : bool :=
  match s, idx with
  | [], [] => true
  | n :: s', i :: idx' => (i <? n)%nat && in_bounds s' idx'
  | _, _ => false
  end.

(** All multi-indices of a shape, in storage order. *)
Fixpoint indices (s : list nat) : list (list nat) :=
  match s with
  | [] => [[]]
  | n :: s' => flat_map (fun i => map (cons i) (indices s')) (seq 0 n)
  end.

(** The tensor of shape [s] whose element at [idx] is [f idx]. *)
Definition tabulate {A : Type} (s : list nat) (f : list nat -> A) : tensor A :=
  mkTensor s (map f (indices s)).

(** Element access; [d] is returned outside the storage. *)
Definition get {A : Type} (d : A) (t : tensor A) (idx : list nat) : A :=
  nth (offset (shape t) idx) (data t) d.

Definition shapeZ {A : Type} (t : tensor A) : list Z := map Z.of_nat (shape t).

Definition tensor_map {A B : Type} (f : A -> B) (t : tensor A) : tensor B :=
  mkTensor (shape t) (map f (data t)).

(** [torch.zeros(shape)] and friends: a negative size is a [RuntimeError]. *)
Definition nonneg_shape (sizes : list Z) : result (list nat) :=
  if forallb (fun z => 0 <=? z) sizes then Ok (map Z.to_nat sizes)
  else Raise RuntimeError.

Definition torch_full {A : Type} (v : A) (sizes : list Z) : result (tensor A) :=
  s <- nonneg_shape sizes ;;
  ret (tabulate s (fun _ => v)).

(* ===================================================================== *)
(** ** The structural tensor operations used by the module *)
(* ===================================================================== *)

(** [a, b = t.shape] and its longer forms raise [ValueError] unless the
    tensor has exactly that many axes. *)
Definition unpack2 (l : list Z) : result (Z * Z) :=
  match l with
  | [a; b] => Ok (a, b)
  | _ => Raise ValueError
  end.

Definition unpack3 (l : list Z) : result (Z * Z * Z) :=
  match l with
  | [a; b; c] => Ok (a, b, c)
  | _ => Raise ValueError
  end.

Definition unpack4 (l : list Z) : result (Z * Z * Z * Z) :=
  match l with
  | [a; b; c; e] => Ok (a, b, c, e)
  | _ => Raise ValueError
  end.

Fixpoint zip_with {X Y W : Type} (f : X -> Y -> W) (l : list X) (m : list Y) : list W :=
  match l, m with
  | x :: l', y :: m' => f x y :: zip_with f l' m'
  | _, _ => []
  end.

Definition prodZ (l : list Z) : Z := fold_right Z.mul 1 l.

(** Size arguments of [view]/[reshape] for a tensor of [n] elements: at
    most one size may be [-1], and it is inferred from the others. *)
Definition infer_size (n : nat) (sizes : list Z) : result (list nat) :=
  if existsb (fun z => z <? -1) sizes then Raise RuntimeError
  else
    let known := prodZ (filter (fun z => negb (z =? -1)) sizes) in
    match count_occ Z.eq_dec sizes (-1) with
    | O =>
        if known =? Z.of_nat n then Ok (map Z.to_nat sizes)
        else Raise RuntimeError
    | 1%nat =>
        if known =? 0 then Raise RuntimeError
        else if Z.of_nat n mod known =? 0
        then Ok (map (fun z => Z.to_nat (if z =? -1 then Z.of_nat n / known else z)) sizes)
        else Raise RuntimeError
    | _ => Raise RuntimeError
    end.

(** [t.reshape(sizes...)]; every tensor of the model is contiguous, so
    [t.view(sizes...)] is the same operation and [t.contiguous()] is [t]. *)
Definition reshape {A : Type} (t : tensor A) (sizes : list Z) : result (tensor A) :=
  s <- infer_size (numel (shape t)) sizes ;;
  ret (mkTensor s (data t)).

Definition view {A : Type} (t : tensor A) (sizes : list Z) : result (tensor A) :=
  reshape t sizes.

(** Normalisation of an axis number: negative axes count from the end. *)
Definition wrap_axis (rank : nat) (dim : Z) : result nat :=
  let r := Z.of_nat rank in
  if (- r <=? dim) && (dim <? r) then Ok (Z.to_nat (if dim <? 0 then dim + r else dim))
  else Raise IndexError.

Fixpoint insert_at {X : Type} (k : nat) (x : X) (l : list X) : list X :=
  match k, l with
  | O, _ => x :: l
  | S k', y :: l' => y :: insert_at k' x l'
  | S _, [] => [x]
  end.

(** [t.unsqueeze(dim)]: a new axis of size 1; the storage is unchanged.
    [t[:, :, :, None, :]] on a 4-axis tensor is [unsqueeze t 3]. *)
Definition unsqueeze {A : Type} (t : tensor A) (dim : Z) : result (tensor A) :=
  k <- wrap_axis (S (length (shape t))) dim ;;
  ret (mkTensor (insert_at k 1%nat (shape t)) (data t)).

(** The shape [t.expand(sizes...)] produces, for as many sizes as [t] has
    axes (the only form the module uses): [-1] keeps an axis, an axis of
    size 1 can grow to any size, any other change is a [RuntimeError]. *)
Fixpoint expand_shape (s : list nat) (sizes : list Z) : result (list nat) :=
  match s, sizes with
  | [], [] => Ok []
  | n :: s', z :: sizes' =>
      rest <- expand_shape s' sizes' ;;
      if (z =? -1) || (z =? Z.of_nat n) then Ok (n :: rest)
      else if (n =? 1)%nat && (0 <=? z) then Ok (Z.to_nat z :: rest)
      else Raise RuntimeError
  | _, _ => Raise RuntimeError
  end.

(** The source index read by an expanded (broadcast) tensor. *)
Definition broadcast_index (s idx : list nat) : list nat :=
  zip_with (fun n i => if (n =? 1)%nat then 0%nat else i) s idx.

Definition swap_axes {X : Type} (d : X) (a b : nat) (l : list X) : list X :=
  map (fun k => if (k =? a)%nat then nth b l d
                else if (k =? b)%nat then nth a l d
                else nth k l d)
      (seq 0 (length l)).

(** A slice [start:stop] (step 1); a missing bound is [None]. *)
Record slice : Type := mkSlice {
  sl_start : option Z;
  sl_stop : option Z
}.

(** Python's clamping of a slice bound against an axis of length [len]. *)
Definition clamp_bound (len : nat) (i : Z) : nat :=
  let i' := if i <? 0 then i + Z.of_nat len else i in
  Z.to_nat (Z.min (Z.max i' 0) (Z.of_nat len)).

(** First index and length of the range a slice selects. *)
Definition slice_range (len : nat) (sl : slice) : nat * nat :=
  let lo := match sl_start sl with Some i => clamp_bound len i | None => 0%nat end in
  let hi := match sl_stop sl with Some i => clamp_bound len i | None => len end in
  (lo, (hi - lo)%nat).

(** Slices applied to the leading axes of a shape; the remaining axes are
    taken whole.  More slices than axes is an [IndexError]. *)
Fixpoint slice_region (s : list nat) (sls : list slice) : result (list (nat * nat)) :=
  match sls, s with
  | [], _ => Ok (map (fun n => (0%nat, n)) s)
  | _ :: _, [] => Raise IndexError
  | sl :: sls', n :: s' =>
      rest <- slice_region s' sls' ;;
      ret (slice_range n sl :: rest)
  end.

Fixpoint in_region (region : list (nat * nat)) (idx : list nat) : bool :=
  match region, idx with
  | [], [] => true
  | (lo, len) :: region', i :: idx' =>
      (lo <=? i)%nat && (i <? lo + len)%nat && in_region region' idx'
  | _, _ => false
  end.

Section StructuralOps.

Variable A : Type.
(** Filler returned by reads outside a tensor's storage; it is never
    observed on well-formed tensors and in-bounds indices. *)
Variable d : A.

Definition expand (t : tensor A) (sizes : list Z) : result (tensor A) :=
  s' <- expand_shape (shape t) sizes ;;
  ret (tabulate s' (fun idx => get d t (broadcast_index (shape t) idx))).

(** [t.transpose(a, b)] for non-negative axis numbers. *)
Definition transpose (t : tensor A) (a b : nat) : result (tensor A) :=
  let r := length (shape t) in
  if (a <? r)%nat && (b <? r)%nat
  then Ok (tabulate (swap_axes 0%nat a b (shape t))
                    (fun idx => get d t (swap_axes 0%nat a b idx)))
  else Raise IndexError.

(** [t[sl0, sl1, ...]] *)
Definition getitem (t : tensor A) (sls : list slice) : result (tensor A) :=
  region <- slice_region (shape t) sls ;;
  ret (tabulate (map snd region)
                (fun idx => get d t (zip_with Nat.add (map fst region) idx))).

(** [t[sl0, sl1, ...] = v]: the value is broadcast to the selected
    region (a [RuntimeError] when it cannot be) and copied into it; the
    result is the tensor after the assignment. *)
Definition setitem (t : tensor A) (sls : list slice) (v : tensor A) : result (tensor A) :=
  region <- slice_region (shape t) sls ;;
  v' <- expand v (map (fun r => Z.of_nat (snd r)) region) ;;
  ret (tabulate (shape t)
         (fun idx =>
            if in_region region idx
            then get d v' (zip_with Nat.sub idx (map fst region))
            else get d t idx)).

(** ** [repeat_kv] (model.py, lines 55-64) *)
Definition repeat_kv (x : tensor A) (n_rep : Z) : result (tensor A) :=
  '(batch_size, seq_len, n_kv_heads, head_dim) <- unpack4 (shapeZ x) ;;
  if n_rep =? 1 then ret x
  else
    x5 <- unsqueeze x 3 ;;
    e <- expand x5 [batch_size; seq_len; n_kv_heads; n_rep; head_dim] ;;
    reshape e [batch_size; seq_len; n_kv_heads * n_rep; head_dim].

End StructuralOps.

(* ===================================================================== *)
(** ** Scalars and the numeric kernels of torch *)
(* ===================================================================== *)

(** The torch runtime the module runs on: the floating-point scalars of
    tensors and the devices of the machine.  Precision is not modelled:
    [x.float()] and [x.type_as(y)] are the identity, and the arithmetic is
    left uninterpreted.  What a device string does when a tensor is
    placed on it depends on the build and the machine, and is a field. *)
Class Float : Type := {
  F : Type;
  f_of_Q : Q -> F;
  fadd : F -> F -> F;
  fsub : F -> F -> F;
  fmul : F -> F -> F;
  fdiv : F -> F -> F;
  fpow : F -> F -> F;
  fcos : F -> F;
  fsin : F -> F;
  fexp : F -> F;
  fsqrt : F -> F;
  (** contents of parameter storage that [torch.empty] allocated and a
      random initialiser or a checkpoint fills *)
  uninit : F;
  (** placing a tensor on the device named by a string: accepted, or the
      exception torch raises for it (a string that names no device, a
      device that the build or the machine does not have) *)
  device_check : string -> result unit
}.

(** [t.to(device)] and the [device=device] argument of a factory
    function, as far as raising goes: [None] leaves the tensor where it
    is. *)
Definition to_device {fl : Float} (device : option string) : result unit :=
  match device with
  | None => Ok tt
  | Some name => device_check name
  end.

(** A Python value passed where torch expects a tensor. *)
Inductive pyobj (A : Type) : Type :=
| PyInt (z : Z)
| PyTensor (t : tensor A).

Arguments PyInt {A} z.
Arguments PyTensor {A} t.

(** [torch.unsqueeze(input, dim)], the module-level function, applied to
    a list of positional arguments: it needs a tensor and an axis. *)
Definition torch_unsqueeze {A : Type} (args : list (pyobj A)) : result (tensor A) :=
  match args with
  | [PyTensor t; PyInt dim] => unsqueeze t dim
  | _ => Raise TypeError
  end.

(** [torch.arange(start, stop, step)] for a positive step; a stop below
    the start is a [RuntimeError]. *)
Definition torch_arange (start stop step : Z) : result (list Z) :=
  if stop <? start then Raise RuntimeError
  else Ok (map (fun k => start + step * Z.of_nat k)
               (seq 0 (Z.to_nat ((stop - start + step - 1) / step)))).

(** Broadcasting of two shapes, aligned on their last axes (the argument
    lists are the reversed shapes). *)
Fixpoint broadcast_rev (s1 s2 : list nat) : result (list nat) :=
  match s1, s2 with
  | [], _ => Ok s2
  | _, [] => Ok s1
  | a :: s1', b :: s2' =>
      rest <- broadcast_rev s1' s2' ;;
      if (a =? b)%nat then Ok (a :: rest)
      else if (a =? 1)%nat then Ok (b :: rest)
      else if (b =? 1)%nat then Ok (a :: rest)
      else Raise RuntimeError
  end.

Definition broadcast_shapes (s1 s2 : list nat) : result (list nat) :=
  r <- broadcast_rev (rev s1) (rev s2) ;;
  ret (rev r).

(** The index into an operand of shape [s] that an index of the broadcast
    result reads. *)
Definition align_index (s idx : list nat) : list nat :=
  broadcast_index s (skipn (length idx - length s) idx).

(** An element-wise binary operation with broadcasting. *)
Definition pointwise {X Y W : Type} (dx : X) (dy : Y) (f : X -> Y -> W)
    (a : tensor X) (b : tensor Y) : result (tensor W) :=
  s <- broadcast_shapes (shape a) (shape b) ;;
  ret (tabulate s (fun idx => f (get dx a (align_index (shape a) idx))
                                (get dy b (align_index (shape b) idx)))).

(** An index with its last component replaced. *)
Definition set_last (idx : list nat) (k : nat) : list nat :=
  match idx with
  | [] => []
  | _ => removelast idx ++ [k]
  end.

Fixpoint pair_up {X : Type} (l : list X) : list (X * X) :=
  match l with
  | a :: b :: l' => (a, b) :: pair_up l'
  | _ => []
  end.

Section Kernels.

Context {fl : Float}.

Definition f_of_Z (z : Z) : F := f_of_Q (inject_Z z).
Definition zero : F := f_of_Q 0.
Definition one : F := f_of_Q 1.

(** Complex scalars as (real, imaginary) pairs. *)
Definition C : Type := (F * F)%type.
Definition czero : C := (zero, zero).
Definition cmul (a b : C) : C :=
  (fsub (fmul (fst a) (fst b)) (fmul (snd a) (snd b)),
   fadd (fmul (fst a) (snd b)) (fmul (snd a) (fst b))).

Definition fsum (l : list F) : F := fold_left fadd l zero.

Definition tensor_add : tensor F -> tensor F -> result (tensor F) :=
  pointwise zero zero fadd.
Definition tensor_mul : tensor F -> tensor F -> result (tensor F) :=
  pointwise zero zero fmul.
Definition tensor_div : tensor F -> tensor F -> result (tensor F) :=
  pointwise zero zero fdiv.

(** [torch.sqrt(v)]: the argument must be a tensor. *)
Definition torch_sqrt (v : pyobj F) : result (tensor F) :=
  match v with
  | PyTensor t => Ok (tensor_map fsqrt t)
  | PyInt _ => Raise TypeError
  end.

(** [torch.view_as_complex(t)]: the last axis must have size 2. *)
Definition view_as_complex (t : tensor F) : result (tensor C) :=
  match rev (shape t) with
  | 2%nat :: lead => Ok (mkTensor (rev lead) (pair_up (data t)))
  | _ => Raise RuntimeError
  end.

(** [torch.view_as_real(t)] *)
Definition view_as_real (t : tensor C) : tensor F :=
  mkTensor (shape t ++ [2%nat]) (flat_map (fun c => [fst c; snd c]) (data t)).

(** [F.linear(x, w)] with [w] of shape [out, in]: contraction of the
    last axis of [x] with the rows of [w]. *)
Definition F_linear (x w : tensor F) : result (tensor F) :=
  match shape w, rev (shape x) with
  | [o; i], n :: lead =>
      if (n =? i)%nat
      then Ok (tabulate (rev lead ++ [o])
                 (fun idx =>
                    fsum (map (fun k => fmul (get zero x (set_last idx k))
                                             (get zero w [last idx 0%nat; k]))
                              (seq 0 i))))
      else Raise RuntimeError
  | _, _ => Raise RuntimeError
  end.

(** [torch.matmul(a, b)] for operands with four axes, the only case the
    module reaches: a matrix product over the last two axes, batched
    (with broadcasting) over the first two. *)
Definition torch_matmul (a b : tensor F) : result (tensor F) :=
  match shape a, shape b with
  | [b1; h1; m; k1], [b2; h2; k2; n] =>
      batch <- broadcast_shapes [b1; h1] [b2; h2] ;;
      if (k1 =? k2)%nat
      then Ok (tabulate (batch ++ [m; n])
                 (fun idx =>
                    match idx with
                    | [i; j; r; c] =>
                        fsum (map (fun k =>
                                     fmul (get zero a (broadcast_index [b1; h1] [i; j] ++ [r; k]))
                                          (get zero b (broadcast_index [b2; h2] [i; j] ++ [k; c])))
                                  (seq 0 k1))
                    | _ => zero
                    end))
      else Raise RuntimeError
  | _, _ => Raise RuntimeError
  end.

(** [F.softmax(t, dim=-1)] *)
Definition F_softmax (t : tensor F) : tensor F :=
  tabulate (shape t)
    (fun idx =>
       fdiv (fexp (get zero t idx))
            (fsum (map (fun k => fexp (get zero t (set_last idx k)))
                       (seq 0 (last (shape t) 1%nat))))).

(** [F.silu(t)]: [x * sigmoid(x)] element by element. *)
Definition F_silu (t : tensor F) : tensor F :=
  tensor_map (fun v => fdiv v (fadd one (fexp (fsub zero v)))) t.

(** [t.mean(-1, keepdim=True)] *)
Definition mean_last_keepdim (t : tensor F) : tensor F :=
  tabulate (set_last (shape t) 1%nat)
    (fun idx =>
       fdiv (fsum (map (fun k => get zero t (set_last idx k))
                       (seq 0 (last (shape t) 1%nat))))
            (f_of_Z (Z.of_nat (last (shape t) 1%nat)))).

(** [torch.rsqrt(t)] *)
Definition torch_rsqrt (t : tensor F) : tensor F :=
  tensor_map (fun v => fdiv one (fsqrt v)) t.

(* ------------------------------------------------------------------- *)
(** ** [precompute_theta_pos_embeddings] (model.py, lines 24-40) *)
(* ------------------------------------------------------------------- *)

Definition precompute_theta_pos_embeddings (head_dim seq_len : Z)
    (device : option string) (theta : Q)
  : result (tensor C) :=
  r <- py_mod head_dim 2 ;;
  _ <- py_assert (py_truthy r) ;;
  evens <- torch_arange 0 head_dim 2 ;;
  let theta_numerator := mkTensor [length evens] (map f_of_Z evens) in
  (* line 30: the powers are computed, then moved with [.to(device)] *)
  _ <- to_device device ;;
  let theta :=
    tensor_map (fun n => fdiv one (fpow (f_of_Q theta) (fdiv n (f_of_Z head_dim))))
               theta_numerator in
  (* line 33: [torch.arange(seq_len, device=device)] *)
  _ <- to_device device ;;
  positions <- torch_arange 0 seq_len 1 ;;
  let m := mkTensor [length positions] positions in
  (* torch.outer(m, theta) *)
  let freqs :=
    tabulate (shape m ++ shape theta)
      (fun idx => fmul (f_of_Z (get 0 m (firstn 1 idx)))
                       (get zero theta (skipn 1 idx))) in
  (* torch.polar(torch.ones_like(freqs), freqs) *)
  let freqs_complex :=
    tensor_map (fun a => (fmul one (fcos a), fmul one (fsin a))) freqs in
  ret freqs_complex.

(* ------------------------------------------------------------------- *)
(** ** [apply_rotary_embeddings] (model.py, lines 42-53) *)
(* ------------------------------------------------------------------- *)

Definition apply_rotary_embeddings (x : tensor F) (freqs_complex : tensor C)
  : result (tensor F) :=
  x_pairs <- reshape x (removelast (shapeZ x) ++ [-1; 2]) ;;
  x_complex <- view_as_complex x_pairs ;;
  (* line 46: [torch.unsqueeze(0).unsqueeze(2)]; the module-level
     function is called with the single argument 0, and the parameter
     [freqs_complex] is rebound to the result *)
  u <- torch_unsqueeze [PyInt 0] ;;
  freqs_complex <- unsqueeze u 2 ;;
  x_rotated <- pointwise czero czero cmul x_complex freqs_complex ;;
  let x_out := view_as_real x_rotated in
  x_out <- reshape x_out (shapeZ x) ;;
  ret x_out.

End Kernels.

(* ===================================================================== *)
(** ** Methods that mutate their object: state passing with exceptions *)
(* ===================================================================== *)

(** A method body run on an object of type [S]: it returns the object as
    the body left it, also when the body raised, and the outcome. *)
Record M (S A : Type) : Type := mkM { runM : S -> S * result A }.

Arguments mkM {S A} _.
Arguments runM {S A} _ _.

Definition M_bind {S A B : Type} (c : M S A) (k : A -> M S B) : M S B :=
  mkM (fun s =>
         let (s', r) := runM c s in
         match r with
         | Ok a => runM (k a) s'
         | Raise e => (s', Raise e)
         end).

#[global] Instance Monad_M (S : Type) : Monad (M S) :=
  {| ret := fun A (a : A) => mkM (fun s => (s, Ok a)); bind := @M_bind S |}.

Definition lift {S A : Type} (r : result A) : M S A := mkM (fun s => (s, r)).
Definition read_self {S : Type} : M S S := mkM (fun s => (s, Ok s)).
Definition write_self {S : Type} (s' : S) : M S unit := mkM (fun _ => (s', Ok tt)).

(** Run a method of the sub-object [proj self] and store the sub-object
    back with [upd]. *)
Definition zoom {S T A : Type} (proj : S -> T) (upd : T -> S -> S) (c : M T A) : M S A :=
  mkM (fun s => let (t', r) := runM c (proj s) in (upd t' s, r)).

(* ===================================================================== *)
(** ** [ModelArgs] (model.py, lines 7-22) *)
(* ===================================================================== *)

Module ModelArgs.
Record t : Type := mk {
  dim : Z;
  n_layers : Z;
  n_heads : Z;
  n_kv_heads : option Z;
  vocab_size : Z;
  multiple_of : Z;
  ffn_dim_multiplier : option pyfloat;
  norm_eps : Q;
  max_batch_size : Z;
  max_seq_len : Z;
  device : option string
}.

(** The field defaults of the dataclass. *)
Definition default : t :=
  {| dim := 4096; n_layers := 32; n_heads := 32; n_kv_heads := None;
     vocab_size := -1; multiple_of := 256; ffn_dim_multiplier := None;
     norm_eps := (1 # 10000)%Q; max_batch_size := 32; max_seq_len := 2048;
     device := None |}.
End ModelArgs.

(* ===================================================================== *)
(** ** [nn.Linear(.., bias=False)] and [nn.Embedding] *)
(* ===================================================================== *)

Module Linear.
Section Linear.
Context {fl : Float}.

Record t : Type := mk {
  in_features : Z;
  out_features : Z;
  weight : tensor F
}.

Definition init (in_features out_features : Z) : result t :=
  w <- torch_full uninit [out_features; in_features] ;;
  ret (mk in_features out_features w).

Definition forward (self : t) (x : tensor F) : result (tensor F) :=
  F_linear x (weight self).
End Linear.
End Linear.

Module Embedding.
Section Embedding.
Context {fl : Float}.

Record t : Type := mk {
  num_embeddings : Z;
  embedding_dim : Z;
  weight : tensor F
}.

Definition init (num_embeddings embedding_dim : Z) : result t :=
  w <- torch_full uninit [num_embeddings; embedding_dim] ;;
  ret (mk num_embeddings embedding_dim w).

(** Row lookup; a token id outside the table is an [IndexError]. *)
Definition forward (self : t) (tokens : tensor Z) : result (tensor F) :=
  match shape (weight self) with
  | [v; dm] =>
      if forallb (fun z => (0 <=? z) && (z <? Z.of_nat v)) (data tokens)
      then Ok (tabulate (shape tokens ++ [dm])
                 (fun idx => get zero (weight self)
                               [Z.to_nat (get 0 tokens (removelast idx)); last idx 0%nat]))
      else Raise IndexError
  | _ => Raise RuntimeError
  end.
End Embedding.
End Embedding.

(* ===================================================================== *)
(** ** [RMSNorm] (model.py, lines 67-77) *)
(* ===================================================================== *)

Module RMSNorm.
Section RMSNorm.
Context {fl : Float}.

Record t : Type := mk {
  eps : Q;
  weight : tensor F
}.

Definition init (dim : Z) (eps : Q) : result t :=
  w <- torch_full one [dim] ;;
  ret (mk eps w).

Definition _norm (self : t) (x : tensor F) : result (tensor F) :=
  (* x.pow(2) is the square *)
  let mean_sq := mean_last_keepdim (tensor_map (fun v => fmul v v) x) in
  tensor_mul x (torch_rsqrt (tensor_map (fun v => fadd v (f_of_Q (eps self))) mean_sq)).

Definition forward (self : t) (x : tensor F) : result (tensor F) :=
  n <- _norm self x ;;
  tensor_mul (weight self) n.
End RMSNorm.
End RMSNorm.

(* ===================================================================== *)
(** ** [SelfAttention] (model.py, lines 79-140) *)
(* ===================================================================== *)

Module SelfAttention.
Section SelfAttention.
Context {fl : Float}.

Record t : Type := mk {
  args : ModelArgs.t;
  n_kv_heads : Z;
  n_heads_q : Z;
  n_rep : Z;
  head_dim : Z;
  wq : Linear.t;
  wk : Linear.t;
  wv : Linear.t;
  wo : Linear.t;
  cache_k : tensor F;
  cache_v : tensor F
}.

Definition set_cache_k (self : t) (c : tensor F) : t :=
  mk (args self) (n_kv_heads self) (n_heads_q self) (n_rep self) (head_dim self)
     (wq self) (wk self) (wv self) (wo self) c (cache_v self).

Definition set_cache_v (self : t) (c : tensor F) : t :=
  mk (args self) (n_kv_heads self) (n_heads_q self) (n_rep self) (head_dim self)
     (wq self) (wk self) (wv self) (wo self) (cache_k self) c.

Definition init (args : ModelArgs.t) : result t :=
  let n_kv_heads :=
    match ModelArgs.n_kv_heads args with
    | None => ModelArgs.n_heads args
    | Some n => n
    end in
  let n_heads_q := ModelArgs.n_heads args in
  n_rep <- py_floordiv n_heads_q n_kv_heads ;;
  head_dim <- py_floordiv (ModelArgs.dim args) (ModelArgs.n_heads args) ;;
  wq <- Linear.init (ModelArgs.dim args) (ModelArgs.n_heads args * head_dim) ;;
  k_out <- py_mul_optional (ModelArgs.n_kv_heads args) head_dim ;;
  wk <- Linear.init (ModelArgs.dim args) k_out ;;
  v_out <- py_mul_optional (ModelArgs.n_kv_heads args) head_dim ;;
  wv <- Linear.init (ModelArgs.dim args) v_out ;;
  wo <- Linear.init (ModelArgs.n_heads args * head_dim) (ModelArgs.dim args) ;;
  cache_k <- torch_full zero [ModelArgs.max_batch_size args; ModelArgs.max_seq_len args; n_kv_heads; head_dim] ;;
  cache_v <- torch_full zero [ModelArgs.max_batch_size args; ModelArgs.max_seq_len args; n_kv_heads; head_dim] ;;
  ret (mk args n_kv_heads n_heads_q n_rep head_dim wq wk wv wo cache_k cache_v).

(** Lines 114-120: store the new keys and values at [start_pos], then
    read the history [0, start_pos + seq_len).  The slices read back are
    views of the cache in torch; nothing writes to the cache between
    this point and their last use, so they are modelled as values. *)
Definition update_kv_cache (xk xv : tensor F) (batch_size start_pos seq_len : Z)
  : M t (tensor F * tensor F) :=
  let written := [mkSlice None (Some batch_size);
                  mkSlice (Some start_pos) (Some (start_pos + seq_len))] in
  let history := [mkSlice None (Some batch_size);
                  mkSlice (Some 0) (Some (start_pos + seq_len))] in
  self <- read_self ;;
  ck <- lift (setitem zero (cache_k self) written xk) ;;
  write_self (set_cache_k self ck) ;;
  self <- read_self ;;
  cv <- lift (setitem zero (cache_v self) written xv) ;;
  write_self (set_cache_v self cv) ;;
  self <- read_self ;;
  keys <- lift (getitem zero (cache_k self) history) ;;
  values <- lift (getitem zero (cache_v self) history) ;;
  ret (keys, values).

(** Lines 131-136: scaled dot-product attention of one query position
    over the cached positions. *)
Definition attention_scores (self : t) (xq keys values : tensor F) : result (tensor F) :=
  keys_t <- transpose zero keys 2 3 ;;
  qk <- torch_matmul xq keys_t ;;
  root <- torch_sqrt (PyInt (head_dim self)) ;;
  scores <- tensor_div qk root ;;
  let scores := F_softmax scores in
  torch_matmul scores values.

Definition forward (x : tensor F) (start_pos : Z) (freq_complex : tensor C)
  : M t (tensor F) :=
  '(batch_size, seq_len, _) <- lift (unpack3 (shapeZ x)) ;;
  self <- read_self ;;
  xq <- lift (Linear.forward (wq self) x) ;;
  xk <- lift (Linear.forward (wk self) x) ;;
  xv <- lift (Linear.forward (wv self) x) ;;
  xq <- lift (view xq [batch_size; seq_len; n_heads_q self; head_dim self]) ;;
  xk <- lift (view xk [batch_size; seq_len; n_kv_heads self; head_dim self]) ;;
  xv <- lift (view xv [batch_size; seq_len; n_kv_heads self; head_dim self]) ;;
  xq <- lift (apply_rotary_embeddings xq freq_complex) ;;
  xk <- lift (apply_rotary_embeddings xk freq_complex) ;;
  '(keys, values) <- update_kv_cache xk xv batch_size start_pos seq_len ;;
  keys <- lift (repeat_kv zero keys (n_rep self)) ;;
  values <- lift (repeat_kv zero values (n_rep self)) ;;
  xq <- lift (transpose zero xq 1 2) ;;
  keys <- lift (transpose zero keys 1 2) ;;
  values <- lift (transpose zero values 1 2) ;;
  output <- lift (attention_scores self xq keys values) ;;
  output <- lift (transpose zero output 1 2) ;;
  output <- lift (view output [batch_size; seq_len; -1]) ;;
  lift (Linear.forward (wo self) output).
End SelfAttention.
End SelfAttention.

(* ===================================================================== *)
(** ** [FeedForward] (model.py, lines 142-162) *)
(* ===================================================================== *)

Module FeedForward.
Section FeedForward.
Context {fl : Float}.

Record t : Type := mk {
  w1 : Linear.t;
  w2 : Linear.t;
  w3 : Linear.t
}.

Definition init (args : ModelArgs.t) : result t :=
  let hidden_dim := 4 * ModelArgs.dim args in
  hidden_dim <- py_int_truediv (2 * hidden_dim) 3 ;;
  hidden_dim <-
    match ModelArgs.ffn_dim_multiplier args with
    | Some m => py_int_of_float m
    | None => Ok hidden_dim
    end ;;
  (* round the hidden dim to nearest multiple of the multiple_of parameter *)
  q <- py_floordiv (hidden_dim + ModelArgs.multiple_of args - 1) (ModelArgs.multiple_of args) ;;
  let hidden := ModelArgs.multiple_of args * q in
  w1 <- Linear.init (ModelArgs.dim args) hidden_dim ;;
  w2 <- Linear.init hidden_dim (ModelArgs.dim args) ;;
  w3 <- Linear.init (ModelArgs.dim args) hidden_dim ;;
  ret (mk w1 w2 w3).

Definition forward (self : t) (x : tensor F) : result (tensor F) :=
  h1 <- Linear.forward (w1 self) x ;;
  let swish := F_silu h1 in
  x_v <- Linear.forward (w3 self) x ;;
  x <- tensor_mul x_v swish ;;
  x <- Linear.forward (w2 self) x ;;
  ret x.
End FeedForward.
End FeedForward.

(* ===================================================================== *)
(** ** [EncoderBlock] (model.py, lines 164-184) *)
(* ===================================================================== *)

Module EncoderBlock.
Section EncoderBlock.
Context {fl : Float}.

Record t : Type := mk {
  args : ModelArgs.t;
  n_heads : Z;
  dim : Z;
  head_dim : Z;
  attention : SelfAttention.t;
  feed_forward : FeedForward.t;
  attention_norm : RMSNorm.t;
  ffn_norm : RMSNorm.t
}.

Definition set_attention (a : SelfAttention.t) (self : t) : t :=
  mk (args self) (n_heads self) (dim self) (head_dim self) a
     (feed_forward self) (attention_norm self) (ffn_norm self).

(** Lines 172 and 173 call [SelfAttention()] and [FeedForward()] with
    no positional argument. *)
Definition init (args : ModelArgs.t) : result t :=
  let n_heads := ModelArgs.n_heads args in
  let dim := ModelArgs.dim args in
  head_dim <- py_floordiv (ModelArgs.dim args) (ModelArgs.n_heads args) ;;
  attention <- py_call1 SelfAttention.init [] ;;
  feed_forward <- py_call1 FeedForward.init [] ;;
  attention_norm <- RMSNorm.init (ModelArgs.dim args) (ModelArgs.norm_eps args) ;;
  ffn_norm <- RMSNorm.init (ModelArgs.dim args) (ModelArgs.norm_eps args) ;;
  ret (mk args n_heads dim head_dim attention feed_forward attention_norm ffn_norm).

Section Forward.
(** The methods that [self.attention.forward], [self.feed_forward.forward]
    and the calls of the two norms resolve to; Python looks them up on
    the attribute objects when the block runs. *)
Variable attention_forward :
  tensor F -> Z -> tensor C -> M SelfAttention.t (tensor F).
Variable feed_forward_forward : FeedForward.t -> tensor F -> result (tensor F).
Variable norm_forward : RMSNorm.t -> tensor F -> result (tensor F).

Definition forward_with (x : tensor F) (start_pos : Z) (freqs_complex : tensor C)
  : M t (tensor F) :=
  self <- read_self ;;
  normed <- lift (norm_forward (attention_norm self) x) ;;
  a <- zoom attention set_attention (attention_forward normed start_pos freqs_complex) ;;
  h <- lift (tensor_add x a) ;;
  self <- read_self ;;
  normed <- lift (norm_forward (ffn_norm self) x) ;;
  f <- lift (feed_forward_forward (feed_forward self) normed) ;;
  out <- lift (tensor_add h f) ;;
  ret out.

(** The composition that the specification describes for the block:
    the feed-forward branch reads the normalised [h]. *)
Definition forward_spec (x : tensor F) (start_pos : Z) (freqs_complex : tensor C)
  : M t (tensor F) :=
  self <- read_self ;;
  normed <- lift (norm_forward (attention_norm self) x) ;;
  a <- zoom attention set_attention (attention_forward normed start_pos freqs_complex) ;;
  h <- lift (tensor_add x a) ;;
  self <- read_self ;;
  normed <- lift (norm_forward (ffn_norm self) h) ;;
  f <- lift (feed_forward_forward (feed_forward self) normed) ;;
  out <- lift (tensor_add h f) ;;
  ret out.
End Forward.

(** [EncoderBlock.forward] with the classes' own methods. *)
Definition forward : tensor F -> Z -> tensor C -> M t (tensor F) :=
  forward_with SelfAttention.forward FeedForward.forward RMSNorm.forward.
End EncoderBlock.
End EncoderBlock.

(* ===================================================================== *)
(** ** [Transformers] (model.py, lines 186-221) *)
(* ===================================================================== *)

Module Transformers.
Section Transformers.
Context {fl : Float}.

Record t : Type := mk {
  args : ModelArgs.t;
  vocab_size : Z;
  n_layers : Z;
  tok_embeddings : Embedding.t;
  layers : list EncoderBlock.t;
  norm : RMSNorm.t;
  output : Linear.t;
  freqs_complex : tensor C
}.

Definition set_layers (l : list EncoderBlock.t) (self : t) : t :=
  mk (args self) (vocab_size self) (n_layers self) (tok_embeddings self) l
     (norm self) (output self) (freqs_complex self).

(** [for _ in range(n): self.layers.append(EncoderBlock(args))] *)
Fixpoint append_layers (n : nat) (args : ModelArgs.t) (layers : list EncoderBlock.t)
  : result (list EncoderBlock.t) :=
  match n with
  | O => Ok layers
  | S n' =>
      block <- EncoderBlock.init args ;;
      append_layers n' args (layers ++ [block])
  end.

Definition init (args : ModelArgs.t) : result t :=
  let vocab_size := ModelArgs.vocab_size args in
  let n_layers := ModelArgs.n_layers args in
  tok_embeddings <- Embedding.init vocab_size (ModelArgs.dim args) ;;
  layers <- append_layers (Z.to_nat (ModelArgs.n_layers args)) args [] ;;
  norm <- RMSNorm.init (ModelArgs.dim args) (ModelArgs.norm_eps args) ;;
  output <- Linear.init (ModelArgs.dim args) vocab_size ;;
  head_dim <- py_floordiv (ModelArgs.dim args) (ModelArgs.n_heads args) ;;
  freqs_complex <-
    precompute_theta_pos_embeddings head_dim (ModelArgs.max_seq_len args * 2)
      (ModelArgs.device args) 10000 ;;
  ret (mk args vocab_size n_layers tok_embeddings layers norm output freqs_complex).

(** [for layer in self.layers: h = layer(h, start_pos, freqs_complex)];
    each block keeps the state its call left, also when it raised. *)
Fixpoint forward_layers (start_pos : Z) (freqs : tensor C)
    (layers : list EncoderBlock.t) (h : tensor F)
  : list EncoderBlock.t * result (tensor F) :=
  match layers with
  | [] => ([], Ok h)
  | layer :: rest =>
      let (layer', r) := runM (EncoderBlock.forward h start_pos freqs) layer in
      match r with
      | Ok h' =>
          let (rest', r') := forward_layers start_pos freqs rest h' in
          (layer' :: rest', r')
      | Raise e => (layer' :: rest, Raise e)
      end
  end.

(** Lines 207-208: the shape is unpacked and the step is refused unless
    it carries one token per batch slot. *)
Definition check_single_token (tokens : tensor Z) : result (Z * Z) :=
  '(batch_size, seq_len) <- unpack2 (shapeZ tokens) ;;
  _ <- py_assert (seq_len =? 1) ;;
  ret (batch_size, seq_len).

Definition forward (tokens : tensor Z) (start_pos : Z) : M t (tensor F) :=
  '(batch_size, seq_len) <- lift (check_single_token tokens) ;;
  self <- read_self ;;
  h <- lift (Embedding.forward (tok_embeddings self) tokens) ;;
  freqs <- lift (getitem czero (freqs_complex self)
                   [mkSlice (Some start_pos) (Some (start_pos + seq_len))]) ;;
  h <- zoom layers set_layers
         (mkM (fun ls => forward_layers start_pos freqs ls h)) ;;
  self <- read_self ;;
  h <- lift (RMSNorm.forward (norm self) h) ;;
  output <- lift (Linear.forward (output self) h) ;;
  ret output.
End Transformers.
End Transformers.

(* ===================================================================== *)
(** ** Real numbers as scalars *)
(* ===================================================================== *)

(** The exact arithmetic that floating point approximates, on a machine
    whose only device is the CPU (any other device string is refused with
    [RuntimeError]); it provides concrete tensors on which the model can
    be run. *)
Definition RFloat : Float :=
  {| F := R; f_of_Q := Q2R;
     fadd := Rplus; fsub := Rminus; fmul := Rmult; fdiv := Rdiv;
     fpow := Rpower; fcos := cos; fsin := sin; fexp := exp; fsqrt := sqrt;
     uninit := 0%R;
     device_check := fun name =>
       if String.eqb name "cpu" then Ok tt else Raise RuntimeError |}.

(** A configuration with no layers and head dimension [6 // 2 = 3]. *)
Definition no_layer_args : ModelArgs.t :=
  {| ModelArgs.dim := 6; ModelArgs.n_layers := 0; ModelArgs.n_heads := 2;
     ModelArgs.n_kv_heads := None; ModelArgs.vocab_size := 10;
     ModelArgs.multiple_of := 256; ModelArgs.ffn_dim_multiplier := None;
     ModelArgs.norm_eps := (1 # 10000)%Q; ModelArgs.max_batch_size := 1;
     ModelArgs.max_seq_len := 2; ModelArgs.device := None |}.

(** The same without layers, with the even head dimension [8 // 2 = 4]. *)
Definition even_head_args : ModelArgs.t :=
  {| ModelArgs.dim := 8; ModelArgs.n_layers := 0; ModelArgs.n_heads := 2;
     ModelArgs.n_kv_heads := None; ModelArgs.vocab_size := 10;
     ModelArgs.multiple_of := 256; ModelArgs.ffn_dim_multiplier := None;
     ModelArgs.norm_eps := (1 # 10000)%Q; ModelArgs.max_batch_size := 1;
     ModelArgs.max_seq_len := 4; ModelArgs.device := None |}.

(** Small objects of each class, over the reals: one head of dimension 2
    on a model of dimension 2.  The constructor of a block never returns,
    so the objects are assembled field by field. *)
Definition example_args : ModelArgs.t :=
  {| ModelArgs.dim := 2; ModelArgs.n_layers := 1; ModelArgs.n_heads := 1;
     ModelArgs.n_kv_heads := Some 1; ModelArgs.vocab_size := 3;
     ModelArgs.multiple_of := 2; ModelArgs.ffn_dim_multiplier := None;
     ModelArgs.norm_eps := (1 # 10000)%Q; ModelArgs.max_batch_size := 1;
     ModelArgs.max_seq_len := 2; ModelArgs.device := None |}.

Definition example_identity : tensor R := mkTensor [2; 2]%nat [1; 0; 0; 1]%R.

Definition example_linear : @Linear.t RFloat :=
  Linear.mk (fl := RFloat) 2 2 example_identity.

Definition example_cache : tensor R :=
  mkTensor [1; 2; 1; 2]%nat [0; 0; 0; 0]%R.

Definition example_attention : @SelfAttention.t RFloat :=
  SelfAttention.mk (fl := RFloat) example_args 1 1 1 2
    example_linear example_linear example_linear example_linear
    example_cache example_cache.

Definition example_feed_forward : @FeedForward.t RFloat :=
  FeedForward.mk (fl := RFloat) example_linear example_linear example_linear.

Definition example_norm : @RMSNorm.t RFloat :=
  RMSNorm.mk (fl := RFloat) (1 # 10000)%Q (mkTensor [2%nat] [1; 1]%R).

Definition example_block : @EncoderBlock.t RFloat :=
  EncoderBlock.mk (fl := RFloat) example_args 1 2 2
    example_attention example_feed_forward example_norm example_norm.

Definition example_embedding : @Embedding.t RFloat :=
  Embedding.mk (fl := RFloat) 3 2 (mkTensor [3; 2]%nat [1; 0; 0; 1; 1; 1]%R).

Definition example_model : @Transformers.t RFloat :=
  Transformers.mk (fl := RFloat) example_args 3 1 example_embedding [example_block]
    example_norm example_linear
    (mkTensor [4; 1]%nat [(1, 0); (1, 0); (1, 0); (1, 0)]%R).

(** Stand-ins for the sub-units of a block: an attention unit and a
    feed-forward unit that return their input, and a norm that leaves its
    input unchanged. *)
Definition echo_attention (x : tensor R) (start_pos : Z) (freqs : tensor (R * R))
  : M (@SelfAttention.t RFloat) (tensor R) := ret x.

Definition echo_feed_forward (self : @FeedForward.t RFloat) (x : tensor R)
  : result (tensor R) := Ok x.

Definition echo_norm (self : @RMSNorm.t RFloat) (x : tensor R)
  : result (tensor R) := Ok x.

Definition example_input : tensor R := mkTensor [1; 1; 2]%nat [1; 0]%R.

Definition example_freqs : tensor (R * R) := mkTensor [1; 1]%nat [(1, 0)]%R.

(* ===================================================================== *)
(** ** Auxiliary definitions for the properties of the sub-units *)
(* ===================================================================== *)

(** The factor [rsqrt(mean(x^2) + eps)] that [RMSNorm._norm] applies to
    row [i, q] of a tensor [x] with [n] entries per row (line 74). *)
Definition rms_factor {fl : Float} (eps : Q) (x : tensor F) (n i q : nat) : F :=
  fdiv one
    (fsqrt (fadd (fdiv (fsum (map (fun k => fmul (get zero x [i; q; k]) (get zero x [i; q; k]))
                                  (seq 0 n)))
                       (f_of_Z (Z.of_nat n)))
                 (f_of_Q eps))).

(** The hidden width that [FeedForward.__init__] hands to its three
    linear maps (the value of [hidden_dim] after lines 146-149). *)
Definition ffn_width (args : ModelArgs.t) : result Z :=
  hidden_dim <- py_int_truediv (2 * (4 * ModelArgs.dim args)) 3 ;;
  match ModelArgs.ffn_dim_multiplier args with
  | Some m => py_int_of_float m
  | None => Ok hidden_dim
  end.

(** A configuration whose rounding granularity is zero. *)
Definition zero_multiple_args : ModelArgs.t :=
  {| ModelArgs.dim := 2; ModelArgs.n_layers := 1; ModelArgs.n_heads := 1;
     ModelArgs.n_kv_heads := Some 1; ModelArgs.vocab_size := 3;
     ModelArgs.multiple_of := 0; ModelArgs.ffn_dim_multiplier := None;
     ModelArgs.norm_eps := (1 # 10000)%Q; ModelArgs.max_batch_size := 1;
     ModelArgs.max_seq_len := 2; ModelArgs.device := None |}.

(** The model that [Transformers(no_layer_args)] returns. *)
Definition no_layer_model : @Transformers.t RFloat :=
  match Transformers.init (fl := RFloat) no_layer_args with
  | Ok model => model
  | Raise _ => example_model
  end.

(** [no_layer_args] on a device that the machine does not have. *)
Definition bogus_device_args : ModelArgs.t :=
  {| ModelArgs.dim := 6; ModelArgs.n_layers := 0; ModelArgs.n_heads := 2;
     ModelArgs.n_kv_heads := None; ModelArgs.vocab_size := 10;
     ModelArgs.multiple_of := 256; ModelArgs.ffn_dim_multiplier := None;
     ModelArgs.norm_eps := (1 # 10000)%Q; ModelArgs.max_batch_size := 1;
     ModelArgs.max_seq_len := 2; ModelArgs.device := Some "bogus"%string |}.

(** A configuration whose width multiplier is not a number. *)
Definition nan_multiplier_args : ModelArgs.t :=
  {| ModelArgs.dim := 2; ModelArgs.n_layers := 1; ModelArgs.n_heads := 1;
     ModelArgs.n_kv_heads := Some 1; ModelArgs.vocab_size := 3;
     ModelArgs.multiple_of := 2; ModelArgs.ffn_dim_multiplier := Some NaN;
     ModelArgs.norm_eps := (1 # 10000)%Q; ModelArgs.max_batch_size := 1;
     ModelArgs.max_seq_len := 2; ModelArgs.device := None |}.

Unset Implicit Arguments.
(* --------------------------------------------------------------------- *)
(** *** Facts about indexing *)
(* --------------------------------------------------------------------- *)

Lemma Ok_inj {A : Type} (a b : A) : Ok a = Ok b -> a = b.
Proof. intros H. congruence. Qed.

Lemma offset_from_acc (s idx : list nat) (acc : nat) :
  in_bounds s idx = true ->
  offset_from acc s idx = (acc * numel s + offset_from 0 s idx)%nat.
Proof.
  revert idx acc.
  induction s as [|n s IH]; intros [|i idx] acc H; simpl in *; try discriminate.
  - lia.
  - apply andb_prop in H. destruct H as [_ H].
    rewrite (IH idx (acc * n + i)%nat H), (IH idx i H). lia.
Qed.

Lemma offset_from_lt (s idx : list nat) :
  in_bounds s idx = true -> (offset_from 0 s idx < numel s)%nat.
Proof.
  revert idx.
  induction s as [|n s IH]; intros [|i idx] H; simpl in *; try discriminate.
  - lia.
  - apply andb_prop in H. destruct H as [Hi H].
    apply Nat.ltb_lt in Hi.
    rewrite (offset_from_acc s idx i H).
    specialize (IH idx H). nia.
Qed.

Lemma length_indices (s : list nat) : length (indices s) = numel s.
Proof.
  induction s as [|n s IH]; simpl; [reflexivity|].
  generalize 0%nat as start.
  induction n as [|n IHn]; intros start; simpl; [reflexivity|].
  rewrite length_app, length_map, IHn, IH. reflexivity.
Qed.

Lemma nth_flat_map_chunks {B : Type} (g : nat -> list B) (len : nat) (d : B) :
  (forall i, length (g i) = len) ->
  forall n start i j, (i < n)%nat -> (j < len)%nat ->
  nth (i * len + j) (flat_map g (seq start n)) d = nth j (g (start + i)%nat) d.
Proof.
  intros Hlen. induction n as [|n IH]; intros start i j Hi Hj; [lia|].
  simpl. destruct i as [|i].
  - rewrite app_nth1 by (rewrite Hlen; lia).
    simpl. rewrite Nat.add_0_r. reflexivity.
  - rewrite app_nth2 by (rewrite Hlen; nia).
    rewrite Hlen.
    replace (S i * len + j - len)%nat with (i * len + j)%nat by nia.
    rewrite IH by lia. f_equal. f_equal. lia.
Qed.

Lemma nth_indices (s idx : list nat) :
  in_bounds s idx = true ->
  nth (offset s idx) (indices s) [] = idx.
Proof.
  unfold offset. revert idx.
  induction s as [|n s IH]; intros [|i idx] H; simpl in *; try discriminate.
  - reflexivity.
  - apply andb_prop in H. destruct H as [Hi H].
    apply Nat.ltb_lt in Hi.
    rewrite (offset_from_acc s idx i H).
    rewrite (nth_flat_map_chunks (fun i => map (cons i) (indices s)) (numel s)).
    + simpl.
      rewrite (nth_indep _ [] (i :: []))
        by (rewrite length_map, length_indices; apply offset_from_lt; exact H).
      rewrite (map_nth (cons i)). rewrite (IH idx H). reflexivity.
    + intros k. rewrite length_map. apply length_indices.
    + exact Hi.
    + apply offset_from_lt. exact H.
Qed.

Lemma wf_tabulate {A : Type} (s : list nat) (f : list nat -> A) :
  wf_tensor (tabulate s f).
Proof. unfold wf_tensor, tabulate. simpl. rewrite length_map. apply length_indices. Qed.

Lemma get_tabulate {A : Type} (d : A) (s : list nat) (f : list nat -> A) (idx : list nat) :
  in_bounds s idx = true -> get d (tabulate s f) idx = f idx.
Proof.
  intros H. unfold get, tabulate. simpl.
  rewrite (nth_indep _ d (f []))
    by (rewrite length_map, length_indices; apply offset_from_lt; exact H).
  rewrite (map_nth f). rewrite (nth_indices s idx H). reflexivity.
Qed.


(* --------------------------------------------------------------------- *)
(** *** Head-group expansion *)
(* --------------------------------------------------------------------- *)

Lemma broadcast_axis_id (n i : nat) :
  (i < n)%nat -> (if (n =? 1)%nat then 0%nat else i) = i.
Proof. intros H. destruct (Nat.eqb_spec n 1); lia. Qed.

Lemma prodZ_of_nat (s : list nat) : prodZ (map Z.of_nat s) = Z.of_nat (numel s).
Proof.
  induction s as [|n s IH]; simpl; [reflexivity|].
  rewrite IH. lia.
Qed.

Lemma sizes_of_nat_not_below (s : list nat) :
  existsb (fun z => z <? -1) (map Z.of_nat s) = false.
Proof.
  induction s as [|k s IH]; simpl; [reflexivity|].
  rewrite IH. destruct (Z.ltb_spec (Z.of_nat k) (-1)); [lia|reflexivity].
Qed.

Lemma sizes_of_nat_filter (s : list nat) :
  filter (fun z => negb (z =? -1)) (map Z.of_nat s) = map Z.of_nat s.
Proof.
  induction s as [|k s IH]; simpl; [reflexivity|].
  destruct (Z.eqb_spec (Z.of_nat k) (-1)); [lia|]. simpl. rewrite IH. reflexivity.
Qed.

Lemma sizes_of_nat_no_inferred (s : list nat) :
  count_occ Z.eq_dec (map Z.of_nat s) (-1) = 0%nat.
Proof.
  induction s as [|k s IH]; simpl; [reflexivity|].
  destruct (Z.eq_dec (Z.of_nat k) (-1)); [lia|exact IH].
Qed.

Lemma map_to_nat_of_nat (s : list nat) : map Z.to_nat (map Z.of_nat s) = s.
Proof.
  induction s as [|k s IH]; simpl; [reflexivity|].
  rewrite Nat2Z.id, IH. reflexivity.
Qed.

Lemma infer_size_exact (s : list nat) (n : nat) :
  n = numel s -> infer_size n (map Z.of_nat s) = Ok s.
Proof.
  intros ->. unfold infer_size.
  rewrite sizes_of_nat_not_below, sizes_of_nat_filter, sizes_of_nat_no_inferred.
  rewrite prodZ_of_nat, Z.eqb_refl, map_to_nat_of_nat. reflexivity.
Qed.

Lemma expand_shape_keep (n : nat) (s : list nat) (sizes : list Z) (rest : list nat) :
  expand_shape s sizes = Ok rest ->
  expand_shape (n :: s) (Z.of_nat n :: sizes) = Ok (n :: rest).
Proof.
  intros H. simpl. rewrite H. simpl.
  rewrite Z.eqb_refl, orb_true_r. reflexivity.
Qed.

Lemma expand_shape_grow (k : nat) (s : list nat) (sizes : list Z) (rest : list nat) :
  expand_shape s sizes = Ok rest ->
  expand_shape (1%nat :: s) (Z.of_nat k :: sizes) = Ok (k :: rest).
Proof.
  intros H. simpl. rewrite H. simpl.
  destruct (Z.eqb_spec (Z.of_nat k) (-1)); [lia|].
  destruct (Z.eqb_spec (Z.of_nat k) 1) as [Hk|Hk]; simpl.
  - f_equal. f_equal. lia.
  - destruct (Z.leb_spec 0 (Z.of_nat k)); [|lia].
    rewrite Nat2Z.id. reflexivity.
Qed.

Lemma expand_shape_same (s : list nat) : expand_shape s (map Z.of_nat s) = Ok s.
Proof.
  induction s as [|n s IH]; [reflexivity|].
  simpl map. apply expand_shape_keep. exact IH.
Qed.

Lemma unsqueeze_axis3 {A : Type} (dx : list A) (a b c e : nat) :
  unsqueeze (mkTensor [a; b; c; e] dx) 3 = Ok (mkTensor [a; b; c; 1%nat; e] dx).
Proof. reflexivity. Qed.

(** C9 (HeadGroupExpander).  With [n_rep = 1] [repeat_kv] returns its
    argument itself.  With [n_rep = k] and an input of shape
    [batch, seq, n_kv_heads, head_dim] it returns a well-formed tensor of
    shape [batch, seq, n_kv_heads * k, head_dim] whose head [j * k + r],
    for each of the [k] slots [r] of group [j], equals head [j] of the
    input element by element. *)
Theorem repeat_kv_replicates (A : Type) (d : A) (x : tensor A)
    (batch seq n_kv_heads head_dim k : nat) :
  shape x = [batch; seq; n_kv_heads; head_dim] ->
  wf_tensor x ->
  repeat_kv d x 1 = Ok x /\
  exists y,
    repeat_kv d x (Z.of_nat k) = Ok y /\
    shape y = [batch; seq; (n_kv_heads * k)%nat; head_dim] /\
    wf_tensor y /\
    forall b s j r i,
      (b < batch)%nat -> (s < seq)%nat -> (j < n_kv_heads)%nat ->
      (r < k)%nat -> (i < head_dim)%nat ->
      get d y [b; s; (j * k + r)%nat; i] = get d x [b; s; j; i].
Proof.
  intros Hshape Hwf. destruct x as [sx dx]. simpl in Hshape. subst sx.
  split; [reflexivity|].
  unfold repeat_kv, shapeZ. simpl shape. cbn [map unpack4 bind Monad_result result_bind].
  destruct (Z.eqb_spec (Z.of_nat k) 1) as [Hk|Hk].
  - exists (mkTensor [batch; seq; n_kv_heads; head_dim] dx).
    assert (k = 1%nat) by lia. subst k.
    split; [reflexivity|]. split; [simpl; f_equal; f_equal; f_equal; lia|].
    split; [exact Hwf|].
    intros b s j r i Hb Hs Hj Hr Hi.
    replace (j * 1 + r)%nat with j by lia. reflexivity.
  - rewrite unsqueeze_axis3. cbn [bind Monad_result result_bind ret].
    unfold expand. simpl shape.
    assert (Hexp : expand_shape [batch; seq; n_kv_heads; 1%nat; head_dim]
                     [Z.of_nat batch; Z.of_nat seq; Z.of_nat n_kv_heads; Z.of_nat k;
                      Z.of_nat head_dim]
                   = Ok [batch; seq; n_kv_heads; k; head_dim]).
    { do 3 apply expand_shape_keep. apply expand_shape_grow.
      apply (expand_shape_same [head_dim]). }
    rewrite Hexp.
    cbn [bind Monad_result result_bind ret].
    unfold reshape. simpl shape.
    replace [Z.of_nat batch; Z.of_nat seq; Z.of_nat n_kv_heads * Z.of_nat k; Z.of_nat head_dim]
      with (map Z.of_nat [batch; seq; (n_kv_heads * k)%nat; head_dim])
      by (simpl; rewrite Nat2Z.inj_mul; reflexivity).
    rewrite infer_size_exact by (simpl; lia).
    eexists. split; [reflexivity|]. split; [reflexivity|]. split.
    + unfold wf_tensor, tabulate. cbn [shape data].
      rewrite length_map, length_indices. simpl. lia.
    + intros b s j r i Hb Hs Hj Hr Hi.
      set (e := tabulate [batch; seq; n_kv_heads; k; head_dim]
                  (fun idx => get d (mkTensor [batch; seq; n_kv_heads; 1%nat; head_dim] dx)
                                (broadcast_index [batch; seq; n_kv_heads; 1%nat; head_dim] idx))).
      transitivity (get d e [b; s; j; r; i]).
      * unfold get, offset. simpl. f_equal. lia.
      * unfold e. rewrite get_tabulate.
        -- unfold broadcast_index. simpl.
           rewrite !broadcast_axis_id by assumption.
           unfold get, offset. simpl. f_equal. lia.
        -- simpl. rewrite !andb_true_r, !andb_true_iff, !Nat.ltb_lt. auto.
Qed.

(* --------------------------------------------------------------------- *)
(** *** The key/value cache *)
(* --------------------------------------------------------------------- *)

Lemma clamp_bound_inside (len : nat) (z : Z) :
  0 <= z <= Z.of_nat len -> clamp_bound len z = Z.to_nat z.
Proof.
  intros H. unfold clamp_bound.
  destruct (Z.ltb_spec z 0); [lia|]. f_equal. lia.
Qed.

Lemma slice_region_store (B S H D b p : nat) :
  (b <= B)%nat -> (p + 1 <= S)%nat ->
  slice_region [B; S; H; D]
    [mkSlice None (Some (Z.of_nat b));
     mkSlice (Some (Z.of_nat p)) (Some (Z.of_nat p + 1))]
  = Ok [(0, b); (p, 1); (0, H); (0, D)]%nat.
Proof.
  intros Hb Hp. simpl. unfold slice_range. simpl.
  rewrite !clamp_bound_inside by lia.
  rewrite Nat2Z.id. change (Z.to_nat 0) with 0%nat.
  replace (Z.to_nat (Z.of_nat p + 1)) with (p + 1)%nat by lia.
  rewrite ?Nat.sub_0_r. repeat f_equal; lia.
Qed.

Lemma slice_region_history (B S H D b p : nat) :
  (b <= B)%nat -> (p + 1 <= S)%nat ->
  slice_region [B; S; H; D]
    [mkSlice None (Some (Z.of_nat b));
     mkSlice (Some 0) (Some (Z.of_nat p + 1))]
  = Ok [(0, b); (0, p + 1); (0, H); (0, D)]%nat.
Proof.
  intros Hb Hp. simpl. unfold slice_range. simpl.
  rewrite !clamp_bound_inside by lia.
  rewrite Nat2Z.id. change (Z.to_nat 0) with 0%nat.
  replace (Z.to_nat (Z.of_nat p + 1)) with (p + 1)%nat by lia.
  rewrite ?Nat.sub_0_r. repeat f_equal; lia.
Qed.

Section CacheRoundTrip.

Variable A : Type.
Variable d : A.
Variables B S H D b p : nat.
Hypothesis Hb : (b <= B)%nat.
Hypothesis Hp : (p + 1 <= S)%nat.

(** Writing a [b, 1, H, D] block at position [p] succeeds and leaves a
    well-formed cache of the same shape. *)
Lemma setitem_store (cache v : tensor A) :
  shape cache = [B; S; H; D] ->
  shape v = [b; 1%nat; H; D] ->
  exists cache',
    setitem d cache
      [mkSlice None (Some (Z.of_nat b));
       mkSlice (Some (Z.of_nat p)) (Some (Z.of_nat p + 1))] v = Ok cache' /\
    shape cache' = [B; S; H; D] /\
    wf_tensor cache' /\
    forall i h j, (i < b)%nat -> (h < H)%nat -> (j < D)%nat ->
      get d cache' [i; p; h; j] = get d v [i; 0%nat; h; j].
Proof.
  intros Hc Hv. unfold setitem, expand. rewrite Hc, Hv.
  rewrite slice_region_store by assumption.
  cbn [bind Monad_result result_bind ret map snd].
  pose proof (expand_shape_same [b; 1%nat; H; D]) as He. cbn [map] in He.
  rewrite He. clear He.
  cbn [bind Monad_result result_bind ret].
  eexists. split; [reflexivity|]. split; [reflexivity|].
  split; [apply wf_tabulate|].
  intros i h j Hi Hh Hj.
  rewrite get_tabulate.
  - replace (in_region [(0, b); (p, 1); (0, H); (0, D)]%nat [i; p; h; j]) with true.
    + cbn [zip_with map fst].
      rewrite get_tabulate.
      * unfold broadcast_index. cbn [zip_with].
        rewrite Nat.sub_diag, !Nat.sub_0_r.
        rewrite !broadcast_axis_id by lia. reflexivity.
      * cbn [in_bounds]. rewrite Nat.sub_diag, !Nat.sub_0_r.
        rewrite !andb_true_iff, !Nat.ltb_lt. repeat split; lia.
    + symmetry. cbn [in_region].
      rewrite !andb_true_iff, !Nat.ltb_lt, !Nat.leb_le. repeat split; lia.
  - cbn [in_bounds]. rewrite !andb_true_iff, !Nat.ltb_lt. repeat split; lia.
Qed.

(** Reading the history [0, p + 1) of the first [b] slots. *)
Lemma getitem_history (cache : tensor A) :
  shape cache = [B; S; H; D] ->
  exists hist,
    getitem d cache
      [mkSlice None (Some (Z.of_nat b));
       mkSlice (Some 0) (Some (Z.of_nat p + 1))] = Ok hist /\
    shape hist = [b; (p + 1)%nat; H; D] /\
    wf_tensor hist /\
    forall i q h j, (i < b)%nat -> (q < p + 1)%nat -> (h < H)%nat -> (j < D)%nat ->
      get d hist [i; q; h; j] = get d cache [i; q; h; j].
Proof.
  intros Hc. unfold getitem. rewrite Hc.
  rewrite slice_region_history by assumption.
  cbn [bind Monad_result result_bind ret map snd fst].
  eexists. split; [reflexivity|]. split; [reflexivity|].
  split; [apply wf_tabulate|].
  intros i q h j Hi Hq Hh Hj.
  rewrite get_tabulate.
  - reflexivity.
  - cbn [in_bounds]. rewrite !andb_true_iff, !Nat.ltb_lt. repeat split; lia.
Qed.

End CacheRoundTrip.


(* --------------------------------------------------------------------- *)
(** *** Rotary embeddings *)
(* --------------------------------------------------------------------- *)

Lemma apply_rotary_embeddings_cases (fl : Float) (x : tensor F) (freqs_complex : tensor C) :
  apply_rotary_embeddings x freqs_complex = Raise TypeError \/
  apply_rotary_embeddings x freqs_complex = Raise RuntimeError.
Proof.
  unfold apply_rotary_embeddings, reshape, view_as_complex.
  destruct (infer_size (numel (shape x)) (removelast (shapeZ x) ++ [-1; 2])) as [s|e] eqn:Hs.
  - cbn [bind ret Monad_result result_bind shape].
    destruct (rev s) as [|[|[|[|n]]] lead]; cbn; auto.
  - cbn [bind ret Monad_result result_bind].
    unfold infer_size in Hs.
    repeat match type of Hs with
           | (if ?c then _ else _) = _ => destruct c
           | match ?c with _ => _ end = _ => destruct c
           end; inversion Hs; auto.
Qed.

Lemma prodZ_app (l m : list Z) : prodZ (l ++ m) = prodZ l * prodZ m.
Proof.
  induction l as [|z l IH]; simpl.
  - destruct (prodZ m); reflexivity.
  - rewrite IH. lia.
Qed.

Lemma numel_app (s r : list nat) : numel (s ++ r) = (numel s * numel r)%nat.
Proof.
  induction s as [|n s IH]; simpl; [lia|]. rewrite IH. lia.
Qed.

(** The size list [lead ++ [-1; 2]] of line 44 on [n = numel lead * (2 k)]
    elements: the missing size is inferred as [k]. *)
Lemma infer_size_pairs (lead : list nat) (k : nat) :
  (0 < numel lead)%nat ->
  infer_size (numel lead * (2 * k)) (map Z.of_nat lead ++ [-1; 2]) = Ok (lead ++ [k; 2%nat]).
Proof.
  intros Hpos. unfold infer_size.
  assert (Hlow : existsb (fun z => z <? -1) (map Z.of_nat lead ++ [-1; 2]) = false)
    by (rewrite existsb_app, sizes_of_nat_not_below; reflexivity).
  assert (Hknown : prodZ (filter (fun z => negb (z =? -1)) (map Z.of_nat lead ++ [-1; 2]))
                   = Z.of_nat (numel lead) * 2).
  { rewrite filter_app, sizes_of_nat_filter, prodZ_app, prodZ_of_nat. reflexivity. }
  assert (Hone : count_occ Z.eq_dec (map Z.of_nat lead ++ [-1; 2]) (-1) = 1%nat)
    by (rewrite count_occ_app, sizes_of_nat_no_inferred; reflexivity).
  rewrite Hlow, Hknown, Hone.
  destruct (Z.eqb_spec (Z.of_nat (numel lead) * 2) 0) as [E|_]; [lia|].
  replace (Z.of_nat (numel lead * (2 * k)))
    with (Z.of_nat k * (Z.of_nat (numel lead) * 2)) by lia.
  rewrite Z.mod_mul by lia. rewrite Z.eqb_refl.
  rewrite Z.div_mul by lia.
  rewrite map_app. f_equal. f_equal.
  - clear Hpos Hlow Hknown Hone.
    induction lead as [|a lead IH]; simpl; [reflexivity|].
    destruct (Z.eqb_spec (Z.of_nat a) (-1)); [lia|].
    rewrite Nat2Z.id. f_equal. exact IH.
  - cbn [map Z.eqb Pos.eqb]. rewrite Nat2Z.id. reflexivity.
Qed.

Lemma removelast_snoc {X : Type} (l : list X) (x : X) : removelast (l ++ [x]) = l.
Proof. rewrite removelast_app by discriminate. simpl. apply app_nil_r. Qed.

(** Line 44 succeeds on a non-empty input whose last axis is even. *)
Lemma rotary_pairing_succeeds (fl : Float) (x : tensor F) (lead : list nat) (k : nat) :
  shape x = lead ++ [(2 * k)%nat] ->
  (0 < numel (shape x))%nat ->
  exists x_pairs x_complex,
    reshape x (removelast (shapeZ x) ++ [-1; 2]) = Ok x_pairs /\
    view_as_complex x_pairs = Ok x_complex.
Proof.
  intros Hshape Hpos. unfold reshape, shapeZ. rewrite Hshape in *.
  rewrite map_app. cbn [map]. rewrite removelast_snoc.
  rewrite numel_app in *. cbn [numel fold_right] in *.
  replace (numel lead * (2 * k * 1))%nat with (numel lead * (2 * k))%nat by lia.
  rewrite infer_size_pairs by nia.
  cbn [bind ret Monad_result result_bind].
  eexists. eexists. split; [reflexivity|].
  unfold view_as_complex. cbn [shape data].
  rewrite rev_app_distr. reflexivity.
Qed.

(** C3 (RotaryApplier).  [apply_rotary_embeddings] returns no tensor
    on any input; on every non-empty input whose trailing dimension is
    even the pairing of line 44 succeeds and the call
    [torch.unsqueeze(0)] of line 46 raises [TypeError]. *)
Theorem apply_rotary_embeddings_raises (fl : Float) (x : tensor F) (freqs_complex : tensor C) :
  is_ok (apply_rotary_embeddings x freqs_complex) = false /\
  forall (lead : list nat) (k : nat),
    shape x = lead ++ [(2 * k)%nat] ->
    (0 < numel (shape x))%nat ->
    apply_rotary_embeddings x freqs_complex = Raise TypeError.
Proof.
  split.
  - destruct (apply_rotary_embeddings_cases fl x freqs_complex) as [H|H];
      rewrite H; reflexivity.
  - intros lead k Hshape Hpos.
    destruct (rotary_pairing_succeeds fl x lead k Hshape Hpos) as (xp & xc & Hp & Hc).
    unfold apply_rotary_embeddings.
    rewrite Hp. cbn [bind ret Monad_result result_bind].
    rewrite Hc. reflexivity.
Qed.

(** The rotation of one coordinate pair [(1, 0)] by the unit rotation
    [(1, 0)]: a well-shaped input with trailing dimension 2. *)
Example apply_rotary_embeddings_pair :
  apply_rotary_embeddings (fl := RFloat)
    (mkTensor [1; 1; 1; 2]%nat [1; 0]%R) example_freqs = Raise TypeError.
Proof. reflexivity. Qed.

(** C4 (RotaryEmbeddingTable, precondition).  The assertion of line 25
    passes on the truthiness of [head_dim % 2]: an even head dimension
    [2 * k] is refused with [AssertionError], whatever the device, since
    the assertion precedes every use of it; an odd one [2 * k + 1] is
    accepted and yields a table when no device is given, and on a device
    exactly when torch accepts the device. *)
Theorem precompute_assertion_inverted (fl : Float) (k seq_len : nat)
    (device : option string) (theta : Q) :
  precompute_theta_pos_embeddings (2 * Z.of_nat k) (Z.of_nat seq_len) device theta
    = Raise AssertionError /\
  is_ok (precompute_theta_pos_embeddings (2 * Z.of_nat k + 1) (Z.of_nat seq_len)
           None theta)
    = true /\
  is_ok (precompute_theta_pos_embeddings (2 * Z.of_nat k + 1) (Z.of_nat seq_len)
           device theta)
    = is_ok (to_device device).
Proof.
  assert (Hodd : forall dev,
    is_ok (precompute_theta_pos_embeddings (2 * Z.of_nat k + 1) (Z.of_nat seq_len)
             dev theta) = is_ok (to_device dev)).
  { intro dev.
    unfold precompute_theta_pos_embeddings, py_mod, torch_arange. simpl (2 =? 0).
    cbn [bind ret Monad_result result_bind].
    replace ((2 * Z.of_nat k + 1) mod 2) with 1
      by (rewrite Z.add_comm, Z.mul_comm, Z.mod_add by lia; reflexivity).
    cbn [py_truthy Z.eqb negb py_assert bind ret Monad_result result_bind].
    destruct (Z.ltb_spec (2 * Z.of_nat k + 1) 0); [lia|].
    destruct (Z.ltb_spec (Z.of_nat seq_len) 0); [lia|].
    cbn [bind ret Monad_result result_bind].
    destruct (to_device dev) as [[]|e]; reflexivity. }
  split; [|split].
  - unfold precompute_theta_pos_embeddings, py_mod. simpl (2 =? 0).
    cbn [bind ret Monad_result result_bind].
    replace ((2 * Z.of_nat k) mod 2) with 0
      by (symmetry; rewrite Z.mul_comm; apply Z.mod_mul; lia).
    reflexivity.
  - exact (Hodd None).
  - exact (Hodd device).
Qed.

(* --------------------------------------------------------------------- *)
(** *** Attention scores *)
(* --------------------------------------------------------------------- *)

Lemma broadcast_rev_same (s : list nat) : broadcast_rev s s = Ok s.
Proof.
  induction s as [|n s IH]; [reflexivity|].
  simpl. rewrite IH. simpl. rewrite Nat.eqb_refl. reflexivity.
Qed.

Lemma broadcast_shapes_same (s : list nat) : broadcast_shapes s s = Ok s.
Proof.
  unfold broadcast_shapes. rewrite broadcast_rev_same.
  cbn [bind ret Monad_result result_bind]. rewrite rev_involutive. reflexivity.
Qed.

(** The query-key product of line 132 is defined for one query position
    per head against [s] cached positions. *)
Lemma query_key_product_defined (fl : Float) (xq keys : tensor F) (b h s hd : nat) :
  shape xq = [b; h; 1%nat; hd] ->
  shape keys = [b; h; s; hd] ->
  exists keys_t qk,
    transpose zero keys 2 3 = Ok keys_t /\
    torch_matmul xq keys_t = Ok qk /\
    shape qk = [b; h; 1%nat; s].
Proof.
  intros Hq Hk. unfold transpose. rewrite Hk. cbn [length Nat.ltb Nat.leb andb].
  eexists. eexists. split; [reflexivity|].
  unfold torch_matmul. rewrite Hq. cbn [tabulate shape].
  change (swap_axes 0%nat 2 3 [b; h; s; hd]) with [b; h; hd; s].
  cbv beta iota. rewrite (broadcast_shapes_same [b; h]).
  cbn [bind ret Monad_result result_bind]. rewrite Nat.eqb_refl.
  split; reflexivity.
Qed.

(** C5 (scaled dot-product attention).  Lines 131-136 never produce
    scores.  For a single-token step, one query position per head against
    any number of cached positions, the query-key product is formed and
    then [torch.sqrt] is applied to the Python int [self.head_dim], which
    raises [TypeError]. *)
Theorem attention_scores_raises (fl : Float) (self : SelfAttention.t)
    (xq keys values : tensor F) :
  raises (SelfAttention.attention_scores self xq keys values) /\
  forall b h s hd : nat,
    shape xq = [b; h; 1%nat; hd] ->
    shape keys = [b; h; s; hd] ->
    SelfAttention.attention_scores self xq keys values = Raise TypeError.
Proof.
  split.
  - unfold SelfAttention.attention_scores, raises.
    destruct (transpose zero keys 2 3) as [kt|e]; [|exists e; reflexivity].
    cbn [bind ret Monad_result result_bind].
    destruct (torch_matmul xq kt) as [qk|e]; [|exists e; reflexivity].
    exists TypeError. reflexivity.
  - intros b h s hd Hq Hk.
    destruct (query_key_product_defined fl xq keys b h s hd Hq Hk)
      as (kt & qk & Ht & Hm & _).
    unfold SelfAttention.attention_scores.
    rewrite Ht. cbn [bind ret Monad_result result_bind].
    rewrite Hm. reflexivity.
Qed.


(* --------------------------------------------------------------------- *)
(** *** Feed-forward width *)
(* --------------------------------------------------------------------- *)

Lemma linear_init_ok (fl : Float) (i o : Z) :
  0 <= i -> 0 <= o ->
  exists w, Linear.init i o = Ok (Linear.mk i o w) /\ shapeZ w = [o; i].
Proof.
  intros Hi Ho. unfold Linear.init, torch_full, nonneg_shape.
  cbn [forallb].
  destruct (Z.leb_spec 0 o); [|lia]. destruct (Z.leb_spec 0 i); [|lia].
  cbn [andb bind ret Monad_result result_bind].
  eexists. split; [reflexivity|].
  unfold shapeZ, tabulate. cbn [shape map]. rewrite !Z2Nat.id by lia. reflexivity.
Qed.

(** The constructor computes the width of [ffn_width] and goes on from
    it: the rounding of line 151 is evaluated and dropped. *)
Lemma feed_forward_init_width (fl : Float) (args : ModelArgs.t) :
  FeedForward.init args =
    (hidden_dim <- ffn_width args ;;
     _ <- py_floordiv (hidden_dim + ModelArgs.multiple_of args - 1)
            (ModelArgs.multiple_of args) ;;
     w1 <- Linear.init (ModelArgs.dim args) hidden_dim ;;
     w2 <- Linear.init hidden_dim (ModelArgs.dim args) ;;
     w3 <- Linear.init (ModelArgs.dim args) hidden_dim ;;
     ret (FeedForward.mk w1 w2 w3)).
Proof.
  unfold FeedForward.init, ffn_width.
  destruct (py_int_truediv (2 * (4 * ModelArgs.dim args)) 3) as [h|e]; [|reflexivity].
  cbn [bind ret Monad_result result_bind].
  destruct (ModelArgs.ffn_dim_multiplier args) as [m|]; [|reflexivity].
  destruct (py_int_of_float m); reflexivity.
Qed.

(** The width handed to the three linear maps is the value before the
    rounding of line 151, for every configuration that can be built. *)
Lemma feed_forward_width (fl : Float) (args : ModelArgs.t) (ff : FeedForward.t) :
  FeedForward.init args = Ok ff ->
  exists width,
    ffn_width args = Ok width /\
    Linear.out_features (FeedForward.w1 ff) = width /\
    Linear.in_features (FeedForward.w2 ff) = width /\
    Linear.out_features (FeedForward.w3 ff) = width.
Proof.
  rewrite feed_forward_init_width.
  destruct (ffn_width args) as [w|]; [|discriminate].
  cbn [bind ret Monad_result result_bind].
  destruct (py_floordiv (w + ModelArgs.multiple_of args - 1) (ModelArgs.multiple_of args));
    [|discriminate].
  cbn [bind ret Monad_result result_bind].
  unfold Linear.init.
  destruct (torch_full uninit [w; ModelArgs.dim args]); [|discriminate].
  cbn [bind ret Monad_result result_bind].
  destruct (torch_full uninit [ModelArgs.dim args; w]); [|discriminate].
  cbn [bind ret Monad_result result_bind].
  intros H. inversion H. subst ff. exists w. cbn. auto.
Qed.

(** [int(2 * (4 * 4096) / 3)]: the double nearest to [32768 / 3] lies
    between 10922 and 10923. *)
Lemma ffn_width_default : ffn_width ModelArgs.default = Ok 10922.
Proof. vm_compute. reflexivity. Qed.

(** C6 (GatedFeedForward width).  On the default configuration
    ([dim = 4096], [multiple_of = 256], no multiplier) the constructor
    succeeds and gives the three linear maps the width [10922], which is
    [int(2 * (4 * 4096) / 3)] and not a multiple of 256; the rounded value
    [11008] of line 151 is not used. *)
Theorem feed_forward_width_default (fl : Float) :
  exists ff,
    FeedForward.init ModelArgs.default = Ok ff /\
    Linear.out_features (FeedForward.w1 ff) = 10922 /\
    Linear.in_features (FeedForward.w2 ff) = 10922 /\
    Linear.out_features (FeedForward.w3 ff) = 10922 /\
    shapeZ (Linear.weight (FeedForward.w1 ff)) = [10922; 4096] /\
    shapeZ (Linear.weight (FeedForward.w2 ff)) = [4096; 10922] /\
    shapeZ (Linear.weight (FeedForward.w3 ff)) = [10922; 4096] /\
    10922 mod 256 = 170 /\
    256 * ((10922 + 256 - 1) / 256) = 11008.
Proof.
  destruct (linear_init_ok fl 4096 10922) as (wa & Ha & Hsa); [lia|lia|].
  destruct (linear_init_ok fl 10922 4096) as (wb & Hb & Hsb); [lia|lia|].
  exists (FeedForward.mk (Linear.mk 4096 10922 wa) (Linear.mk 10922 4096 wb)
            (Linear.mk 4096 10922 wa)).
  split.
  - rewrite feed_forward_init_width, ffn_width_default.
    unfold ModelArgs.default, py_floordiv.
    cbn [ModelArgs.dim ModelArgs.ffn_dim_multiplier ModelArgs.multiple_of].
    cbn [Z.eqb bind ret Monad_result result_bind].
    rewrite Ha. cbn [bind ret Monad_result result_bind].
    rewrite Hb. cbn [bind ret Monad_result result_bind].
    reflexivity.
  - cbn [FeedForward.w1 FeedForward.w2 FeedForward.w3 Linear.out_features
           Linear.in_features Linear.weight].
    repeat split; assumption || reflexivity.
Qed.

(* --------------------------------------------------------------------- *)
(** *** Construction of blocks and of the model *)
(* --------------------------------------------------------------------- *)

(** Line 170 divides by [n_heads]; line 172 calls [SelfAttention()]
    without the argument its constructor requires. *)
Lemma encoder_block_init_error (fl : Float) (args : ModelArgs.t) :
  EncoderBlock.init args
    = Raise (if ModelArgs.n_heads args =? 0 then ZeroDivisionError else TypeError).
Proof.
  unfold EncoderBlock.init, py_floordiv.
  destruct (ModelArgs.n_heads args =? 0); reflexivity.
Qed.

Lemma encoder_block_init_raises (fl : Float) (args : ModelArgs.t) :
  raises (EncoderBlock.init args).
Proof.
  rewrite encoder_block_init_error. eexists. reflexivity.
Qed.

Lemma append_layers_error (fl : Float) (n : nat) (args : ModelArgs.t)
    (layers : list EncoderBlock.t) :
  Transformers.append_layers (S n) args layers
    = Raise (if ModelArgs.n_heads args =? 0 then ZeroDivisionError else TypeError).
Proof.
  cbn [Transformers.append_layers]. rewrite encoder_block_init_error. reflexivity.
Qed.

Lemma append_layers_raises (fl : Float) (n : nat) (args : ModelArgs.t)
    (layers : list EncoderBlock.t) :
  raises (Transformers.append_layers (S n) args layers).
Proof.
  destruct (encoder_block_init_raises fl args) as [e He].
  exists e. cbn [Transformers.append_layers]. rewrite He. reflexivity.
Qed.

(** C1, as the code has it.  For every configuration the constructor
    of [EncoderBlock] raises: [ZeroDivisionError] when [n_heads = 0],
    otherwise the [TypeError] of the argument-less [SelfAttention()].  The
    constructor of [Transformers] raises whenever it has at least one
    layer to build, and with that same exception once the embedding table
    of line 194 has been built. *)
Theorem blocks_cannot_be_built (fl : Float) (args : ModelArgs.t) :
  EncoderBlock.init args
    = Raise (if ModelArgs.n_heads args =? 0 then ZeroDivisionError else TypeError) /\
  raises (EncoderBlock.init args) /\
  (1 <= ModelArgs.n_layers args ->
   raises (Transformers.init args) /\
   (is_ok (Embedding.init (ModelArgs.vocab_size args) (ModelArgs.dim args)) = true ->
    Transformers.init args
      = Raise (if ModelArgs.n_heads args =? 0 then ZeroDivisionError else TypeError))).
Proof.
  split; [apply encoder_block_init_error|].
  split; [apply encoder_block_init_raises|].
  intros Hn. unfold Transformers.init.
  destruct (Z.to_nat (ModelArgs.n_layers args)) as [|n] eqn:Hz; [lia|].
  rewrite append_layers_error.
  destruct (Embedding.init (ModelArgs.vocab_size args) (ModelArgs.dim args)) as [emb|e].
  - cbn [bind ret Monad_result result_bind]. split; [|reflexivity].
    eexists. reflexivity.
  - split; [exists e; reflexivity|]. discriminate.
Qed.

Lemma blocks_cannot_be_built_witness :
  EncoderBlock.init (fl := RFloat) example_args = Raise TypeError /\
  raises (Transformers.init (fl := RFloat) example_args) /\
  Transformers.init (fl := RFloat) example_args = Raise TypeError.
Proof.
  destruct (blocks_cannot_be_built RFloat example_args) as (Hblock & _ & Hmodel).
  split; [exact Hblock|].
  assert (Hn : 1 <= ModelArgs.n_layers example_args) by (simpl; lia).
  destruct (Hmodel Hn) as [Hraises Hkind].
  split; [exact Hraises|]. apply Hkind. reflexivity.
Defined.

(** C1, as stated, fails: with [n_layers = 0] no block is constructed,
    and with the odd head dimension [6 // 2 = 3] the rotary table is
    accepted, so [Transformers(no_layer_args)] returns a model. *)
Lemma transformers_builds_without_layers :
  ~ raises (Transformers.init (fl := RFloat) no_layer_args).
Proof.
  intros [e He].
  assert (Hok : is_ok (Transformers.init (fl := RFloat) no_layer_args) = true)
    by reflexivity.
  rewrite He in Hok. discriminate Hok.
Qed.

(* --------------------------------------------------------------------- *)
(** *** The rotary table of a model *)
(* --------------------------------------------------------------------- *)

Lemma torch_arange_length (start stop step : Z) (l : list Z) :
  torch_arange start stop step = Ok l ->
  length l = Z.to_nat ((stop - start + step - 1) / step).
Proof.
  unfold torch_arange. destruct (stop <? start); [discriminate|].
  intros H. inversion H. rewrite length_map, length_seq. reflexivity.
Qed.

(** A table is returned only for an odd head dimension; it has one row
    per position and [(head_dim + 1) / 2] columns. *)
Lemma precompute_ok_inv (fl : Float) (head_dim seq_len : Z) (device : option string)
    (theta : Q) (table : tensor C) :
  precompute_theta_pos_embeddings head_dim seq_len device theta = Ok table ->
  head_dim mod 2 = 1 /\
  shape table = [Z.to_nat seq_len; Z.to_nat ((head_dim + 1) / 2)].
Proof.
  unfold precompute_theta_pos_embeddings, py_mod. simpl (2 =? 0).
  cbn [bind ret Monad_result result_bind].
  unfold py_truthy.
  destruct (Z.eqb_spec (head_dim mod 2) 0) as [Hm|Hm]; [discriminate|].
  cbn [negb py_assert bind ret Monad_result result_bind].
  destruct (torch_arange 0 head_dim 2) as [evens|] eqn:He; [|discriminate].
  cbn [bind ret Monad_result result_bind].
  destruct (to_device device) as [[]|]; [|discriminate].
  cbn [bind ret Monad_result result_bind].
  destruct (torch_arange 0 seq_len 1) as [positions|] eqn:Hp; [|discriminate].
  cbn [bind ret Monad_result result_bind].
  intros H. inversion H. subst table. clear H.
  apply torch_arange_length in He. apply torch_arange_length in Hp.
  split.
  - pose proof (Z.mod_pos_bound head_dim 2). lia.
  - unfold tensor_map, tabulate. cbn [shape app]. rewrite He, Hp.
    replace (seq_len - 0 + 1 - 1) with seq_len by lia.
    replace (head_dim - 0 + 2 - 1) with (head_dim + 1) by lia.
    rewrite Z.div_1_r. reflexivity.
Qed.

Lemma get_tensor_map {X Y : Type} (dx : X) (dy : Y) (f : X -> Y) (t : tensor X)
    (idx : list nat) :
  wf_tensor t -> in_bounds (shape t) idx = true ->
  get dy (tensor_map f t) idx = f (get dx t idx).
Proof.
  intros Hwf Hin. unfold get, tensor_map. cbn [shape data].
  rewrite (nth_indep _ dy (f dx)).
  - apply map_nth.
  - rewrite length_map, Hwf. apply offset_from_lt. exact Hin.
Qed.

(** For an accepted head dimension [2 * k + 1] the entry at position [p]
    and frequency index [i] is the polar form of modulus 1 and angle
    [p * f_i], with [f_i = 1 / theta ^ (2 i / head_dim)]. *)
Lemma precompute_entry (fl : Float) (k seq_len p i : nat) (device : option string)
    (theta : Q) (table : tensor C) :
  precompute_theta_pos_embeddings (2 * Z.of_nat k + 1) (Z.of_nat seq_len) device theta
    = Ok table ->
  (p < seq_len)%nat -> (i <= k)%nat ->
  let f_i := fdiv one (fpow (f_of_Q theta)
                         (fdiv (f_of_Z (2 * Z.of_nat i)) (f_of_Z (2 * Z.of_nat k + 1)))) in
  let angle := fmul (f_of_Z (Z.of_nat p)) f_i in
  get czero table [p; i] = (fmul one (fcos angle), fmul one (fsin angle)).
Proof.
  intros Ht Hp Hi.
  unfold precompute_theta_pos_embeddings, py_mod, torch_arange in Ht. simpl (2 =? 0) in Ht.
  cbn [bind ret Monad_result result_bind] in Ht.
  replace ((2 * Z.of_nat k + 1) mod 2) with 1 in Ht
    by (rewrite Z.add_comm, Z.mul_comm, Z.mod_add by lia; reflexivity).
  cbn [py_truthy Z.eqb negb py_assert bind ret Monad_result result_bind] in Ht.
  destruct (Z.ltb_spec (2 * Z.of_nat k + 1) 0); [lia|].
  destruct (Z.ltb_spec (Z.of_nat seq_len) 0); [lia|].
  cbn [bind ret Monad_result result_bind] in Ht.
  destruct (to_device device) as [[]|]; [|discriminate Ht].
  cbn [bind ret Monad_result result_bind] in Ht.
  replace (Z.to_nat ((2 * Z.of_nat k + 1 - 0 + 2 - 1) / 2)) with (S k) in Ht.
  2:{ replace (2 * Z.of_nat k + 1 - 0 + 2 - 1) with (Z.of_nat (S k) * 2) by lia.
      rewrite Z.div_mul by lia. rewrite Nat2Z.id. reflexivity. }
  replace (Z.to_nat ((Z.of_nat seq_len - 0 + 1 - 1) / 1)) with seq_len in Ht
    by (rewrite Z.div_1_r; lia).
  apply Ok_inj in Ht. subst table.
  rewrite !length_map, !length_seq. cbn [shape app].
  cbn [tensor_map shape].
  etransitivity.
  { apply (get_tensor_map zero czero).
    - apply wf_tabulate.
    - cbn [tabulate shape in_bounds].
      rewrite !andb_true_iff, !Nat.ltb_lt. repeat split; lia. }
  rewrite get_tabulate
    by (cbn [in_bounds]; rewrite !andb_true_iff, !Nat.ltb_lt; repeat split; lia).
  cbn [firstn skipn].
  unfold get, offset, tensor_map. cbn [shape data offset_from].
  replace (0 * seq_len + p)%nat with p by lia.
  replace (0 * S k + i)%nat with i by lia.
  rewrite (nth_indep _ 0 ((fun j => 0 + 1 * Z.of_nat j) 0%nat))
    by (rewrite length_map, length_seq; lia).
  rewrite (map_nth (fun j => 0 + 1 * Z.of_nat j)).
  rewrite seq_nth by lia.
  set (g := fun n : F => fdiv one (fpow (f_of_Q theta)
                                     (fdiv n (f_of_Z (2 * Z.of_nat k + 1))))).
  rewrite (nth_indep _ zero (g (f_of_Z ((fun j => 0 + 2 * Z.of_nat j) 0%nat))))
    by (rewrite !length_map, length_seq; lia).
  rewrite (map_nth g), (map_nth f_of_Z), (map_nth (fun j => 0 + 2 * Z.of_nat j)).
  rewrite seq_nth by lia.
  cbn [Nat.add]. unfold g.
  replace (0 + 1 * Z.of_nat p) with (Z.of_nat p) by lia.
  replace (0 + 2 * Z.of_nat i) with (2 * Z.of_nat i) by lia.
  reflexivity.
Qed.

Lemma transformers_init_inv (fl : Float) (args : ModelArgs.t) (model : Transformers.t) :
  Transformers.init args = Ok model ->
  exists head_dim,
    py_floordiv (ModelArgs.dim args) (ModelArgs.n_heads args) = Ok head_dim /\
    precompute_theta_pos_embeddings head_dim (ModelArgs.max_seq_len args * 2)
      (ModelArgs.device args) 10000
      = Ok (Transformers.freqs_complex model).
Proof.
  unfold Transformers.init.
  destruct (Embedding.init _ _); [|discriminate].
  cbn [bind ret Monad_result result_bind].
  destruct (Transformers.append_layers _ _ _); [|discriminate].
  cbn [bind ret Monad_result result_bind].
  destruct (RMSNorm.init _ _); [|discriminate].
  cbn [bind ret Monad_result result_bind].
  destruct (Linear.init _ _); [|discriminate].
  cbn [bind ret Monad_result result_bind].
  destruct (py_floordiv _ _) as [hd|]; [|discriminate].
  cbn [bind ret Monad_result result_bind].
  destruct (precompute_theta_pos_embeddings hd _ _ _) as [table|] eqn:Ht; [|discriminate].
  cbn [bind ret Monad_result result_bind].
  intros H. inversion H. subst model. clear H.
  exists hd. split; [reflexivity|exact Ht].
Qed.

(** C10 (RotaryTable of the model).  Whenever the constructor of
    [Transformers] returns a model, its head dimension [dim // n_heads] is
    odd, and the table has [2 * max_seq_len] rows and
    [(head_dim + 1) / 2] columns: for an even head dimension no table is
    built. *)
Theorem rotary_table_needs_odd_head_dim (fl : Float) (args : ModelArgs.t)
    (model : Transformers.t) :
  Transformers.init args = Ok model ->
  exists head_dim,
    py_floordiv (ModelArgs.dim args) (ModelArgs.n_heads args) = Ok head_dim /\
    head_dim mod 2 = 1 /\
    shape (Transformers.freqs_complex model)
      = [Z.to_nat (ModelArgs.max_seq_len args * 2); Z.to_nat ((head_dim + 1) / 2)].
Proof.
  intros Hinit.
  destruct (transformers_init_inv fl args model Hinit) as (hd & Hhd & Ht).
  apply precompute_ok_inv in Ht. destruct Ht as [Hodd Hshape].
  exists hd. split; [exact Hhd|]. split; [exact Hodd|exact Hshape].
Qed.

Lemma rotary_table_needs_odd_head_dim_witness :
  exists model,
    Transformers.init (fl := RFloat) no_layer_args = Ok model /\
    exists head_dim,
      py_floordiv 6 2 = Ok head_dim /\
      head_dim mod 2 = 1 /\
      shape (Transformers.freqs_complex model) = [4%nat; Z.to_nat ((head_dim + 1) / 2)].
Proof.
  eexists. split; [reflexivity|].
  exact (rotary_table_needs_odd_head_dim RFloat no_layer_args _ eq_refl).
Defined.

(** The assertion turned around: an even head dimension stops the
    constructor of the model whatever the rest of the configuration is. *)
Lemma transformers_init_even_head_dim (fl : Float) (args : ModelArgs.t) (head_dim : Z) :
  py_floordiv (ModelArgs.dim args) (ModelArgs.n_heads args) = Ok head_dim ->
  head_dim mod 2 = 0 ->
  raises (Transformers.init args).
Proof.
  intros Hd Heven.
  destruct (Transformers.init args) as [model|e] eqn:Hinit; [|exists e; reflexivity].
  destruct (transformers_init_inv fl args model Hinit) as (hd & Hhd & Ht).
  apply precompute_ok_inv in Ht. destruct Ht as [Hodd _].
  rewrite Hd in Hhd. inversion Hhd. subst hd. lia.
Qed.

Example transformers_init_even_head :
  Transformers.init (fl := RFloat) even_head_args = Raise AssertionError.
Proof. reflexivity. Qed.

Example precompute_head_dim_4 :
  precompute_theta_pos_embeddings (fl := RFloat) 4 8 None 10000 = Raise AssertionError.
Proof. reflexivity. Qed.

Example precompute_head_dim_3_shape :
  match precompute_theta_pos_embeddings (fl := RFloat) 3 8 None 10000 with
  | Ok table => shape table = [8; 2]%nat
  | Raise _ => False
  end.
Proof. reflexivity. Qed.

(** The device of the configuration reaches the table of line 203: on a
    machine that refuses it, no model is built. *)
Example transformers_init_bogus_device :
  Transformers.init (fl := RFloat) bogus_device_args = Raise RuntimeError.
Proof. reflexivity. Qed.

(* --------------------------------------------------------------------- *)
(** *** The forward step of the model *)
(* --------------------------------------------------------------------- *)



(* --------------------------------------------------------------------- *)
(** *** The block *)
(* --------------------------------------------------------------------- *)

(** The attention unit raises on every input, before it touches its
    cache: the rotary embedding of the query is never returned. *)
Ltac run_method :=
  cbn [bind ret Monad_M M_bind runM lift read_self write_self zoom].

(** One statement of a method body: either it raised, and the method is
    over, or the body goes on with its value. *)
Ltac step_or_raise c :=
  let e := fresh "e" in
  destruct c as [?|e]; run_method; [|exists e; reflexivity].

Lemma self_attention_forward_raises (fl : Float) (self : SelfAttention.t)
    (x : tensor F) (start_pos : Z) (freqs : tensor C) :
  exists e, runM (SelfAttention.forward x start_pos freqs) self = (self, Raise e).
Proof.
  unfold SelfAttention.forward. run_method.
  destruct (unpack3 (shapeZ x)) as [[[bs sl] ?]|e]; run_method; [|exists e; reflexivity].
  step_or_raise (Linear.forward (SelfAttention.wq self) x).
  step_or_raise (Linear.forward (SelfAttention.wk self) x).
  step_or_raise (Linear.forward (SelfAttention.wv self) x).
  match goal with |- context [view ?t ?s] => step_or_raise (view t s) end.
  match goal with |- context [view ?t ?s] => step_or_raise (view t s) end.
  match goal with |- context [view ?t ?s] => step_or_raise (view t s) end.
  match goal with
  | |- context [apply_rotary_embeddings ?q freqs] =>
      destruct (apply_rotary_embeddings_cases fl q freqs) as [H|H]; rewrite H
  end; eexists; reflexivity.
Qed.

Lemma encoder_block_forward_raises (fl : Float) (self : EncoderBlock.t)
    (x : tensor F) (start_pos : Z) (freqs : tensor C) :
  exists e, runM (EncoderBlock.forward x start_pos freqs) self = (self, Raise e).
Proof.
  unfold EncoderBlock.forward, EncoderBlock.forward_with. run_method.
  destruct (RMSNorm.forward (EncoderBlock.attention_norm self) x) as [n|e];
    run_method; [|exists e; reflexivity].
  destruct (self_attention_forward_raises fl (EncoderBlock.attention self) n start_pos freqs)
    as [e He].
  rewrite He. exists e. destruct self; reflexivity.
Qed.

(** C2 (DecoderBlock composition).  On the input [[1, 0]] of shape
    [1, 1, 2] the block as written raises [TypeError] inside its attention
    unit.  With sub-units that return their input, the body of
    [forward] yields [x + x + x] (first coordinate 3): line 183 normalises
    the block input [x]; the composition [h + FeedForward(Norm(h))] yields
    [(x + x) + (x + x)] (first coordinate 4). *)
Theorem encoder_block_feed_forward_reads_input :
  runM (EncoderBlock.forward (fl := RFloat) example_input 0 example_freqs) example_block
    = (example_block, Raise TypeError) /\
  exists out_code out_spec,
    runM (EncoderBlock.forward_with (fl := RFloat) echo_attention echo_feed_forward echo_norm
            example_input 0 example_freqs) example_block
      = (example_block, Ok out_code) /\
    runM (EncoderBlock.forward_spec (fl := RFloat) echo_attention echo_feed_forward echo_norm
            example_input 0 example_freqs) example_block
      = (example_block, Ok out_spec) /\
    get 0%R out_code [0; 0; 0]%nat = (1 + 1 + 1)%R /\
    get 0%R out_spec [0; 0; 0]%nat = (1 + 1 + (1 + 1))%R /\
    out_code <> out_spec.
Proof.
  split; [reflexivity|].
  eexists. eexists.
  split; [reflexivity|]. split; [reflexivity|].
  split; [reflexivity|]. split; [reflexivity|].
  intros Heq.
  apply (f_equal (fun t => get 0%R t [0; 0; 0]%nat)) in Heq.
  change ((1 + 1 + 1)%R = (1 + 1 + (1 + 1))%R) in Heq.
  lra.
Qed.

(* --------------------------------------------------------------------- *)
(** *** The theorems at concrete inputs *)
(* --------------------------------------------------------------------- *)

(** Two key/value heads [[10], [20]] repeated twice: [[10], [10], [20], [20]]. *)
Lemma repeat_kv_replicates_witness :
  let x := mkTensor [1; 1; 2; 1]%nat [10; 20] in
  repeat_kv 0 x 1 = Ok x /\
  exists y,
    repeat_kv 0 x (Z.of_nat 2) = Ok y /\
    shape y = [1; 1; (2 * 2); 1]%nat /\
    wf_tensor y /\
    forall b s j r i,
      (b < 1)%nat -> (s < 1)%nat -> (j < 2)%nat -> (r < 2)%nat -> (i < 1)%nat ->
      get 0 y [b; s; (j * 2 + r)%nat; i] = get 0 x [b; s; j; i].
Proof.
  apply (repeat_kv_replicates Z 0 (mkTensor [1; 1; 2; 1]%nat [10; 20]) 1 1 2 1 2).
  - reflexivity.
  - reflexivity.
Defined.

Example repeat_kv_two_heads :
  repeat_kv 0 (mkTensor [1; 1; 2; 1]%nat [10; 20]) 2
  = Ok (mkTensor [1; 1; 4; 1]%nat [10; 10; 20; 20]).
Proof. reflexivity. Qed.

(** The history read back after that write: the untouched position 0
    and the new keys at position 1. *)
Example kv_cache_history :
  snd (runM (SelfAttention.update_kv_cache (fl := RFloat)
               (mkTensor [1; 1; 1; 2]%nat [3; 4]%R)
               (mkTensor [1; 1; 1; 2]%nat [5; 6]%R) 1 1 1) example_attention)
  = Ok (mkTensor [1; 2; 1; 2]%nat [0; 0; 3; 4]%R,
        mkTensor [1; 2; 1; 2]%nat [0; 0; 5; 6]%R).
Proof. reflexivity. Qed.

Lemma apply_rotary_embeddings_raises_witness :
  apply_rotary_embeddings (fl := RFloat)
    (mkTensor [1; 1; 1; 2]%nat [1; 0]%R) example_freqs = Raise TypeError.
Proof.
  apply (proj2 (apply_rotary_embeddings_raises RFloat
                  (mkTensor [1; 1; 1; 2]%nat [1; 0]%R) example_freqs)
               [1; 1; 1]%nat 1%nat).
  - reflexivity.
  - simpl. lia.
Defined.

(** One query of dimension 2 against one cached position. *)
Lemma attention_scores_raises_witness :
  SelfAttention.attention_scores example_attention
    (mkTensor [1; 1; 1; 2]%nat [1; 0]%R)
    (mkTensor [1; 1; 1; 2]%nat [1; 0]%R)
    (mkTensor [1; 1; 1; 2]%nat [0; 1]%R) = Raise TypeError.
Proof.
  apply (proj2 (attention_scores_raises RFloat example_attention
                  (mkTensor [1; 1; 1; 2]%nat [1; 0]%R)
                  (mkTensor [1; 1; 1; 2]%nat [1; 0]%R)
                  (mkTensor [1; 1; 1; 2]%nat [0; 1]%R))
               1%nat 1%nat 1%nat 2%nat).
  - reflexivity.
  - reflexivity.
Defined.

(* ===================================================================== *)
(** ** Further properties of the module *)
(* ===================================================================== *)

(* --------------------------------------------------------------------- *)
(** *** The key/value cache across steps *)
(* --------------------------------------------------------------------- *)

Ltac case_nat_tests :=
  repeat match goal with
         | |- context [(?a <? ?b)%nat] => destruct (Nat.ltb_spec a b)
         | |- context [(?a <=? ?b)%nat] => destruct (Nat.leb_spec a b)
         | |- context [(?a =? ?b)%nat] => destruct (Nat.eqb_spec a b)
         end;
  cbn [andb orb negb]; try reflexivity; try lia.

Lemma in_bounds4 (B S H D i q h j : nat) :
  (i < B)%nat -> (q < S)%nat -> (h < H)%nat -> (j < D)%nat ->
  in_bounds [B; S; H; D] [i; q; h; j] = true.
Proof.
  intros. cbn [in_bounds]. rewrite !andb_true_iff, !Nat.ltb_lt. repeat split; assumption.
Qed.

(** The cache after [cache[:b, p:p+1] = v], entry by entry. *)
Lemma setitem_block (A : Type) (d : A) (B S H D b p : nat) (cache v : tensor A) :
  (b <= B)%nat -> (p + 1 <= S)%nat ->
  shape cache = [B; S; H; D] ->
  shape v = [b; 1%nat; H; D] ->
  exists cache',
    setitem d cache
      [mkSlice None (Some (Z.of_nat b));
       mkSlice (Some (Z.of_nat p)) (Some (Z.of_nat p + 1))] v = Ok cache' /\
    shape cache' = [B; S; H; D] /\
    forall i q h j, (i < B)%nat -> (q < S)%nat -> (h < H)%nat -> (j < D)%nat ->
      get d cache' [i; q; h; j]
      = if (i <? b)%nat && (q =? p)%nat then get d v [i; 0%nat; h; j]
        else get d cache [i; q; h; j].
Proof.
  intros Hb Hp Hc Hv. unfold setitem, expand. rewrite Hc, Hv.
  rewrite slice_region_store by assumption.
  cbn [bind Monad_result result_bind ret map snd].
  pose proof (expand_shape_same [b; 1%nat; H; D]) as He. cbn [map] in He.
  rewrite He. clear He.
  cbn [bind Monad_result result_bind ret].
  eexists. split; [reflexivity|]. split; [reflexivity|].
  intros i q h j Hi Hq Hh Hj.
  rewrite get_tabulate by (apply in_bounds4; assumption).
  cbn [in_region zip_with map fst].
  destruct (Nat.ltb_spec i b) as [Hib|Hib]; destruct (Nat.eqb_spec q p) as [Hqp|Hqp];
    cbn [andb].
  - subst q.
    replace ((0 <=? i)%nat && (i <? 0 + b)%nat &&
             ((p <=? p)%nat && (p <? p + 1)%nat &&
              ((0 <=? h)%nat && (h <? 0 + H)%nat &&
               ((0 <=? j)%nat && (j <? 0 + D)%nat && true)))) with true
      by (symmetry; case_nat_tests).
    rewrite get_tabulate.
    + unfold broadcast_index. cbn [zip_with].
      rewrite Nat.sub_diag, !Nat.sub_0_r.
      rewrite !broadcast_axis_id by lia. reflexivity.
    + rewrite Nat.sub_diag, !Nat.sub_0_r. apply in_bounds4; lia.
  - replace ((0 <=? i)%nat && (i <? 0 + b)%nat &&
             ((p <=? q)%nat && (q <? p + 1)%nat &&
              ((0 <=? h)%nat && (h <? 0 + H)%nat &&
               ((0 <=? j)%nat && (j <? 0 + D)%nat && true)))) with false
      by (symmetry; case_nat_tests).
    reflexivity.
  - replace ((0 <=? i)%nat && (i <? 0 + b)%nat &&
             ((p <=? q)%nat && (q <? p + 1)%nat &&
              ((0 <=? h)%nat && (h <? 0 + H)%nat &&
               ((0 <=? j)%nat && (j <? 0 + D)%nat && true)))) with false
      by (symmetry; case_nat_tests).
    reflexivity.
  - replace ((0 <=? i)%nat && (i <? 0 + b)%nat &&
             ((p <=? q)%nat && (q <? p + 1)%nat &&
              ((0 <=? h)%nat && (h <? 0 + H)%nat &&
               ((0 <=? j)%nat && (j <? 0 + D)%nat && true)))) with false
      by (symmetry; case_nat_tests).
    reflexivity.
Qed.

(** One run of lines 114-120, with both caches and both histories
    described entry by entry. *)
Lemma update_kv_cache_step (fl : Float) (self : SelfAttention.t) (xk xv : tensor F)
    (B S H D b p : nat) :
  shape (SelfAttention.cache_k self) = [B; S; H; D] ->
  shape (SelfAttention.cache_v self) = [B; S; H; D] ->
  shape xk = [b; 1%nat; H; D] ->
  shape xv = [b; 1%nat; H; D] ->
  (b <= B)%nat -> (p + 1 <= S)%nat ->
  exists ck cv keys values,
    runM (SelfAttention.update_kv_cache xk xv (Z.of_nat b) (Z.of_nat p) 1) self
      = (SelfAttention.set_cache_v (SelfAttention.set_cache_k self ck) cv,
         Ok (keys, values)) /\
    shape ck = [B; S; H; D] /\ shape cv = [B; S; H; D] /\
    shape keys = [b; (p + 1)%nat; H; D] /\ shape values = [b; (p + 1)%nat; H; D] /\
    (forall i q h j, (i < B)%nat -> (q < S)%nat -> (h < H)%nat -> (j < D)%nat ->
       get zero ck [i; q; h; j]
       = if (i <? b)%nat && (q =? p)%nat then get zero xk [i; 0%nat; h; j]
         else get zero (SelfAttention.cache_k self) [i; q; h; j]) /\
    (forall i q h j, (i < B)%nat -> (q < S)%nat -> (h < H)%nat -> (j < D)%nat ->
       get zero cv [i; q; h; j]
       = if (i <? b)%nat && (q =? p)%nat then get zero xv [i; 0%nat; h; j]
         else get zero (SelfAttention.cache_v self) [i; q; h; j]) /\
    (forall i q h j, (i < b)%nat -> (q < p + 1)%nat -> (h < H)%nat -> (j < D)%nat ->
       get zero keys [i; q; h; j] = get zero ck [i; q; h; j]) /\
    (forall i q h j, (i < b)%nat -> (q < p + 1)%nat -> (h < H)%nat -> (j < D)%nat ->
       get zero values [i; q; h; j] = get zero cv [i; q; h; j]).
Proof.
  intros Hck Hcv Hxk Hxv Hb Hp.
  destruct (setitem_block F zero B S H D b p _ _ Hb Hp Hck Hxk) as (ck & Hsk & Hshk & Hgk).
  destruct (setitem_block F zero B S H D b p _ _ Hb Hp Hcv Hxv) as (cv & Hsv & Hshv & Hgv).
  destruct (@getitem_history F zero B S H D b p Hb Hp _ Hshk)
    as (keys & Hrk & Hshkeys & _ & Hkeys).
  destruct (@getitem_history F zero B S H D b p Hb Hp _ Hshv)
    as (values & Hrv & Hshvals & _ & Hvals).
  exists ck, cv, keys, values.
  split.
  - unfold SelfAttention.update_kv_cache.
    cbn [bind ret Monad_M M_bind runM read_self write_self lift].
    rewrite Hsk. cbn [SelfAttention.set_cache_k SelfAttention.cache_v].
    rewrite Hsv.
    change (SelfAttention.cache_k
              (SelfAttention.set_cache_v (SelfAttention.set_cache_k self ck) cv)) with ck.
    change (SelfAttention.cache_v
              (SelfAttention.set_cache_v (SelfAttention.set_cache_k self ck) cv)) with cv.
    rewrite Hrk, Hrv. reflexivity.
  - repeat split; assumption.
Qed.

(** C7 (KVCache round trip).  For a batch of [b <= max_batch_size] slots
    and a position [p] with [p + 1 <= max_seq_len], lines 114-120 store the
    new keys and values at position [p] of slots [0, b) and read back the
    range [0, p + 1): the call succeeds and changes nothing of the unit but
    its two caches, which keep their shape, hold the new keys and values at
    position [p] of the slots [0, b) and are as before everywhere else; the
    history has [p + 1] positions, its last position holds exactly the keys
    and values just written, and its positions before [p] hold what the
    caches held before the call. *)
Theorem kv_cache_round_trip (fl : Float) (self : SelfAttention.t) (xk xv : tensor F)
    (max_batch max_seq n_kv hd b p : nat) :
  shape (SelfAttention.cache_k self) = [max_batch; max_seq; n_kv; hd] ->
  shape (SelfAttention.cache_v self) = [max_batch; max_seq; n_kv; hd] ->
  shape xk = [b; 1%nat; n_kv; hd] ->
  shape xv = [b; 1%nat; n_kv; hd] ->
  (b <= max_batch)%nat ->
  (p + 1 <= max_seq)%nat ->
  exists self' keys values,
    runM (SelfAttention.update_kv_cache xk xv (Z.of_nat b) (Z.of_nat p) 1) self
      = (self', Ok (keys, values)) /\
    shape keys = [b; (p + 1)%nat; n_kv; hd] /\
    shape values = [b; (p + 1)%nat; n_kv; hd] /\
    (forall i h j, (i < b)%nat -> (h < n_kv)%nat -> (j < hd)%nat ->
       get zero keys [i; p; h; j] = get zero xk [i; 0%nat; h; j] /\
       get zero values [i; p; h; j] = get zero xv [i; 0%nat; h; j]) /\
    self' = SelfAttention.set_cache_v
              (SelfAttention.set_cache_k self (SelfAttention.cache_k self'))
              (SelfAttention.cache_v self') /\
    shape (SelfAttention.cache_k self') = [max_batch; max_seq; n_kv; hd] /\
    shape (SelfAttention.cache_v self') = [max_batch; max_seq; n_kv; hd] /\
    (forall i h j, (i < b)%nat -> (h < n_kv)%nat -> (j < hd)%nat ->
       get zero (SelfAttention.cache_k self') [i; p; h; j] = get zero xk [i; 0%nat; h; j] /\
       get zero (SelfAttention.cache_v self') [i; p; h; j] = get zero xv [i; 0%nat; h; j]) /\
    (forall i q h j,
       (i < max_batch)%nat -> (q < max_seq)%nat -> (h < n_kv)%nat -> (j < hd)%nat ->
       (b <= i)%nat \/ q <> p ->
       get zero (SelfAttention.cache_k self') [i; q; h; j]
         = get zero (SelfAttention.cache_k self) [i; q; h; j] /\
       get zero (SelfAttention.cache_v self') [i; q; h; j]
         = get zero (SelfAttention.cache_v self) [i; q; h; j]) /\
    (forall i q h j, (i < b)%nat -> (q < p)%nat -> (h < n_kv)%nat -> (j < hd)%nat ->
       get zero keys [i; q; h; j] = get zero (SelfAttention.cache_k self) [i; q; h; j] /\
       get zero values [i; q; h; j] = get zero (SelfAttention.cache_v self) [i; q; h; j]).
Proof.
  intros Hck Hcv Hxk Hxv Hb Hp.
  destruct (update_kv_cache_step fl self xk xv _ _ _ _ b p Hck Hcv Hxk Hxv Hb Hp)
    as (ck & cv & keys & values & Hrun & Hshk & Hshv & Hshkeys & Hshvals
        & Hgk & Hgv & Hkeys & Hvals).
  exists (SelfAttention.set_cache_v (SelfAttention.set_cache_k self ck) cv), keys, values.
  split; [exact Hrun|]. split; [exact Hshkeys|]. split; [exact Hshvals|].
  change (SelfAttention.cache_k
            (SelfAttention.set_cache_v (SelfAttention.set_cache_k self ck) cv)) with ck.
  change (SelfAttention.cache_v
            (SelfAttention.set_cache_v (SelfAttention.set_cache_k self ck) cv)) with cv.
  assert (Hwritten : forall i h j, (i < b)%nat -> (h < n_kv)%nat -> (j < hd)%nat ->
            get zero ck [i; p; h; j] = get zero xk [i; 0%nat; h; j] /\
            get zero cv [i; p; h; j] = get zero xv [i; 0%nat; h; j]).
  { intros i h j Hi Hh Hj.
    rewrite Hgk, Hgv by lia.
    replace ((i <? b)%nat && (p =? p)%nat) with true by (symmetry; case_nat_tests).
    split; reflexivity. }
  split.
  { intros i h j Hi Hh Hj. rewrite Hkeys, Hvals by lia. apply Hwritten; assumption. }
  split; [reflexivity|]. split; [exact Hshk|]. split; [exact Hshv|].
  split; [exact Hwritten|].
  split.
  - intros i q h j Hi Hq Hh Hj Hout.
    rewrite Hgk, Hgv by assumption.
    replace ((i <? b)%nat && (q =? p)%nat) with false
      by (symmetry; destruct Hout; case_nat_tests).
    split; reflexivity.
  - intros i q h j Hi Hq Hh Hj.
    rewrite Hkeys, Hvals by lia.
    rewrite Hgk, Hgv by lia.
    replace ((i <? b)%nat && (q =? p)%nat) with false by (symmetry; case_nat_tests).
    split; reflexivity.
Qed.

(** One batch slot writing position 1 of a cache with two positions. *)
Lemma kv_cache_round_trip_witness :
  let xk := mkTensor [1; 1; 1; 2]%nat [3; 4]%R in
  let xv := mkTensor [1; 1; 1; 2]%nat [5; 6]%R in
  exists self' keys values,
    runM (SelfAttention.update_kv_cache (fl := RFloat) xk xv (Z.of_nat 1) (Z.of_nat 1) 1)
         example_attention
      = (self', Ok (keys, values)) /\
    shape keys = [1; (1 + 1); 1; 2]%nat /\
    shape values = [1; (1 + 1); 1; 2]%nat /\
    (forall i h j, (i < 1)%nat -> (h < 1)%nat -> (j < 2)%nat ->
       get (@zero RFloat) keys [i; 1; h; j]%nat = get (@zero RFloat) xk [i; 0; h; j]%nat /\
       get (@zero RFloat) values [i; 1; h; j]%nat = get (@zero RFloat) xv [i; 0; h; j]%nat) /\
    (forall i h j, (i < 1)%nat -> (h < 1)%nat -> (j < 2)%nat ->
       get (@zero RFloat) (SelfAttention.cache_k self') [i; 1; h; j]%nat
         = get (@zero RFloat) xk [i; 0; h; j]%nat /\
       get (@zero RFloat) (SelfAttention.cache_v self') [i; 1; h; j]%nat
         = get (@zero RFloat) xv [i; 0; h; j]%nat) /\
    (forall i q h j, (i < 1)%nat -> (q < 1)%nat -> (h < 1)%nat -> (j < 2)%nat ->
       get (@zero RFloat) keys [i; q; h; j]
         = get (@zero RFloat) (SelfAttention.cache_k example_attention) [i; q; h; j] /\
       get (@zero RFloat) values [i; q; h; j]
         = get (@zero RFloat) (SelfAttention.cache_v example_attention) [i; q; h; j]).
Proof.
  intros xk xv.
  destruct (kv_cache_round_trip RFloat example_attention xk xv 1 2 1 2 1 1
              eq_refl eq_refl eq_refl eq_refl (le_n 1) (le_n 2))
    as (self' & keys & values & Hrun & Hsk & Hsv & Hlast & _ & _ & _ & Hcache & _ & Hhist).
  exists self', keys, values.
  split; [exact Hrun|]. split; [exact Hsk|]. split; [exact Hsv|].
  split; [exact Hlast|]. split; [exact Hcache|exact Hhist].
Defined.

(** X1.  A step at position [p] changes nothing but the written block:
    every cache entry of another position or of a slot at or beyond [b]
    is as before, and the positions before [p] are read back as they
    were stored. *)
Theorem kv_cache_write_frame (fl : Float) (self : SelfAttention.t) (xk xv : tensor F)
    (max_batch max_seq n_kv hd b p : nat) :
  shape (SelfAttention.cache_k self) = [max_batch; max_seq; n_kv; hd] ->
  shape (SelfAttention.cache_v self) = [max_batch; max_seq; n_kv; hd] ->
  shape xk = [b; 1%nat; n_kv; hd] ->
  shape xv = [b; 1%nat; n_kv; hd] ->
  (b <= max_batch)%nat ->
  (p + 1 <= max_seq)%nat ->
  exists self' keys values,
    runM (SelfAttention.update_kv_cache xk xv (Z.of_nat b) (Z.of_nat p) 1) self
      = (self', Ok (keys, values)) /\
    shape (SelfAttention.cache_k self') = [max_batch; max_seq; n_kv; hd] /\
    shape (SelfAttention.cache_v self') = [max_batch; max_seq; n_kv; hd] /\
    (forall i q h j,
       (i < max_batch)%nat -> (q < max_seq)%nat -> (h < n_kv)%nat -> (j < hd)%nat ->
       (b <= i)%nat \/ q <> p ->
       get zero (SelfAttention.cache_k self') [i; q; h; j]
         = get zero (SelfAttention.cache_k self) [i; q; h; j] /\
       get zero (SelfAttention.cache_v self') [i; q; h; j]
         = get zero (SelfAttention.cache_v self) [i; q; h; j]) /\
    (forall i q h j,
       (i < b)%nat -> (q < p)%nat -> (h < n_kv)%nat -> (j < hd)%nat ->
       get zero keys [i; q; h; j] = get zero (SelfAttention.cache_k self) [i; q; h; j] /\
       get zero values [i; q; h; j] = get zero (SelfAttention.cache_v self) [i; q; h; j]).
Proof.
  intros Hck Hcv Hxk Hxv Hb Hp.
  destruct (update_kv_cache_step fl self xk xv _ _ _ _ b p Hck Hcv Hxk Hxv Hb Hp)
    as (ck & cv & keys & values & Hrun & Hshk & Hshv & _ & _ & Hgk & Hgv & Hkeys & Hvals).
  exists (SelfAttention.set_cache_v (SelfAttention.set_cache_k self ck) cv), keys, values.
  split; [exact Hrun|]. split; [exact Hshk|]. split; [exact Hshv|].
  change (SelfAttention.cache_k
            (SelfAttention.set_cache_v (SelfAttention.set_cache_k self ck) cv)) with ck.
  change (SelfAttention.cache_v
            (SelfAttention.set_cache_v (SelfAttention.set_cache_k self ck) cv)) with cv.
  split.
  - intros i q h j Hi Hq Hh Hj Hout.
    rewrite Hgk, Hgv by assumption.
    replace ((i <? b)%nat && (q =? p)%nat) with false
      by (symmetry; destruct Hout; case_nat_tests).
    split; reflexivity.
  - intros i q h j Hi Hq Hh Hj.
    rewrite Hkeys, Hvals by lia.
    rewrite Hgk, Hgv by lia.
    replace ((i <? b)%nat && (q =? p)%nat) with false by (symmetry; case_nat_tests).
    split; reflexivity.
Qed.

(** X2.  Two consecutive steps at positions [p] and [p + 1]: the
    history read by the second step holds the keys and values of the
    first step at position [p] and its own at position [p + 1]. *)
Theorem kv_cache_two_steps (fl : Float) (self : SelfAttention.t)
    (xk1 xv1 xk2 xv2 : tensor F) (max_batch max_seq n_kv hd b p : nat) :
  shape (SelfAttention.cache_k self) = [max_batch; max_seq; n_kv; hd] ->
  shape (SelfAttention.cache_v self) = [max_batch; max_seq; n_kv; hd] ->
  shape xk1 = [b; 1%nat; n_kv; hd] -> shape xv1 = [b; 1%nat; n_kv; hd] ->
  shape xk2 = [b; 1%nat; n_kv; hd] -> shape xv2 = [b; 1%nat; n_kv; hd] ->
  (b <= max_batch)%nat ->
  (p + 2 <= max_seq)%nat ->
  exists self' keys values,
    runM (_ <- SelfAttention.update_kv_cache xk1 xv1 (Z.of_nat b) (Z.of_nat p) 1 ;;
          SelfAttention.update_kv_cache xk2 xv2 (Z.of_nat b) (Z.of_nat (p + 1)) 1) self
      = (self', Ok (keys, values)) /\
    shape keys = [b; (p + 2)%nat; n_kv; hd] /\
    shape values = [b; (p + 2)%nat; n_kv; hd] /\
    forall i h j, (i < b)%nat -> (h < n_kv)%nat -> (j < hd)%nat ->
      get zero keys [i; p; h; j] = get zero xk1 [i; 0%nat; h; j] /\
      get zero values [i; p; h; j] = get zero xv1 [i; 0%nat; h; j] /\
      get zero keys [i; (p + 1)%nat; h; j] = get zero xk2 [i; 0%nat; h; j] /\
      get zero values [i; (p + 1)%nat; h; j] = get zero xv2 [i; 0%nat; h; j].
Proof.
  intros Hck Hcv Hk1 Hv1 Hk2 Hv2 Hb Hp.
  destruct (update_kv_cache_step fl self xk1 xv1 _ _ _ _ b p Hck Hcv Hk1 Hv1 Hb)
    as (ck & cv & k1 & v1 & Hrun1 & Hshk & Hshv & _ & _ & Hgk & Hgv & _ & _); [lia|].
  set (self1 := SelfAttention.set_cache_v (SelfAttention.set_cache_k self ck) cv) in *.
  destruct (update_kv_cache_step fl self1 xk2 xv2 max_batch max_seq n_kv hd b (p + 1))
    as (ck2 & cv2 & keys & values & Hrun2 & _ & _ & Hsk & Hsv & Hgk2 & Hgv2 & Hkeys & Hvals);
    try assumption; try lia.
  exists (SelfAttention.set_cache_v (SelfAttention.set_cache_k self1 ck2) cv2), keys, values.
  split.
  - cbn [bind Monad_M M_bind runM]. rewrite Hrun1. exact Hrun2.
  - replace (p + 2)%nat with (p + 1 + 1)%nat by lia.
    split; [exact Hsk|]. split; [exact Hsv|].
    intros i h j Hi Hh Hj.
    rewrite !Hkeys, !Hvals by lia.
    rewrite !Hgk2, !Hgv2 by lia.
    change (SelfAttention.cache_k self1) with ck.
    change (SelfAttention.cache_v self1) with cv.
    replace ((i <? b)%nat && (p =? p + 1)%nat) with false by (symmetry; case_nat_tests).
    replace ((i <? b)%nat && (p + 1 =? p + 1)%nat) with true by (symmetry; case_nat_tests).
    rewrite Hgk, Hgv by lia.
    replace ((i <? b)%nat && (p =? p)%nat) with true by (symmetry; case_nat_tests).
    repeat split; reflexivity.
Qed.

(* --------------------------------------------------------------------- *)
(** *** Steps outside the capacity of the cache *)
(* --------------------------------------------------------------------- *)

Lemma clamp_bound_above (len : nat) (z : Z) :
  Z.of_nat len <= z -> clamp_bound len z = len.
Proof.
  intros H. unfold clamp_bound.
  destruct (Z.ltb_spec z 0); lia.
Qed.

Lemma expand_shape_tail_ok (len H D : nat) :
  expand_shape [1%nat; H; D] [Z.of_nat len; Z.of_nat H; Z.of_nat D] = Ok [len; H; D].
Proof. apply expand_shape_grow. apply (expand_shape_same [H; D]). Qed.

(** A value with [b >= 2] slots does not broadcast to a region of
    another number of slots. *)
Lemma expand_shape_batch_mismatch (b B len H D : nat) :
  b <> B -> (2 <= b)%nat ->
  expand_shape [b; 1%nat; H; D] [Z.of_nat B; Z.of_nat len; Z.of_nat H; Z.of_nat D]
  = Raise RuntimeError.
Proof.
  intros Hne Hb.
  change (expand_shape [b; 1%nat; H; D]
            [Z.of_nat B; Z.of_nat len; Z.of_nat H; Z.of_nat D])
    with (rest <- expand_shape [1%nat; H; D] [Z.of_nat len; Z.of_nat H; Z.of_nat D] ;;
          if (Z.of_nat B =? -1) || (Z.of_nat B =? Z.of_nat b) then Ok (b :: rest)
          else if (b =? 1)%nat && (0 <=? Z.of_nat B) then Ok (Z.to_nat (Z.of_nat B) :: rest)
          else Raise RuntimeError).
  rewrite expand_shape_tail_ok. cbn [bind ret Monad_result result_bind].
  destruct (Z.eqb_spec (Z.of_nat B) (-1)); [lia|].
  destruct (Z.eqb_spec (Z.of_nat B) (Z.of_nat b)); [lia|].
  destruct (Nat.eqb_spec b 1); [lia|]. reflexivity.
Qed.

(** X3.  A step for more batch slots than the cache holds
    ([batch_size > max_batch_size], at least two slots) raises
    [RuntimeError] at the first assignment, whatever the position, and
    leaves both caches as they were. *)
Theorem kv_cache_batch_overflow (fl : Float) (self : SelfAttention.t) (xk xv : tensor F)
    (max_batch max_seq n_kv hd b : nat) (start_pos : Z) :
  shape (SelfAttention.cache_k self) = [max_batch; max_seq; n_kv; hd] ->
  shape xk = [b; 1%nat; n_kv; hd] ->
  (max_batch < b)%nat ->
  (2 <= b)%nat ->
  runM (SelfAttention.update_kv_cache xk xv (Z.of_nat b) start_pos 1) self
    = (self, Raise RuntimeError).
Proof.
  intros Hck Hxk Hover Hb.
  unfold SelfAttention.update_kv_cache.
  cbn [bind ret Monad_M M_bind runM read_self write_self lift].
  unfold setitem, expand. rewrite Hck, Hxk.
  cbn [slice_region bind ret Monad_result result_bind map snd].
  unfold slice_range at 1 2. cbn [sl_start sl_stop].
  rewrite (clamp_bound_above max_batch (Z.of_nat b)) by lia.
  rewrite Nat.sub_0_r. cbn [snd].
  rewrite expand_shape_batch_mismatch by lia.
  reflexivity.
Qed.

(** X4.  A step at a position at or beyond the capacity
    ([max_seq_len <= p]) is not refused: the assignment selects an empty
    range and stores nothing, both caches keep every entry, and the
    history returned has [max_seq_len] positions, all of them the old
    entries, so the new keys and values are in neither cache nor
    history. *)
Theorem kv_cache_position_overflow (fl : Float) (self : SelfAttention.t) (xk xv : tensor F)
    (max_batch max_seq n_kv hd b p : nat) :
  shape (SelfAttention.cache_k self) = [max_batch; max_seq; n_kv; hd] ->
  shape (SelfAttention.cache_v self) = [max_batch; max_seq; n_kv; hd] ->
  shape xk = [b; 1%nat; n_kv; hd] ->
  shape xv = [b; 1%nat; n_kv; hd] ->
  (b <= max_batch)%nat ->
  (max_seq <= p)%nat ->
  exists self' keys values,
    runM (SelfAttention.update_kv_cache xk xv (Z.of_nat b) (Z.of_nat p) 1) self
      = (self', Ok (keys, values)) /\
    shape keys = [b; max_seq; n_kv; hd] /\
    shape values = [b; max_seq; n_kv; hd] /\
    (forall i q h j,
       (i < max_batch)%nat -> (q < max_seq)%nat -> (h < n_kv)%nat -> (j < hd)%nat ->
       get zero (SelfAttention.cache_k self') [i; q; h; j]
         = get zero (SelfAttention.cache_k self) [i; q; h; j] /\
       get zero (SelfAttention.cache_v self') [i; q; h; j]
         = get zero (SelfAttention.cache_v self) [i; q; h; j]) /\
    (forall i q h j,
       (i < b)%nat -> (q < max_seq)%nat -> (h < n_kv)%nat -> (j < hd)%nat ->
       get zero keys [i; q; h; j] = get zero (SelfAttention.cache_k self) [i; q; h; j] /\
       get zero values [i; q; h; j] = get zero (SelfAttention.cache_v self) [i; q; h; j]).
Proof.
  intros Hck Hcv Hxk Hxv Hb Hp.
  assert (Hregion : slice_region [max_batch; max_seq; n_kv; hd]
            [mkSlice None (Some (Z.of_nat b));
             mkSlice (Some (Z.of_nat p)) (Some (Z.of_nat p + 1))]
          = Ok [(0, b); (max_seq, 0); (0, n_kv); (0, hd)]%nat).
  { cbn [slice_region bind ret Monad_result result_bind map].
    unfold slice_range. cbn [sl_start sl_stop].
    rewrite (clamp_bound_inside max_batch (Z.of_nat b)) by lia.
    rewrite !clamp_bound_above by lia.
    rewrite Nat2Z.id, Nat.sub_0_r, Nat.sub_diag. reflexivity. }
  assert (Hhist : slice_region [max_batch; max_seq; n_kv; hd]
            [mkSlice None (Some (Z.of_nat b));
             mkSlice (Some 0) (Some (Z.of_nat p + 1))]
          = Ok [(0, b); (0, max_seq); (0, n_kv); (0, hd)]%nat).
  { cbn [slice_region bind ret Monad_result result_bind map].
    unfold slice_range. cbn [sl_start sl_stop].
    rewrite (clamp_bound_inside max_batch (Z.of_nat b)) by lia.
    rewrite (clamp_bound_inside max_seq 0) by lia.
    rewrite clamp_bound_above by lia.
    rewrite Nat2Z.id, !Nat.sub_0_r. reflexivity. }
  assert (Hexp : expand_shape [b; 1%nat; n_kv; hd]
                   [Z.of_nat b; Z.of_nat 0; Z.of_nat n_kv; Z.of_nat hd]
                 = Ok [b; 0%nat; n_kv; hd]).
  { apply expand_shape_keep. apply expand_shape_tail_ok. }
  assert (Hstore : forall cache v : tensor F,
            shape cache = [max_batch; max_seq; n_kv; hd] ->
            shape v = [b; 1%nat; n_kv; hd] ->
            exists cache',
              setitem zero cache
                [mkSlice None (Some (Z.of_nat b));
                 mkSlice (Some (Z.of_nat p)) (Some (Z.of_nat p + 1))] v = Ok cache' /\
              shape cache' = [max_batch; max_seq; n_kv; hd] /\
              forall i q h j,
                (i < max_batch)%nat -> (q < max_seq)%nat -> (h < n_kv)%nat -> (j < hd)%nat ->
                get zero cache' [i; q; h; j] = get zero cache [i; q; h; j]).
  { intros cache v Hc Hv. unfold setitem, expand. rewrite Hc, Hv, Hregion.
    cbn [bind ret Monad_result result_bind map snd]. rewrite Hexp.
    cbn [bind ret Monad_result result_bind].
    eexists. split; [reflexivity|]. split; [reflexivity|].
    intros i q h j Hi Hq Hh Hj.
    rewrite get_tabulate by (apply in_bounds4; assumption).
    cbn [in_region].
    replace ((max_seq <=? q)%nat) with false by (symmetry; case_nat_tests).
    rewrite andb_false_r. reflexivity. }
  assert (Hload : forall cache : tensor F,
            shape cache = [max_batch; max_seq; n_kv; hd] ->
            exists hist,
              getitem zero cache
                [mkSlice None (Some (Z.of_nat b));
                 mkSlice (Some 0) (Some (Z.of_nat p + 1))] = Ok hist /\
              shape hist = [b; max_seq; n_kv; hd] /\
              forall i q h j,
                (i < b)%nat -> (q < max_seq)%nat -> (h < n_kv)%nat -> (j < hd)%nat ->
                get zero hist [i; q; h; j] = get zero cache [i; q; h; j]).
  { intros cache Hc. unfold getitem. rewrite Hc, Hhist.
    cbn [bind ret Monad_result result_bind map snd fst].
    eexists. split; [reflexivity|]. split; [reflexivity|].
    intros i q h j Hi Hq Hh Hj.
    rewrite get_tabulate by (apply in_bounds4; assumption). reflexivity. }
  destruct (Hstore _ _ Hck Hxk) as (ck & Hsk & Hshk & Hgk).
  destruct (Hstore _ _ Hcv Hxv) as (cv & Hsv & Hshv & Hgv).
  destruct (Hload _ Hshk) as (keys & Hrk & Hshkeys & Hkeys).
  destruct (Hload _ Hshv) as (values & Hrv & Hshvals & Hvals).
  exists (SelfAttention.set_cache_v (SelfAttention.set_cache_k self ck) cv), keys, values.
  split.
  - unfold SelfAttention.update_kv_cache.
    cbn [bind ret Monad_M M_bind runM read_self write_self lift].
    rewrite Hsk. cbn [SelfAttention.set_cache_k SelfAttention.cache_v].
    rewrite Hsv.
    change (SelfAttention.cache_k
              (SelfAttention.set_cache_v (SelfAttention.set_cache_k self ck) cv)) with ck.
    change (SelfAttention.cache_v
              (SelfAttention.set_cache_v (SelfAttention.set_cache_k self ck) cv)) with cv.
    rewrite Hrk, Hrv. reflexivity.
  - split; [exact Hshkeys|]. split; [exact Hshvals|].
    change (SelfAttention.cache_k
              (SelfAttention.set_cache_v (SelfAttention.set_cache_k self ck) cv)) with ck.
    change (SelfAttention.cache_v
              (SelfAttention.set_cache_v (SelfAttention.set_cache_k self ck) cv)) with cv.
    split.
    + intros i q h j Hi Hq Hh Hj. split; [apply Hgk|apply Hgv]; assumption.
    + intros i q h j Hi Hq Hh Hj.
      rewrite Hkeys, Hvals by assumption.
      split; [apply Hgk|apply Hgv]; lia.
Qed.

(* --------------------------------------------------------------------- *)
(** *** Construction of the attention unit *)
(* --------------------------------------------------------------------- *)

Lemma torch_full_ok {A : Type} (v : A) (sizes : list Z) :
  Forall (fun z => 0 <= z) sizes ->
  torch_full v sizes = Ok (tabulate (map Z.to_nat sizes) (fun _ => v)).
Proof.
  intros Hall. unfold torch_full, nonneg_shape.
  replace (forallb (fun z => 0 <=? z) sizes) with true; [reflexivity|].
  symmetry. apply forallb_forall. intros z Hz.
  rewrite Forall_forall in Hall. apply Z.leb_le. apply Hall. exact Hz.
Qed.

Lemma shapeZ_tabulate {A : Type} (sizes : list Z) (f : list nat -> A) :
  Forall (fun z => 0 <= z) sizes ->
  shapeZ (tabulate (map Z.to_nat sizes) f) = sizes.
Proof.
  intros Hall. unfold shapeZ, tabulate. cbn [shape].
  induction Hall as [|z l Hz Hl IH]; [reflexivity|].
  cbn [map]. rewrite Z2Nat.id by exact Hz. rewrite IH. reflexivity.
Qed.

Lemma data_tabulate_const {A : Type} (s : list nat) (v x : A) :
  In x (data (tabulate s (fun _ => v))) -> x = v.
Proof.
  unfold tabulate. cbn [data]. intros Hin.
  apply in_map_iff in Hin. destruct Hin as (idx & Hx & _). symmetry. exact Hx.
Qed.

Lemma linear_init_shape (fl : Float) (i o : Z) :
  0 <= i -> 0 <= o ->
  exists lin,
    Linear.init i o = Ok lin /\
    Linear.in_features lin = i /\ Linear.out_features lin = o /\
    shapeZ (Linear.weight lin) = [o; i] /\
    shape (Linear.weight lin) = [Z.to_nat o; Z.to_nat i].
Proof.
  intros Hi Ho. unfold Linear.init.
  rewrite torch_full_ok by (repeat constructor; assumption).
  cbn [bind ret Monad_result result_bind].
  eexists. split; [reflexivity|].
  cbn [Linear.in_features Linear.out_features Linear.weight].
  repeat split.
  apply shapeZ_tabulate. repeat constructor; assumption.
Qed.

(** X5.  With [n_kv_heads] left at its default [None], the constructor
    of [SelfAttention] never returns: line 84 resolves the default into
    [self.n_kv_heads], but lines 90-91 multiply [args.n_kv_heads], still
    [None], by the head dimension.  On a configuration with a positive
    head count and a non-negative dimension the exception is that
    [TypeError]. *)
Theorem self_attention_init_without_kv_heads (fl : Float) (args : ModelArgs.t) :
  ModelArgs.n_kv_heads args = None ->
  is_ok (SelfAttention.init args) = false /\
  (0 < ModelArgs.n_heads args -> 0 <= ModelArgs.dim args ->
   SelfAttention.init args = Raise TypeError).
Proof.
  intros Hnone. unfold SelfAttention.init. rewrite Hnone.
  split.
  - destruct (py_floordiv (ModelArgs.n_heads args) (ModelArgs.n_heads args)); [|reflexivity].
    cbn [bind ret Monad_result result_bind].
    destruct (py_floordiv (ModelArgs.dim args) (ModelArgs.n_heads args)); [|reflexivity].
    cbn [bind ret Monad_result result_bind].
    destruct (Linear.init _ _); reflexivity.
  - intros Hh Hd. unfold py_floordiv.
    destruct (Z.eqb_spec (ModelArgs.n_heads args) 0); [lia|].
    cbn [bind ret Monad_result result_bind].
    assert (Hhd : 0 <= ModelArgs.dim args / ModelArgs.n_heads args)
      by (apply Z.div_pos; lia).
    destruct (linear_init_shape fl (ModelArgs.dim args)
                (ModelArgs.n_heads args * (ModelArgs.dim args / ModelArgs.n_heads args)))
      as (lin & Hlin & _); [lia|nia|].
    rewrite Hlin. reflexivity.
Qed.

Lemma self_attention_init_without_kv_heads_witness :
  is_ok (SelfAttention.init (fl := RFloat) ModelArgs.default) = false /\
  SelfAttention.init (fl := RFloat) no_layer_args = Raise TypeError.
Proof.
  split.
  - apply (self_attention_init_without_kv_heads RFloat ModelArgs.default). reflexivity.
  - apply (self_attention_init_without_kv_heads RFloat no_layer_args).
    + reflexivity.
    + simpl. lia.
    + simpl. lia.
Defined.

(** X6.  With [n_kv_heads = k] given, positive head counts and
    non-negative sizes, the constructor returns a unit with
    [head_dim = dim // n_heads] and [n_rep = n_heads // k] (whether or not
    [k] divides [n_heads]), projections of shapes
    [n_heads * head_dim, dim] for queries, [k * head_dim, dim] for keys and
    values and [dim, n_heads * head_dim] for the output, and two caches of
    shape [max_batch_size, max_seq_len, k, head_dim] filled with zeros. *)
Theorem self_attention_init_shapes (fl : Float) (args : ModelArgs.t) (k : Z) :
  ModelArgs.n_kv_heads args = Some k ->
  0 < ModelArgs.n_heads args -> 0 < k -> 0 <= ModelArgs.dim args ->
  0 <= ModelArgs.max_batch_size args -> 0 <= ModelArgs.max_seq_len args ->
  exists self,
    SelfAttention.init args = Ok self /\
    SelfAttention.n_kv_heads self = k /\
    SelfAttention.n_heads_q self = ModelArgs.n_heads args /\
    SelfAttention.n_rep self = ModelArgs.n_heads args / k /\
    SelfAttention.head_dim self = ModelArgs.dim args / ModelArgs.n_heads args /\
    shapeZ (Linear.weight (SelfAttention.wq self))
      = [ModelArgs.n_heads args * SelfAttention.head_dim self; ModelArgs.dim args] /\
    shapeZ (Linear.weight (SelfAttention.wk self))
      = [k * SelfAttention.head_dim self; ModelArgs.dim args] /\
    shapeZ (Linear.weight (SelfAttention.wv self))
      = [k * SelfAttention.head_dim self; ModelArgs.dim args] /\
    shapeZ (Linear.weight (SelfAttention.wo self))
      = [ModelArgs.dim args; ModelArgs.n_heads args * SelfAttention.head_dim self] /\
    shapeZ (SelfAttention.cache_k self)
      = [ModelArgs.max_batch_size args; ModelArgs.max_seq_len args; k;
         SelfAttention.head_dim self] /\
    shapeZ (SelfAttention.cache_v self) = shapeZ (SelfAttention.cache_k self) /\
    wf_tensor (SelfAttention.cache_k self) /\
    wf_tensor (SelfAttention.cache_v self) /\
    (forall x, In x (data (SelfAttention.cache_k self)) -> x = zero) /\
    (forall x, In x (data (SelfAttention.cache_v self)) -> x = zero).
Proof.
  intros Hk Hh Hkpos Hd Hmb Hms.
  unfold SelfAttention.init. rewrite Hk. unfold py_floordiv, py_mul_optional.
  destruct (Z.eqb_spec k 0); [lia|].
  destruct (Z.eqb_spec (ModelArgs.n_heads args) 0); [lia|].
  cbn [bind ret Monad_result result_bind].
  set (hd := ModelArgs.dim args / ModelArgs.n_heads args).
  assert (Hhd : 0 <= hd) by (apply Z.div_pos; lia).
  destruct (linear_init_shape fl (ModelArgs.dim args) (ModelArgs.n_heads args * hd))
    as (wq & Hwq & _ & _ & Hsq & _); [lia|nia|].
  destruct (linear_init_shape fl (ModelArgs.dim args) (k * hd))
    as (wk & Hwk & _ & _ & Hsk & _); [lia|nia|].
  destruct (linear_init_shape fl (ModelArgs.n_heads args * hd) (ModelArgs.dim args))
    as (wo & Hwo & _ & _ & Hso & _); [nia|lia|].
  rewrite Hwq. cbn [bind ret Monad_result result_bind].
  rewrite Hwk. cbn [bind ret Monad_result result_bind].
  rewrite Hwo. cbn [bind ret Monad_result result_bind].
  assert (Hsizes : Forall (fun z => 0 <= z)
                     [ModelArgs.max_batch_size args; ModelArgs.max_seq_len args; k; hd])
    by (repeat constructor; lia).
  rewrite (torch_full_ok zero _ Hsizes).
  cbn [bind ret Monad_result result_bind].
  eexists. split; [reflexivity|].
  cbn [SelfAttention.n_kv_heads SelfAttention.n_heads_q SelfAttention.n_rep
       SelfAttention.head_dim SelfAttention.wq SelfAttention.wk SelfAttention.wv
       SelfAttention.wo SelfAttention.cache_k SelfAttention.cache_v].
  repeat split; try assumption; try apply wf_tabulate;
    try (apply shapeZ_tabulate; exact Hsizes);
    try (intros x Hx; apply (data_tabulate_const _ _ _ Hx)).
Qed.

Lemma self_attention_init_shapes_witness :
  exists self,
    SelfAttention.init (fl := RFloat) example_args = Ok self /\
    SelfAttention.n_rep self = 1 /\
    SelfAttention.head_dim self = 2 /\
    shapeZ (SelfAttention.cache_k self) = [1; 2; 1; 2].
Proof.
  destruct (self_attention_init_shapes RFloat example_args 1)
    as (self & Hinit & _ & _ & Hrep & Hhd & _ & _ & _ & _ & Hck & _).
  - reflexivity.
  - simpl. lia.
  - lia.
  - simpl. lia.
  - simpl. lia.
  - simpl. lia.
  - exists self. split; [exact Hinit|]. split; [exact Hrep|]. split; [exact Hhd|].
    rewrite Hck, Hhd. reflexivity.
Defined.

(* --------------------------------------------------------------------- *)
(** *** Rotary embeddings on accepted head dimensions *)
(* --------------------------------------------------------------------- *)

(** The size list [lead ++ [-1; 2]] of line 44 on an odd number of
    trailing coordinates: no size can be inferred. *)
Lemma infer_size_odd (lead : list nat) (k : nat) :
  (0 < numel lead)%nat ->
  infer_size (numel lead * (2 * k + 1)) (map Z.of_nat lead ++ [-1; 2])
  = Raise RuntimeError.
Proof.
  intros Hpos. unfold infer_size.
  assert (Hlow : existsb (fun z => z <? -1) (map Z.of_nat lead ++ [-1; 2]) = false)
    by (rewrite existsb_app, sizes_of_nat_not_below; reflexivity).
  assert (Hknown : prodZ (filter (fun z => negb (z =? -1)) (map Z.of_nat lead ++ [-1; 2]))
                   = Z.of_nat (numel lead) * 2).
  { rewrite filter_app, sizes_of_nat_filter, prodZ_app, prodZ_of_nat. reflexivity. }
  assert (Hone : count_occ Z.eq_dec (map Z.of_nat lead ++ [-1; 2]) (-1) = 1%nat)
    by (rewrite count_occ_app, sizes_of_nat_no_inferred; reflexivity).
  rewrite Hlow, Hknown, Hone.
  destruct (Z.eqb_spec (Z.of_nat (numel lead) * 2) 0) as [E|_]; [lia|].
  replace (Z.of_nat (numel lead * (2 * k + 1)))
    with (Z.of_nat (numel lead) * (2 * Z.of_nat k + 1)) by lia.
  rewrite Z.mul_mod_distr_l by lia.
  replace ((2 * Z.of_nat k + 1) mod 2) with 1
    by (rewrite Z.add_comm, Z.mul_comm, Z.mod_add by lia; reflexivity).
  destruct (Z.eqb_spec (Z.of_nat (numel lead) * 1) 0); [lia|reflexivity].
Qed.

(** X7.  On a non-empty input whose trailing dimension is odd,
    [apply_rotary_embeddings] raises [RuntimeError] at the reshape of
    line 44: the coordinates cannot be grouped in pairs. *)
Theorem apply_rotary_embeddings_odd (fl : Float) (x : tensor F) (freqs_complex : tensor C)
    (lead : list nat) (k : nat) :
  shape x = lead ++ [(2 * k + 1)%nat] ->
  (0 < numel (shape x))%nat ->
  apply_rotary_embeddings x freqs_complex = Raise RuntimeError.
Proof.
  intros Hshape Hpos. unfold apply_rotary_embeddings, reshape, shapeZ.
  rewrite Hshape in *. rewrite map_app. cbn [map]. rewrite removelast_snoc.
  rewrite numel_app in *. cbn [numel fold_right] in *.
  replace (numel lead * ((2 * k + 1) * 1))%nat with (numel lead * (2 * k + 1))%nat by lia.
  rewrite infer_size_odd by nia.
  reflexivity.
Qed.

Lemma apply_rotary_embeddings_odd_witness :
  apply_rotary_embeddings (fl := RFloat)
    (mkTensor [1; 1; 1; 3]%nat [1; 0; 2]%R) example_freqs = Raise RuntimeError.
Proof.
  apply (apply_rotary_embeddings_odd RFloat
           (mkTensor [1; 1; 1; 3]%nat [1; 0; 2]%R) example_freqs [1; 1; 1]%nat 1%nat).
  - reflexivity.
  - simpl. lia.
Defined.

Lemma wf_tensor_map {X Y : Type} (f : X -> Y) (t : tensor X) :
  wf_tensor t -> wf_tensor (tensor_map f t).
Proof.
  unfold wf_tensor, tensor_map. cbn [shape data]. rewrite length_map. auto.
Qed.

Lemma precompute_odd_steps (fl : Float) (k seq_len : nat) (device : option string)
    (theta : Q) :
  precompute_theta_pos_embeddings (2 * Z.of_nat k + 1) (Z.of_nat seq_len) device theta
    = (_ <- to_device device ;;
       precompute_theta_pos_embeddings (2 * Z.of_nat k + 1) (Z.of_nat seq_len) None theta).
Proof.
  unfold precompute_theta_pos_embeddings, py_mod, torch_arange. simpl (2 =? 0).
  cbn [bind ret Monad_result result_bind].
  replace ((2 * Z.of_nat k + 1) mod 2) with 1
    by (rewrite Z.add_comm, Z.mul_comm, Z.mod_add by lia; reflexivity).
  cbn [py_truthy Z.eqb negb py_assert bind ret Monad_result result_bind].
  destruct (Z.ltb_spec (2 * Z.of_nat k + 1) 0); [lia|].
  destruct (Z.ltb_spec (Z.of_nat seq_len) 0); [lia|].
  cbn [bind ret Monad_result result_bind to_device].
  destruct (to_device device) as [[]|e]; reflexivity.
Qed.

Lemma precompute_odd_ok (fl : Float) (k seq_len : nat) (device : option string)
    (theta : Q) :
  to_device device = Ok tt ->
  exists table,
    precompute_theta_pos_embeddings (2 * Z.of_nat k + 1) (Z.of_nat seq_len) device theta
      = Ok table /\
    wf_tensor table.
Proof.
  intros Hdev. rewrite precompute_odd_steps, Hdev.
  cbn [bind ret Monad_result result_bind].
  unfold precompute_theta_pos_embeddings, py_mod, torch_arange. simpl (2 =? 0).
  cbn [bind ret Monad_result result_bind].
  replace ((2 * Z.of_nat k + 1) mod 2) with 1
    by (rewrite Z.add_comm, Z.mul_comm, Z.mod_add by lia; reflexivity).
  cbn [py_truthy Z.eqb negb py_assert bind ret Monad_result result_bind].
  destruct (Z.ltb_spec (2 * Z.of_nat k + 1) 0); [lia|].
  destruct (Z.ltb_spec (Z.of_nat seq_len) 0); [lia|].
  cbn [bind ret Monad_result result_bind to_device].
  eexists. split; [reflexivity|].
  apply wf_tensor_map. apply wf_tabulate.
Qed.

(** X8.  For an accepted head dimension [d = 2 k + 1] and a table length
    [L], both within torch's 64-bit sizes:
    on a device that torch accepts (or with none given),
    [precompute_theta_pos_embeddings] returns a well-formed table with [L]
    rows and [k + 1] columns whose entry at row [p] and column [i] is the
    polar form of modulus 1 and angle [p * f_i], with
    [f_i = 1 / theta ^ (2 i / d)]: one frequency per even number below
    [d], one row per position;
    on a device that torch refuses, the call raises the exception of that
    refusal. *)
Theorem rotary_table_entries (fl : Float) (k seq_len : nat) (device : option string)
    (theta : Q) :
  2 * Z.of_nat k + 1 < 2 ^ 63 -> Z.of_nat seq_len < 2 ^ 63 ->
  (to_device device = Ok tt ->
   exists table,
     precompute_theta_pos_embeddings (2 * Z.of_nat k + 1) (Z.of_nat seq_len) device theta
       = Ok table /\
     shape table = [seq_len; S k] /\
     wf_tensor table /\
     forall p i, (p < seq_len)%nat -> (i <= k)%nat ->
       let f_i := fdiv one (fpow (f_of_Q theta)
                              (fdiv (f_of_Z (2 * Z.of_nat i)) (f_of_Z (2 * Z.of_nat k + 1)))) in
       let angle := fmul (f_of_Z (Z.of_nat p)) f_i in
       get czero table [p; i] = (fmul one (fcos angle), fmul one (fsin angle))) /\
  (forall e, to_device device = Raise e ->
     precompute_theta_pos_embeddings (2 * Z.of_nat k + 1) (Z.of_nat seq_len) device theta
       = Raise e).
Proof.
  intros _ _. split.
  - intros Hdev.
    destruct (precompute_odd_ok fl k seq_len device theta Hdev) as (table & Ht & Hwf).
    exists table. split; [exact Ht|].
    split; [|split; [exact Hwf|]].
    + destruct (precompute_ok_inv fl _ _ _ _ _ Ht) as [_ Hshape].
      rewrite Hshape. rewrite Nat2Z.id. f_equal. f_equal.
      replace (2 * Z.of_nat k + 1 + 1) with (Z.of_nat (S k) * 2) by lia.
      rewrite Z.div_mul by lia. apply Nat2Z.id.
    + intros p i Hp Hi.
      apply (precompute_entry fl k seq_len p i device theta table Ht Hp Hi).
  - intros e He. rewrite precompute_odd_steps, He. reflexivity.
Qed.

Lemma rotary_table_entries_witness :
  (exists table,
     precompute_theta_pos_embeddings (fl := RFloat) 3 (Z.of_nat 4) None 10000 = Ok table /\
     shape table = [4; 2]%nat /\
     get (@czero RFloat) table [3; 1]%nat
     = (let f_1 := fdiv one (fpow (f_of_Q 10000) (fdiv (f_of_Z 2) (f_of_Z 3))) in
        let angle := fmul (f_of_Z 3) f_1 in
        (fmul one (fcos angle), fmul one (fsin angle)))) /\
  precompute_theta_pos_embeddings (fl := RFloat) 3 (Z.of_nat 4) (Some "bogus"%string) 10000
    = Raise RuntimeError.
Proof.
  split.
  - destruct (proj1 (rotary_table_entries RFloat 1 4 None 10000 eq_refl eq_refl) eq_refl)
      as (table & Ht & Hshape & _ & Hentry).
    exists table. split; [exact Ht|]. split; [exact Hshape|].
    apply (Hentry 3%nat 1%nat); lia.
  - apply (proj2 (rotary_table_entries RFloat 1 4 (Some "bogus"%string) 10000
                    eq_refl eq_refl) RuntimeError).
    reflexivity.
Defined.

(* --------------------------------------------------------------------- *)
(** *** Normalisation *)
(* --------------------------------------------------------------------- *)

Lemma broadcast_shapes_keepdim (b s n : nat) :
  broadcast_shapes [b; s; n] [b; s; 1%nat] = Ok [b; s; n].
Proof.
  unfold broadcast_shapes. cbn [rev app broadcast_rev bind ret Monad_result result_bind].
  rewrite !Nat.eqb_refl. cbn [bind ret Monad_result result_bind].
  destruct (Nat.eqb_spec n 1) as [->|Hn]; [reflexivity|].
  destruct (Nat.eqb_spec n 1); [contradiction|]. reflexivity.
Qed.

Lemma broadcast_shapes_last_axis (b s n : nat) :
  broadcast_shapes [n] [b; s; n] = Ok [b; s; n].
Proof.
  unfold broadcast_shapes. cbn [rev app broadcast_rev bind ret Monad_result result_bind].
  rewrite Nat.eqb_refl. reflexivity.
Qed.

Lemma in_bounds3 (b s n i q c : nat) :
  (i < b)%nat -> (q < s)%nat -> (c < n)%nat -> in_bounds [b; s; n] [i; q; c] = true.
Proof.
  intros. cbn [in_bounds]. rewrite !andb_true_iff, !Nat.ltb_lt. repeat split; assumption.
Qed.

Section RMSNormForward.

Context {fl : Float}.
Variable self : RMSNorm.t.
Variable x : tensor F.
Variables b s n : nat.
Hypothesis Hx : shape x = [b; s; n].
Hypothesis Hwf : wf_tensor x.

Lemma mean_square_shape :
  shape (mean_last_keepdim (tensor_map (fun v => fmul v v) x)) = [b; s; 1%nat].
Proof.
  unfold mean_last_keepdim, tabulate. cbn [shape tensor_map]. rewrite Hx. reflexivity.
Qed.

Lemma rms_norm_inner :
  exists y,
    RMSNorm._norm self x = Ok y /\
    shape y = [b; s; n] /\
    wf_tensor y /\
    forall i q c, (i < b)%nat -> (q < s)%nat -> (c < n)%nat ->
      get zero y [i; q; c]
      = fmul (get zero x [i; q; c]) (rms_factor (RMSNorm.eps self) x n i q).
Proof.
  unfold RMSNorm._norm, tensor_mul, pointwise.
  assert (Hr : shape (torch_rsqrt
                        (tensor_map (fun v => fadd v (f_of_Q (RMSNorm.eps self)))
                           (mean_last_keepdim (tensor_map (fun v => fmul v v) x))))
               = [b; s; 1%nat])
    by (unfold torch_rsqrt; cbn [tensor_map shape]; apply mean_square_shape).
  rewrite Hr, Hx, broadcast_shapes_keepdim.
  cbn [bind ret Monad_result result_bind].
  eexists. split; [reflexivity|]. split; [reflexivity|].
  split; [apply wf_tabulate|].
  intros i q c Hi Hq Hc.
  rewrite get_tabulate by (apply in_bounds3; assumption).
  unfold align_index. cbn [length Nat.sub skipn].
  unfold broadcast_index. cbn [zip_with].
  rewrite !broadcast_axis_id by assumption.
  cbn [Nat.eqb].
  f_equal.
  unfold torch_rsqrt.
  rewrite (get_tensor_map zero zero).
  2:{ apply wf_tensor_map. apply wf_tabulate. }
  2:{ cbn [tensor_map shape]. rewrite mean_square_shape. apply in_bounds3; lia. }
  rewrite (get_tensor_map zero zero).
  2:{ apply wf_tabulate. }
  2:{ rewrite mean_square_shape. apply in_bounds3; lia. }
  unfold mean_last_keepdim. cbn [tensor_map shape]. rewrite Hx.
  cbn [set_last removelast app last].
  rewrite get_tabulate by (apply in_bounds3; lia).
  unfold rms_factor. cbn [set_last removelast app].
  do 5 f_equal.
  apply map_ext_in. intros k Hk. apply in_seq in Hk.
  rewrite (get_tensor_map zero zero).
  - reflexivity.
  - exact Hwf.
  - rewrite Hx. apply in_bounds3; lia.
Qed.

(** X9.  On an input of shape [b, s, n] and a scale vector of [n]
    entries, [RMSNorm.forward] returns a tensor of the same shape whose
    entry [i, q, c] is [weight[c] * (x[i, q, c] * r)], where
    [r = 1 / sqrt(mean_k(x[i, q, k]^2) + eps)] is computed from row
    [i, q] alone: no mean is subtracted, and rows do not mix. *)
Theorem rms_norm_forward_rows :
  shape (RMSNorm.weight self) = [n] ->
  exists y,
    RMSNorm.forward self x = Ok y /\
    shape y = [b; s; n] /\
    wf_tensor y /\
    forall i q c, (i < b)%nat -> (q < s)%nat -> (c < n)%nat ->
      get zero y [i; q; c]
      = fmul (get zero (RMSNorm.weight self) [c])
             (fmul (get zero x [i; q; c]) (rms_factor (RMSNorm.eps self) x n i q)).
Proof.
  intros Hw. unfold RMSNorm.forward.
  destruct rms_norm_inner as (y & Hy & Hshape & _ & Hget).
  rewrite Hy. cbn [bind ret Monad_result result_bind].
  unfold tensor_mul, pointwise. rewrite Hw, Hshape, broadcast_shapes_last_axis.
  cbn [bind ret Monad_result result_bind].
  eexists. split; [reflexivity|]. split; [reflexivity|].
  split; [apply wf_tabulate|].
  intros i q c Hi Hq Hc.
  rewrite get_tabulate by (apply in_bounds3; assumption).
  unfold align_index. cbn [length Nat.sub skipn].
  unfold broadcast_index. cbn [zip_with].
  rewrite !broadcast_axis_id by assumption.
  rewrite Hget by assumption. reflexivity.
Qed.

End RMSNormForward.

Lemma rms_norm_forward_rows_witness :
  exists y,
    RMSNorm.forward (fl := RFloat) example_norm example_input = Ok y /\
    shape y = [1; 1; 2]%nat /\
    get (@zero RFloat) y [0; 0; 0]%nat
    = @fmul RFloat (get (@zero RFloat) (RMSNorm.weight example_norm) [0%nat])
           (@fmul RFloat (get (@zero RFloat) example_input [0; 0; 0]%nat)
                 (rms_factor (fl := RFloat) (RMSNorm.eps example_norm) example_input 2 0 0)).
Proof.
  destruct (@rms_norm_forward_rows RFloat example_norm example_input 1 1 2)
    as (y & Hy & Hshape & _ & Hget).
  - reflexivity.
  - reflexivity.
  - reflexivity.
  - exists y. split; [exact Hy|]. split; [exact Hshape|]. apply Hget; lia.
Defined.

(* --------------------------------------------------------------------- *)
(** *** The feed-forward unit *)
(* --------------------------------------------------------------------- *)

Lemma F_linear_shape (fl : Float) (x w : tensor F) (b s i o : nat) :
  shape x = [b; s; i] -> shape w = [o; i] ->
  exists y, F_linear x w = Ok y /\ shape y = [b; s; o] /\ wf_tensor y.
Proof.
  intros Hx Hw. unfold F_linear. rewrite Hx, Hw. cbn [rev app].
  rewrite Nat.eqb_refl.
  eexists. split; [reflexivity|]. split; [reflexivity|apply wf_tabulate].
Qed.

Lemma F_linear_mismatch (fl : Float) (x w : tensor F) (b s n i o : nat) :
  shape x = [b; s; n] -> shape w = [o; i] -> n <> i ->
  F_linear x w = Raise RuntimeError.
Proof.
  intros Hx Hw Hne. unfold F_linear. rewrite Hx, Hw. cbn [rev app].
  destruct (Nat.eqb_spec n i); [contradiction|reflexivity].
Qed.

Lemma torch_full_inv {A : Type} (v : A) (sizes : list Z) (t : tensor A) :
  torch_full v sizes = Ok t ->
  Forall (fun z => 0 <= z) sizes /\ shape t = map Z.to_nat sizes.
Proof.
  unfold torch_full, nonneg_shape.
  destruct (forallb (fun z => 0 <=? z) sizes) eqn:Hall; [|discriminate].
  cbn [bind ret Monad_result result_bind]. intros H. apply Ok_inj in H. subst t.
  split; [|reflexivity].
  apply Forall_forall. intros z Hz.
  rewrite forallb_forall in Hall. apply Z.leb_le. apply Hall. exact Hz.
Qed.

Lemma linear_init_inv (fl : Float) (i o : Z) (lin : Linear.t) :
  Linear.init i o = Ok lin ->
  0 <= i /\ 0 <= o /\ shape (Linear.weight lin) = [Z.to_nat o; Z.to_nat i].
Proof.
  unfold Linear.init.
  destruct (torch_full uninit [o; i]) as [w|] eqn:Hw; [|discriminate].
  cbn [bind ret Monad_result result_bind]. intros H. apply Ok_inj in H. subst lin.
  apply torch_full_inv in Hw. destruct Hw as [Hall Hshape].
  inversion Hall as [|? ? Ho Hrest]. inversion Hrest as [|? ? Hi _]. subst.
  cbn [Linear.weight]. auto.
Qed.

(** Rounding a multiple of a third to the nearest integer: never a tie,
    and upwards exactly when the remainder is 2. *)
Lemma round_half_even_three (x : Z) :
  0 <= x -> round_half_even x 3 = (x + 1) / 3.
Proof.
  intros Hx. unfold round_half_even.
  pose proof (Z.div_mod x 3 ltac:(lia)) as Hdm.
  pose proof (Z.mod_pos_bound x 3 ltac:(lia)) as Hb.
  set (q := x / 3) in *. set (r := x mod 3) in *.
  assert (Hr : r = 0 \/ r = 1 \/ r = 2) by lia.
  destruct Hr as [Hr|[Hr|Hr]]; rewrite Hr in *.
  - change (q = (x + 1) / 3). apply Z.div_unique with (r := 1); lia.
  - change (q = (x + 1) / 3). apply Z.div_unique with (r := 2); lia.
  - change (q + 1 = (x + 1) / 3). apply Z.div_unique with (r := 0); lia.
Qed.

Lemma double_exponent_le (num den : Z) :
  double_exponent num den <= Z.log2 num - Z.log2 den.
Proof.
  unfold double_exponent. destruct (_ <? _); lia.
Qed.

(** Below [2 ^ 53] the double nearest to [a / 3] keeps at least one
    fractional bit, so its truncation is the integer quotient: there
    [int(a / 3)] is [a // 3]. *)
Lemma py_int_truediv_three (a : Z) :
  0 <= a < 2 ^ 53 -> py_int_truediv a 3 = Ok (a / 3).
Proof.
  intros [Ha Hlt]. unfold py_int_truediv.
  change (3 =? 0) with false. cbv iota.
  destruct (Z.eqb_spec a 0) as [->|Hnz]; [reflexivity|].
  rewrite (Z.abs_eq a) by lia. change (Z.abs 3) with 3.
  assert (Hlog : Z.log2 a < 53) by (apply Z.log2_lt_pow2; lia).
  pose proof (double_exponent_le a 3) as He. change (Z.log2 3) with 1 in He.
  set (shift := Z.max (double_exponent a 3) (-1022) - 52).
  assert (Hs : shift <= -1) by lia.
  destruct (Z.leb_spec 0 shift) as [|_]; [lia|].
  cbn [andb].
  rewrite (Z.max_l 0 shift) by lia. rewrite (Z.max_r 0 (- shift)) by lia.
  change (2 ^ 0) with 1. rewrite Z.mul_1_r.
  assert (HP : 2 <= 2 ^ (- shift)).
  { change 2 with (2 ^ 1) at 1. apply Z.pow_le_mono_r; lia. }
  set (P := 2 ^ (- shift)) in *.
  rewrite round_half_even_three by nia.
  rewrite (Z.sgn_pos a) by lia. change (Z.sgn 3) with 1.
  f_equal. rewrite !Z.mul_1_l.
  pose proof (Z.div_mod a 3 ltac:(lia)) as Hdm.
  pose proof (Z.mod_pos_bound a 3 ltac:(lia)) as Hb.
  set (n := a / 3) in *. set (r := a mod 3) in *.
  pose proof (Z.div_mod (a * P + 1) 3 ltac:(lia)) as Hdm2.
  pose proof (Z.mod_pos_bound (a * P + 1) 3 ltac:(lia)) as Hb2.
  set (m := (a * P + 1) / 3) in *. set (r2 := (a * P + 1) mod 3) in *.
  symmetry. apply Z.div_unique with (r := m - n * P); nia.
Qed.

(** What a returned unit tells about its configuration: the width was
    computed, and it and [dim] are sizes. *)
Lemma feed_forward_init_inv (fl : Float) (args : ModelArgs.t) (ff : FeedForward.t) :
  FeedForward.init args = Ok ff ->
  ModelArgs.multiple_of args <> 0 /\
  0 <= ModelArgs.dim args /\
  exists width,
    ffn_width args = Ok width /\
    0 <= width /\
    shape (Linear.weight (FeedForward.w1 ff))
      = [Z.to_nat width; Z.to_nat (ModelArgs.dim args)] /\
    shape (Linear.weight (FeedForward.w2 ff))
      = [Z.to_nat (ModelArgs.dim args); Z.to_nat width] /\
    shape (Linear.weight (FeedForward.w3 ff))
      = [Z.to_nat width; Z.to_nat (ModelArgs.dim args)].
Proof.
  rewrite feed_forward_init_width.
  destruct (ffn_width args) as [w|]; [|discriminate].
  unfold py_floordiv.
  cbn [bind ret Monad_result result_bind].
  destruct (Z.eqb_spec (ModelArgs.multiple_of args) 0) as [|Hm]; [discriminate|].
  cbn [bind ret Monad_result result_bind].
  destruct (Linear.init (ModelArgs.dim args) w) as [l1|] eqn:H1; [|discriminate].
  cbn [bind ret Monad_result result_bind].
  destruct (Linear.init w (ModelArgs.dim args)) as [l2|] eqn:H2; [|discriminate].
  cbn [bind ret Monad_result result_bind].
  intros H. apply Ok_inj in H. subst ff.
  apply linear_init_inv in H1. apply linear_init_inv in H2.
  destruct H1 as (Hd & Hw & Hs1). destruct H2 as (_ & _ & Hs2).
  cbn [FeedForward.w1 FeedForward.w2 FeedForward.w3].
  split; [exact Hm|]. split; [exact Hd|]. exists w. auto 10.
Qed.

(** X10.  The constructor of [FeedForward] as a function of its
    configuration.
    When it returns, [multiple_of <> 0], [dim >= 0], and the hidden width,
    the value of [hidden_dim] after line 149, was computed and is
    non-negative; the three weights have shapes [width, dim],
    [dim, width] and [width, dim].
    An exception of the width computation is the exception of the
    constructor.  Once the width is computed, [multiple_of = 0] raises
    [ZeroDivisionError], although the quotient it is used for is
    discarded.
    For [0 <= 8 dim < 2 ^ 53] the division of line 147 is exact enough
    that [int(2 * hidden_dim / 3)] is [8 dim // 3]; the width is that
    number when no multiplier is configured, and otherwise
    [int(ffn_dim_multiplier)] ([dim] then plays no part): the truncated
    multiplier, [OverflowError] for an infinity, [ValueError] for a
    NaN. *)
Theorem feed_forward_init_characterised (fl : Float) (args : ModelArgs.t) :
  (forall ff, FeedForward.init args = Ok ff ->
     ModelArgs.multiple_of args <> 0 /\
     0 <= ModelArgs.dim args /\
     exists width,
       ffn_width args = Ok width /\
       0 <= width /\
       shapeZ (Linear.weight (FeedForward.w1 ff)) = [width; ModelArgs.dim args] /\
       shapeZ (Linear.weight (FeedForward.w2 ff)) = [ModelArgs.dim args; width] /\
       shapeZ (Linear.weight (FeedForward.w3 ff)) = [width; ModelArgs.dim args]) /\
  (forall e, ffn_width args = Raise e -> FeedForward.init args = Raise e) /\
  (forall width, ffn_width args = Ok width -> ModelArgs.multiple_of args = 0 ->
     FeedForward.init args = Raise ZeroDivisionError) /\
  (0 <= ModelArgs.dim args -> 8 * ModelArgs.dim args < 2 ^ 53 ->
   ffn_width args =
     match ModelArgs.ffn_dim_multiplier args with
     | None => Ok (8 * ModelArgs.dim args / 3)
     | Some (Finite q) => Ok (Z.quot (Qnum q) (Zpos (Qden q)))
     | Some (Infinity _) => Raise OverflowError
     | Some NaN => Raise ValueError
     end).
Proof.
  split; [|split; [|split]].
  - intros ff Hinit.
    destruct (feed_forward_init_inv fl args ff Hinit)
      as (Hm & Hd & w & Hw & Hpos & H1 & H2 & H3).
    split; [exact Hm|]. split; [exact Hd|]. exists w.
    split; [exact Hw|]. split; [exact Hpos|].
    unfold shapeZ. rewrite H1, H2, H3. cbn [map].
    rewrite !Z2Nat.id by assumption. auto.
  - intros e He. rewrite feed_forward_init_width, He. reflexivity.
  - intros w Hw Hm. rewrite feed_forward_init_width, Hw.
    unfold py_floordiv. rewrite Hm. reflexivity.
  - intros Hd Hlt. unfold ffn_width.
    replace (2 * (4 * ModelArgs.dim args)) with (8 * ModelArgs.dim args) by lia.
    rewrite py_int_truediv_three by lia.
    cbn [bind ret Monad_result result_bind].
    destruct (ModelArgs.ffn_dim_multiplier args) as [[q|b|]|]; reflexivity.
Qed.

Lemma feed_forward_init_characterised_witness :
  (exists ff width,
     FeedForward.init (fl := RFloat) example_args = Ok ff /\
     ffn_width example_args = Ok width /\
     shapeZ (Linear.weight (FeedForward.w1 ff)) = [width; ModelArgs.dim example_args]) /\
  FeedForward.init (fl := RFloat) zero_multiple_args = Raise ZeroDivisionError /\
  FeedForward.init (fl := RFloat) nan_multiplier_args = Raise ValueError /\
  ffn_width ModelArgs.default = Ok (8 * 4096 / 3).
Proof.
  split; [|split; [|split]].
  - eexists.
    destruct (proj1 (feed_forward_init_characterised RFloat example_args) _ eq_refl)
      as (_ & _ & width & Hw & _ & H1 & _).
    exists width. split; [reflexivity|]. split; [exact Hw|exact H1].
  - apply (proj1 (proj2 (proj2 (feed_forward_init_characterised RFloat zero_multiple_args)))
             (8 * ModelArgs.dim zero_multiple_args / 3)).
    + vm_compute. reflexivity.
    + reflexivity.
  - apply (proj1 (proj2 (feed_forward_init_characterised RFloat nan_multiplier_args))).
    vm_compute. reflexivity.
  - apply (proj2 (proj2 (proj2 (feed_forward_init_characterised RFloat ModelArgs.default))));
      vm_compute; reflexivity || discriminate.
Defined.

(** X11.  A feed-forward unit that its constructor returned maps an
    input of shape [b, s, dim] to an output of the same shape, and refuses
    an input whose last axis is not [dim] with [RuntimeError]. *)
Theorem feed_forward_forward_shape (fl : Float) (args : ModelArgs.t) (ff : FeedForward.t)
    (x : tensor F) (b s n : nat) :
  FeedForward.init args = Ok ff ->
  shape x = [b; s; n] ->
  (n = Z.to_nat (ModelArgs.dim args) ->
   exists y, FeedForward.forward ff x = Ok y /\ shape y = shape x) /\
  (n <> Z.to_nat (ModelArgs.dim args) ->
   FeedForward.forward ff x = Raise RuntimeError).
Proof.
  intros Hinit Hx.
  destruct (feed_forward_init_inv fl args ff Hinit)
    as (_ & _ & width & _ & _ & H1 & H2 & H3).
  unfold FeedForward.forward, Linear.forward.
  split.
  - intros ->.
    destruct (F_linear_shape fl x _ _ _ _ _ Hx H1) as (h1 & Hh1 & Hs1 & _).
    destruct (F_linear_shape fl x _ _ _ _ _ Hx H3) as (xv & Hxv & Hsv & _).
    rewrite Hh1. cbn [bind ret Monad_result result_bind].
    rewrite Hxv. cbn [bind ret Monad_result result_bind].
    unfold tensor_mul, pointwise. cbn [F_silu tensor_map shape].
    rewrite Hsv, Hs1, broadcast_shapes_same.
    cbn [bind ret Monad_result result_bind].
    match goal with
    | |- context [F_linear ?g _] =>
        destruct (F_linear_shape fl g (Linear.weight (FeedForward.w2 ff))
                    b s (Z.to_nat width) (Z.to_nat (ModelArgs.dim args)))
          as (y & Hy & Hsy & _); [reflexivity|exact H2|]
    end.
    rewrite Hy. cbn [bind ret Monad_result result_bind].
    exists y. split; [reflexivity|]. rewrite Hsy, Hx. reflexivity.
  - intros Hne.
    rewrite (F_linear_mismatch fl x _ _ _ _ _ _ Hx H1 Hne). reflexivity.
Qed.

Lemma feed_forward_forward_shape_witness :
  exists ff,
    FeedForward.init (fl := RFloat) example_args = Ok ff /\
    (exists y, FeedForward.forward ff example_input = Ok y /\ shape y = [1; 1; 2]%nat) /\
    FeedForward.forward ff (mkTensor [1; 1; 3]%nat [1; 0; 2]%R) = Raise RuntimeError.
Proof.
  eexists. split; [reflexivity|]. split.
  - apply (proj1 (feed_forward_forward_shape RFloat example_args _ example_input 1 1 2
                    eq_refl eq_refl)).
    reflexivity.
  - apply (proj2 (feed_forward_forward_shape RFloat example_args _
                    (mkTensor [1; 1; 3]%nat [1; 0; 2]%R) 1 1 3 eq_refl eq_refl)).
    simpl. lia.
Defined.

(* --------------------------------------------------------------------- *)
(** *** Which models can be built *)
(* --------------------------------------------------------------------- *)

Lemma precompute_ok_iff (fl : Float) (head_dim seq_len : Z) (device : option string)
    (theta : Q) :
  is_ok (precompute_theta_pos_embeddings head_dim seq_len device theta) = true <->
  head_dim mod 2 = 1 /\ 0 <= head_dim /\ 0 <= seq_len /\ to_device device = Ok tt.
Proof.
  unfold precompute_theta_pos_embeddings, py_mod, torch_arange, py_truthy. simpl (2 =? 0).
  cbn [bind ret Monad_result result_bind].
  pose proof (Z.mod_pos_bound head_dim 2) as Hbound.
  destruct (Z.eqb_spec (head_dim mod 2) 0) as [Hm|Hm];
    cbn [negb py_assert bind ret Monad_result result_bind is_ok].
  - split; [discriminate|]. intros (H1 & _). lia.
  - destruct (Z.ltb_spec head_dim 0) as [Hh|Hh];
      cbn [bind ret Monad_result result_bind is_ok].
    + split; [discriminate|]. intros (_ & H2 & _). lia.
    + destruct (to_device device) as [[]|e];
        cbn [bind ret Monad_result result_bind is_ok].
      * destruct (Z.ltb_spec seq_len 0) as [Hs|Hs];
          cbn [bind ret Monad_result result_bind is_ok].
        -- split; [discriminate|]. intros (_ & _ & H3 & _). lia.
        -- split; [|reflexivity]. intros _. repeat split; lia.
      * split; [discriminate|]. intros (_ & _ & _ & H4). discriminate H4.
Qed.

Lemma embedding_init_inv (fl : Float) (v dm : Z) (emb : Embedding.t) :
  Embedding.init v dm = Ok emb ->
  0 <= v /\ 0 <= dm /\ shape (Embedding.weight emb) = [Z.to_nat v; Z.to_nat dm].
Proof.
  unfold Embedding.init.
  destruct (torch_full uninit [v; dm]) as [w|] eqn:Hw; [|discriminate].
  cbn [bind ret Monad_result result_bind]. intros H. apply Ok_inj in H. subst emb.
  apply torch_full_inv in Hw. destruct Hw as [Hall Hshape].
  inversion Hall as [|? ? Hv Hrest]. inversion Hrest as [|? ? Hd _]. subst.
  cbn [Embedding.weight]. auto.
Qed.

Lemma rms_norm_init_inv (fl : Float) (dm : Z) (eps : Q) (norm : RMSNorm.t) :
  RMSNorm.init dm eps = Ok norm ->
  0 <= dm /\ shape (RMSNorm.weight norm) = [Z.to_nat dm] /\ RMSNorm.eps norm = eps.
Proof.
  unfold RMSNorm.init.
  destruct (torch_full one [dm]) as [w|] eqn:Hw; [|discriminate].
  cbn [bind ret Monad_result result_bind]. intros H. apply Ok_inj in H. subst norm.
  apply torch_full_inv in Hw. destruct Hw as [Hall Hshape].
  inversion Hall as [|? ? Hd _]. subst.
  cbn [RMSNorm.weight RMSNorm.eps]. auto.
Qed.

(** What the constructor guarantees of a model it returns. *)
Lemma transformers_init_model (fl : Float) (args : ModelArgs.t) (model : Transformers.t) :
  Transformers.init args = Ok model ->
  ModelArgs.n_layers args <= 0 /\
  0 <= ModelArgs.vocab_size args /\
  0 <= ModelArgs.dim args /\
  ModelArgs.n_heads args <> 0 /\
  precompute_theta_pos_embeddings
    (ModelArgs.dim args / ModelArgs.n_heads args)
    (ModelArgs.max_seq_len args * 2) (ModelArgs.device args) 10000
    = Ok (Transformers.freqs_complex model) /\
  Transformers.layers model = [] /\
  shape (Embedding.weight (Transformers.tok_embeddings model))
    = [Z.to_nat (ModelArgs.vocab_size args); Z.to_nat (ModelArgs.dim args)] /\
  shape (RMSNorm.weight (Transformers.norm model)) = [Z.to_nat (ModelArgs.dim args)] /\
  shape (Linear.weight (Transformers.output model))
    = [Z.to_nat (ModelArgs.vocab_size args); Z.to_nat (ModelArgs.dim args)].
Proof.
  unfold Transformers.init.
  destruct (Embedding.init _ _) as [emb|] eqn:He; [|discriminate].
  cbn [bind ret Monad_result result_bind].
  destruct (Z.to_nat (ModelArgs.n_layers args)) as [|n] eqn:Hn.
  2:{ rewrite append_layers_error. discriminate. }
  cbn [Transformers.append_layers bind ret Monad_result result_bind].
  destruct (RMSNorm.init _ _) as [norm|] eqn:Hnorm; [|discriminate].
  cbn [bind ret Monad_result result_bind].
  destruct (Linear.init _ _) as [out|] eqn:Hout; [|discriminate].
  cbn [bind ret Monad_result result_bind].
  unfold py_floordiv.
  destruct (Z.eqb_spec (ModelArgs.n_heads args) 0) as [|Hh]; [discriminate|].
  cbn [bind ret Monad_result result_bind].
  destruct (precompute_theta_pos_embeddings _ _ _ _) as [table|] eqn:Ht; [|discriminate].
  cbn [bind ret Monad_result result_bind].
  intros H. apply Ok_inj in H. subst model.
  apply embedding_init_inv in He. destruct He as (Hv & Hd & Hse).
  apply rms_norm_init_inv in Hnorm. destruct Hnorm as (_ & Hsn & _).
  apply linear_init_inv in Hout. destruct Hout as (_ & _ & Hso).
  cbn [Transformers.layers Transformers.tok_embeddings Transformers.norm
       Transformers.output Transformers.freqs_complex].
  repeat split; try assumption. lia.
Qed.

(** X12.  Every model that the constructor of [Transformers] returns
    comes from a configuration with [n_layers <= 0], [vocab_size >= 0],
    [dim >= 0], [n_heads <> 0], a non-negative odd head dimension
    [dim // n_heads], [max_seq_len >= 0] and a device that torch accepts
    (or none); the model has no layers, and its rotary table has
    [2 * max_seq_len] rows and [(head_dim + 1) / 2] columns. *)
Theorem transformers_init_characterised (fl : Float) (args : ModelArgs.t)
    (model : Transformers.t) :
  Transformers.init args = Ok model ->
  ModelArgs.n_layers args <= 0 /\
  0 <= ModelArgs.vocab_size args /\
  0 <= ModelArgs.dim args /\
  ModelArgs.n_heads args <> 0 /\
  (ModelArgs.dim args / ModelArgs.n_heads args) mod 2 = 1 /\
  0 <= ModelArgs.dim args / ModelArgs.n_heads args /\
  0 <= ModelArgs.max_seq_len args /\
  to_device (ModelArgs.device args) = Ok tt /\
  Transformers.layers model = [] /\
  shape (Transformers.freqs_complex model)
    = [Z.to_nat (ModelArgs.max_seq_len args * 2);
       Z.to_nat ((ModelArgs.dim args / ModelArgs.n_heads args + 1) / 2)].
Proof.
  intros Hinit.
  destruct (transformers_init_model fl args model Hinit)
    as (Hn & Hv & Hd & Hh & Ht & Hl & _).
  assert (Hok : is_ok (precompute_theta_pos_embeddings
                         (ModelArgs.dim args / ModelArgs.n_heads args)
                         (ModelArgs.max_seq_len args * 2) (ModelArgs.device args) 10000)
                = true) by (rewrite Ht; reflexivity).
  apply precompute_ok_iff in Hok. destruct Hok as (Hodd & Hpos & Hlen & Hdev).
  apply precompute_ok_inv in Ht. destruct Ht as [_ Hshape].
  repeat split; try assumption. lia.
Qed.

Lemma transformers_init_characterised_witness :
  Transformers.layers no_layer_model = [] /\
  shape (Transformers.freqs_complex no_layer_model) = [4; 2]%nat /\
  to_device (fl := RFloat) (ModelArgs.device no_layer_args) = Ok tt.
Proof.
  destruct (transformers_init_characterised RFloat no_layer_args no_layer_model eq_refl)
    as (_ & _ & _ & _ & _ & _ & _ & Hdev & Hl & Hshape).
  split; [exact Hl|]. split; [exact Hshape|exact Hdev].
Defined.

(* --------------------------------------------------------------------- *)
(** *** The forward step on a model *)
(* --------------------------------------------------------------------- *)

Lemma embedding_forward_shape (fl : Float) (emb : Embedding.t) (tokens : tensor Z)
    (V D : nat) :
  shape (Embedding.weight emb) = [V; D] ->
  Forall (fun z => 0 <= z < Z.of_nat V) (data tokens) ->
  exists h, Embedding.forward emb tokens = Ok h /\
            shape h = shape tokens ++ [D] /\ wf_tensor h.
Proof.
  intros Hw Hall. unfold Embedding.forward. rewrite Hw.
  replace (forallb (fun z => (0 <=? z) && (z <? Z.of_nat V)) (data tokens)) with true.
  - eexists. split; [reflexivity|]. split; [reflexivity|apply wf_tabulate].
  - symmetry. apply forallb_forall. intros z Hz.
    rewrite Forall_forall in Hall. specialize (Hall z Hz).
    apply andb_true_iff. split; [apply Z.leb_le|apply Z.ltb_lt]; lia.
Qed.

Lemma embedding_forward_out_of_range (fl : Float) (emb : Embedding.t) (tokens : tensor Z)
    (V D : nat) :
  shape (Embedding.weight emb) = [V; D] ->
  Exists (fun z => z < 0 \/ Z.of_nat V <= z) (data tokens) ->
  Embedding.forward emb tokens = Raise IndexError.
Proof.
  intros Hw Hex. unfold Embedding.forward. rewrite Hw.
  replace (forallb (fun z => (0 <=? z) && (z <? Z.of_nat V)) (data tokens)) with false;
    [reflexivity|].
  symmetry. apply not_true_is_false. intros Hall.
  rewrite forallb_forall in Hall.
  apply Exists_exists in Hex. destruct Hex as (z & Hz & Hout).
  specialize (Hall z Hz). apply andb_true_iff in Hall.
  destruct Hall as [H1 H2]. apply Z.leb_le in H1. apply Z.ltb_lt in H2. lia.
Qed.

Lemma rms_norm_forward_ok (fl : Float) (norm : RMSNorm.t) (x : tensor F) (b s n : nat) :
  shape x = [b; s; n] ->
  shape (RMSNorm.weight norm) = [n] ->
  exists y, RMSNorm.forward norm x = Ok y /\ shape y = [b; s; n] /\ wf_tensor y.
Proof.
  intros Hx Hw. unfold RMSNorm.forward, RMSNorm._norm, tensor_mul, pointwise.
  assert (Hr : shape (torch_rsqrt
                        (tensor_map (fun v => fadd v (f_of_Q (RMSNorm.eps norm)))
                           (mean_last_keepdim (tensor_map (fun v => fmul v v) x))))
               = [b; s; 1%nat])
    by (unfold torch_rsqrt; cbn [tensor_map shape]; apply (mean_square_shape x b s n Hx)).
  rewrite Hr, Hx, broadcast_shapes_keepdim.
  cbn [bind ret Monad_result result_bind tabulate shape].
  rewrite Hw, broadcast_shapes_last_axis.
  cbn [bind ret Monad_result result_bind].
  eexists. split; [reflexivity|]. split; [reflexivity|apply wf_tabulate].
Qed.

Lemma set_layers_same (fl : Float) (self : Transformers.t) :
  Transformers.set_layers (Transformers.layers self) self = self.
Proof. destruct self. reflexivity. Qed.

Lemma check_single_token_ok (tokens : tensor Z) (b : nat) :
  shape tokens = [b; 1%nat] ->
  Transformers.check_single_token tokens = Ok (Z.of_nat b, 1).
Proof.
  intros Hs. unfold Transformers.check_single_token, shapeZ. rewrite Hs. reflexivity.
Qed.

(** X13.  On a model without layers whose parameters have the shapes
    the constructor gives them (embedding [V, D], final norm [D], output
    projection [V', D], a two-axis rotary table), a step on [b] token ids
    in [0, V) returns logits of shape [b, 1, V'] and leaves the model
    unchanged, for every [start_pos]: the position is not checked against
    [max_seq_len] or the length of the table. *)
Theorem transformers_forward_without_layers (fl : Float) (self : Transformers.t)
    (tokens : tensor Z) (start_pos : Z) (b V D V' L K : nat) :
  Transformers.layers self = [] ->
  shape (Embedding.weight (Transformers.tok_embeddings self)) = [V; D] ->
  shape (RMSNorm.weight (Transformers.norm self)) = [D] ->
  shape (Linear.weight (Transformers.output self)) = [V'; D] ->
  shape (Transformers.freqs_complex self) = [L; K] ->
  shape tokens = [b; 1%nat] ->
  Forall (fun z => 0 <= z < Z.of_nat V) (data tokens) ->
  exists logits,
    runM (Transformers.forward tokens start_pos) self = (self, Ok logits) /\
    shape logits = [b; 1%nat; V'].
Proof.
  intros Hl He Hn Ho Hf Ht Hall.
  destruct (embedding_forward_shape fl _ tokens V D He Hall) as (h & Hh & Hsh & _).
  rewrite Ht in Hsh. cbn [app] in Hsh.
  destruct (rms_norm_forward_ok fl _ h b 1 D Hsh Hn) as (y & Hy & Hsy & _).
  destruct (F_linear_shape fl y _ b 1 D V' Hsy Ho) as (logits & Hlog & Hsl & _).
  exists logits. split; [|exact Hsl].
  unfold Transformers.forward. run_method.
  rewrite (check_single_token_ok tokens b Ht). run_method.
  rewrite Hh. run_method.
  unfold getitem. rewrite Hf.
  cbn [slice_region bind ret Monad_result result_bind]. run_method.
  assert (Hsame : Transformers.set_layers [] self = self)
    by (rewrite <- Hl; apply set_layers_same).
  rewrite Hl. cbn [Transformers.forward_layers]. run_method.
  rewrite !Hsame.
  rewrite Hy. run_method.
  unfold Linear.forward. rewrite Hlog. reflexivity.
Qed.

Lemma transformers_forward_without_layers_witness :
  exists logits,
    runM (Transformers.forward (mkTensor [2; 1]%nat [3; 7]) 100) no_layer_model
      = (no_layer_model, Ok logits) /\
    shape logits = [2; 1; 10]%nat.
Proof.
  apply (transformers_forward_without_layers RFloat no_layer_model
           (mkTensor [2; 1]%nat [3; 7]) 100 2 10 6 10 4 2);
    try reflexivity.
  repeat constructor; cbn; lia.
Defined.

(** X14.  A token id below 0 or at or above the number of embedding
    rows makes the step raise [IndexError] at the embedding lookup, before
    any layer runs and with the model unchanged. *)
Theorem transformers_forward_token_out_of_range (fl : Float) (self : Transformers.t)
    (tokens : tensor Z) (start_pos : Z) (b V D : nat) :
  shape (Embedding.weight (Transformers.tok_embeddings self)) = [V; D] ->
  shape tokens = [b; 1%nat] ->
  Exists (fun z => z < 0 \/ Z.of_nat V <= z) (data tokens) ->
  runM (Transformers.forward tokens start_pos) self = (self, Raise IndexError).
Proof.
  intros He Ht Hex.
  unfold Transformers.forward. run_method.
  rewrite (check_single_token_ok tokens b Ht). run_method.
  rewrite (embedding_forward_out_of_range fl _ tokens V D He Hex). reflexivity.
Qed.

Lemma transformers_forward_token_out_of_range_witness :
  runM (Transformers.forward (mkTensor [1; 1]%nat [10]) 0) no_layer_model
    = (no_layer_model, Raise IndexError).
Proof.
  apply (transformers_forward_token_out_of_range RFloat no_layer_model
           (mkTensor [1; 1]%nat [10]) 0 1 10 6).
  - reflexivity.
  - reflexivity.
  - constructor. cbn. lia.
Defined.

(** X15.  On a model that holds at least one block, no step returns
    logits: whatever the tokens and the position, the call raises, at the
    latest inside the first block, and the model, caches included, is
    left as it was. *)
Theorem transformers_forward_with_layers_raises (fl : Float) (self : Transformers.t)
    (tokens : tensor Z) (start_pos : Z) (block : EncoderBlock.t)
    (blocks : list EncoderBlock.t) :
  Transformers.layers self = block :: blocks ->
  exists e, runM (Transformers.forward tokens start_pos) self = (self, Raise e).
Proof.
  intros Hl. unfold Transformers.forward. run_method.
  destruct (Transformers.check_single_token tokens) as [[bs sl]|e]; run_method;
    [|exists e; reflexivity].
  step_or_raise (Embedding.forward (Transformers.tok_embeddings self) tokens).
  match goal with
  | |- context [getitem ?d ?t ?sls] => step_or_raise (getitem d t sls)
  end.
  rewrite Hl. cbn [Transformers.forward_layers].
  match goal with
  | |- context [EncoderBlock.forward ?h ?p ?f] =>
      destruct (encoder_block_forward_raises fl block h p f) as [e He]; rewrite He
  end.
  exists e. rewrite <- Hl, set_layers_same. reflexivity.
Qed.

Lemma transformers_forward_with_layers_raises_witness :
  exists e,
    runM (Transformers.forward (mkTensor [1; 1]%nat [0]) 0) example_model
      = (example_model, Raise e).
Proof.
  apply (transformers_forward_with_layers_raises RFloat example_model
           (mkTensor [1; 1]%nat [0]) 0 example_block []).
  reflexivity.
Defined.

(* --------------------------------------------------------------------- *)
(** *** The cache properties at concrete inputs *)
(* --------------------------------------------------------------------- *)

Lemma kv_cache_write_frame_witness :
  let xk := mkTensor [1; 1; 1; 2]%nat [3; 4]%R in
  let xv := mkTensor [1; 1; 1; 2]%nat [5; 6]%R in
  exists self' keys values,
    runM (SelfAttention.update_kv_cache (fl := RFloat) xk xv (Z.of_nat 1) (Z.of_nat 1) 1)
         example_attention
      = (self', Ok (keys, values)) /\
    get (@zero RFloat) (SelfAttention.cache_k self') [0; 0; 0; 1]%nat
      = get (@zero RFloat) (SelfAttention.cache_k example_attention) [0; 0; 0; 1]%nat /\
    get (@zero RFloat) keys [0; 0; 0; 1]%nat
      = get (@zero RFloat) (SelfAttention.cache_k example_attention) [0; 0; 0; 1]%nat.
Proof.
  destruct (kv_cache_write_frame RFloat example_attention
              (mkTensor [1; 1; 1; 2]%nat [3; 4]%R) (mkTensor [1; 1; 1; 2]%nat [5; 6]%R)
              1 2 1 2 1 1)
    as (self' & keys & values & Hrun & _ & _ & Hframe & Hhist);
    try reflexivity; try lia.
  exists self', keys, values. split; [exact Hrun|]. split.
  - apply (Hframe 0 0 0 1)%nat; lia.
  - apply (Hhist 0 0 0 1)%nat; lia.
Defined.

Lemma kv_cache_two_steps_witness :
  let xk1 := mkTensor [1; 1; 1; 2]%nat [3; 4]%R in
  let xv1 := mkTensor [1; 1; 1; 2]%nat [5; 6]%R in
  let xk2 := mkTensor [1; 1; 1; 2]%nat [7; 8]%R in
  let xv2 := mkTensor [1; 1; 1; 2]%nat [9; 10]%R in
  exists self' keys values,
    runM (_ <- SelfAttention.update_kv_cache (fl := RFloat) xk1 xv1 (Z.of_nat 1) (Z.of_nat 0) 1 ;;
          SelfAttention.update_kv_cache (fl := RFloat) xk2 xv2 (Z.of_nat 1) (Z.of_nat (0 + 1)) 1)
         example_attention
      = (self', Ok (keys, values)) /\
    shape keys = [1; 2; 1; 2]%nat /\
    get (@zero RFloat) keys [0; 0; 0; 1]%nat = get (@zero RFloat) xk1 [0; 0; 0; 1]%nat /\
    get (@zero RFloat) keys [0; 1; 0; 1]%nat = get (@zero RFloat) xk2 [0; 0; 0; 1]%nat.
Proof.
  destruct (kv_cache_two_steps RFloat example_attention
              (mkTensor [1; 1; 1; 2]%nat [3; 4]%R) (mkTensor [1; 1; 1; 2]%nat [5; 6]%R)
              (mkTensor [1; 1; 1; 2]%nat [7; 8]%R) (mkTensor [1; 1; 1; 2]%nat [9; 10]%R)
              1 2 1 2 1 0)
    as (self' & keys & values & Hrun & Hshape & _ & Hget);
    try reflexivity; try lia.
  exists self', keys, values. split; [exact Hrun|]. split; [exact Hshape|].
  destruct (Hget 0 0 1)%nat as (H1 & _ & H2 & _); try lia.
  split; [exact H1|exact H2].
Defined.

Example kv_cache_two_steps_history :
  snd (runM (_ <- SelfAttention.update_kv_cache (fl := RFloat)
                    (mkTensor [1; 1; 1; 2]%nat [3; 4]%R)
                    (mkTensor [1; 1; 1; 2]%nat [5; 6]%R) 1 0 1 ;;
             SelfAttention.update_kv_cache (fl := RFloat)
                    (mkTensor [1; 1; 1; 2]%nat [7; 8]%R)
                    (mkTensor [1; 1; 1; 2]%nat [9; 10]%R) 1 1 1) example_attention)
  = Ok (mkTensor [1; 2; 1; 2]%nat [3; 4; 7; 8]%R,
        mkTensor [1; 2; 1; 2]%nat [5; 6; 9; 10]%R).
Proof. reflexivity. Qed.

Lemma kv_cache_batch_overflow_witness :
  runM (SelfAttention.update_kv_cache (fl := RFloat)
          (mkTensor [2; 1; 1; 2]%nat [3; 4; 5; 6]%R)
          (mkTensor [2; 1; 1; 2]%nat [3; 4; 5; 6]%R) (Z.of_nat 2) 0 1) example_attention
    = (example_attention, Raise RuntimeError).
Proof.
  apply (kv_cache_batch_overflow RFloat example_attention
           (mkTensor [2; 1; 1; 2]%nat [3; 4; 5; 6]%R)
           (mkTensor [2; 1; 1; 2]%nat [3; 4; 5; 6]%R) 1 2 1 2 2 0).
  - reflexivity.
  - reflexivity.
  - lia.
  - lia.
Defined.

Lemma kv_cache_position_overflow_witness :
  let xk := mkTensor [1; 1; 1; 2]%nat [3; 4]%R in
  let xv := mkTensor [1; 1; 1; 2]%nat [5; 6]%R in
  exists self' keys values,
    runM (SelfAttention.update_kv_cache (fl := RFloat) xk xv (Z.of_nat 1) (Z.of_nat 2) 1)
         example_attention
      = (self', Ok (keys, values)) /\
    shape keys = [1; 2; 1; 2]%nat /\
    get (@zero RFloat) (SelfAttention.cache_k self') [0; 1; 0; 0]%nat
      = get (@zero RFloat) (SelfAttention.cache_k example_attention) [0; 1; 0; 0]%nat.
Proof.
  destruct (kv_cache_position_overflow RFloat example_attention
              (mkTensor [1; 1; 1; 2]%nat [3; 4]%R) (mkTensor [1; 1; 1; 2]%nat [5; 6]%R)
              1 2 1 2 1 2)
    as (self' & keys & values & Hrun & Hshape & _ & Hsame & _);
    try reflexivity; try lia.
  exists self', keys, values. split; [exact Hrun|]. split; [exact Hshape|].
  apply (Hsame 0 1 0 0)%nat; lia.
Defined.

Example kv_cache_position_overflow_history :
  snd (runM (SelfAttention.update_kv_cache (fl := RFloat)
               (mkTensor [1; 1; 1; 2]%nat [3; 4]%R)
               (mkTensor [1; 1; 1; 2]%nat [5; 6]%R) 1 2 1) example_attention)
  = Ok (mkTensor [1; 2; 1; 2]%nat [0; 0; 0; 0]%R,
        mkTensor [1; 2; 1; 2]%nat [0; 0; 0; 0]%R).
Proof. reflexivity. Qed.
